(** * Verification of the LIBERO evaluation script and its log converter

    Two programs of the repository are embedded here:

    - [experiments/logs/convert2csv.py], the converter of the motion trace
      into a CSV file (module [Convert]);
    - [experiments/robot/libero/run_libero_eval.py], the closed-loop
      evaluation of a policy over a task suite (modules [Similarity] and
      [Eval]).

    Python values are modelled as follows.  Text is [string] (ASCII).  Integers
    are [Z].  A local name of [eval_libero] that may be read before it is
    bound ([done], [max_steps], [actions_previous_xyz], ...) is an [option].
    Dictionaries loaded from JSON are [gmap string _].  The simulator, the
    policy and the helpers imported from other modules are fields of a record
    of external operations over an abstract world state. *)

From Stdlib Require Import Floats.
From Stdlib Require Import ZArith QArith List String Ascii Bool Lia.
From Stdlib Require Import Reals Lra.
From stdpp Require Import base gmap strings.

Import ListNotations.
Set Warnings "-inexact-float".
Local Open Scope string_scope.
Local Open Scope list_scope.

(* ===================================================================== *)
(** * convert2csv.py *)
(* ===================================================================== *)

Module Convert.

(** ** Python string primitives used by the converter *)

(** [str.isspace] on the ASCII range: TAB, LF, VT, FF, CR, the four
    separators 0x1c-0x1f and the blank. *)
Definition is_space (c : ascii) : bool :=
  let n := nat_of_ascii c in
  (Nat.leb 9 n && Nat.leb n 13) || (Nat.leb 28 n && Nat.leb n 32).

Fixpoint lstrip (s : list ascii) : list ascii :=
  match s with
  | c :: s' => if is_space c then lstrip s' else s
  | [] => []
  end.

Definition rstrip (s : list ascii) : list ascii := rev (lstrip (rev s)).

(** [str.strip()] *)
Definition py_strip (s : string) : string :=
  string_of_list_ascii (rstrip (lstrip (list_ascii_of_string s))).

(** [str.split(sep)] for a one-character separator: never empty, keeps
    empty fields.  [cur] is the field being read, reversed. *)
Fixpoint split_on (sep : ascii) (cur : list ascii) (s : list ascii)
  : list string :=
  match s with
  | [] => [string_of_list_ascii (rev cur)]
  | c :: s' =>
      if Ascii.eqb c sep
      then string_of_list_ascii (rev cur) :: split_on sep [] s'
      else split_on sep (c :: cur) s'
  end.

Definition py_split_comma (s : string) : list string :=
  split_on "," [] (list_ascii_of_string s).

(** [str.split()] without argument: fields are the maximal runs of
    non-blank characters; no empty field is produced. *)
Fixpoint split_ws (cur : list ascii) (s : list ascii) : list string :=
  match s with
  | [] => match cur with
          | [] => []
          | _ => [string_of_list_ascii (rev cur)]
          end
  | c :: s' =>
      if is_space c
      then match cur with
           | [] => split_ws [] s'
           | _ => string_of_list_ascii (rev cur) :: split_ws [] s'
           end
      else split_ws (c :: cur) s'
  end.

Definition py_split (s : string) : list string :=
  split_ws [] (list_ascii_of_string s).

(** ** [float(str)]

    The value of a finite literal is the rational it denotes, kept in
    lowest terms so that equal values are equal terms.  The binary64
    number Python stores is the rounding of that rational: the sign of a
    zero, the overflow to infinity and the underflow to zero are not
    represented. *)
Inductive pyfloat : Type :=
| Finite (q : Q)
| Infinite (negative : bool)
| NaN.

Definition is_digit (c : ascii) : bool :=
  let n := nat_of_ascii c in Nat.leb 48 n && Nat.leb n 57.

Definition digit_val (c : ascii) : Z := Z.of_nat (nat_of_ascii c) - 48.

Definition lower (c : ascii) : ascii :=
  let n := nat_of_ascii c in
  if Nat.leb 65 n && Nat.leb n 90 then ascii_of_nat (n + 32) else c.

(** The rest of a [digitpart] after its first digit:
    [(["_"] digit)*].  Returns the number read so far, the count of digits
    and the unread text. *)
Fixpoint digits_tail (acc : Z) (n : nat) (s : list ascii)
  : Z * nat * list ascii :=
  match s with
  | c :: s' =>
      if is_digit c then digits_tail (10 * acc + digit_val c) (S n) s'
      else if Ascii.eqb c "_" then
        match s' with
        | d :: s'' =>
            if is_digit d
            then digits_tail (10 * acc + digit_val d) (S n) s''
            else (acc, n, s)
        | [] => (acc, n, s)
        end
      else (acc, n, s)
  | [] => (acc, n, [])
  end.

(** [digitpart ::= digit (["_"] digit)*], continuing the number [acc]. *)
Definition digitpart (acc : Z) (s : list ascii)
  : option (Z * nat * list ascii) :=
  match s with
  | c :: s' =>
      if is_digit c then Some (digits_tail (10 * acc + digit_val c) 1 s')
      else None
  | [] => None
  end.

(** [number ::= [digitpart] "." digitpart | digitpart ["."]]: the digits as
    one integer and the count of digits after the point. *)
Definition number (s : list ascii) : option (Z * nat * list ascii) :=
  match digitpart 0 s with
  | Some (i, _, rest) =>
      match rest with
      | c :: rest' =>
          if Ascii.eqb c "." then
            match digitpart i rest' with
            | Some (m, k, rest'') => Some (m, k, rest'')
            | None => Some (i, O, rest')
            end
          else Some (i, O, rest)
      | [] => Some (i, O, [])
      end
  | None =>
      match s with
      | c :: rest' =>
          if Ascii.eqb c "." then digitpart 0 rest' else None
      | [] => None
      end
  end.

(** [exponent ::= ("e" | "E") [sign] digitpart]; an absent exponent is 0. *)
Definition exponent (s : list ascii) : option Z :=
  match s with
  | [] => Some 0%Z
  | c :: s' =>
      if Ascii.eqb (lower c) "e" then
        let '(neg, s'') :=
          match s' with
          | d :: r => if Ascii.eqb d "-" then (true, r)
                      else if Ascii.eqb d "+" then (false, r)
                      else (false, s')
          | [] => (false, s')
          end in
        match digitpart 0 s'' with
        | Some (e, _, []) => Some (if neg then (- e)%Z else e)
        | _ => None
        end
      else None
  end.

(** [m * 10^e] in lowest terms. *)
Definition scale10 (m e : Z) : Q :=
  if (0 <=? e)%Z then Qred (Qmake (m * 10 ^ e) 1)
  else Qred (Qmake m (Z.to_pos (10 ^ (- e)))).

(** The blanks [float] removes around an ASCII text: those of C's
    [isspace], which leaves the separators 0x1c-0x1f in place. *)
Definition is_c_space (c : ascii) : bool :=
  let n := nat_of_ascii c in
  (Nat.leb 9 n && Nat.leb n 13) || Nat.eqb n 32.

Fixpoint lstrip_c (s : list ascii) : list ascii :=
  match s with
  | c :: s' => if is_c_space c then lstrip_c s' else s
  | [] => []
  end.

Definition strip_c (s : list ascii) : list ascii :=
  rev (lstrip_c (rev (lstrip_c s))).

(** [float(s)]: [None] stands for [ValueError]. *)
Definition float_of_string (s : string) : option pyfloat :=
  let cs := strip_c (list_ascii_of_string s) in
  let '(neg, body) :=
    match cs with
    | c :: r => if Ascii.eqb c "-" then (true, r)
                else if Ascii.eqb c "+" then (false, r)
                else (false, cs)
    | [] => (false, cs)
    end in
  let word := string_of_list_ascii (map lower body) in
  if String.eqb word "inf" || String.eqb word "infinity"
  then Some (Infinite neg)
  else if String.eqb word "nan" then Some NaN
  else
    match number body with
    | Some (m, k, rest) =>
        match exponent rest with
        | Some e =>
            Some (Finite (scale10 (if neg then (- m)%Z else m)
                                  (e - Z.of_nat k)))
        | None => None
        end
    | None => None
    end.

(** [[float(v) for v in values]]: the first field that does not parse
    raises [ValueError] for the whole list. *)
Fixpoint floats_of (values : list string) : option (list pyfloat) :=
  match values with
  | [] => Some []
  | v :: vs =>
      match float_of_string v with
      | Some x =>
          match floats_of vs with
          | Some xs => Some (x :: xs)
          | None => None
          end
      | None => None
      end
  end.

(** ** The conversion *)

Inductive csv_row : Type :=
| TextRow (fields : list string)
| FloatRow (values : list pyfloat).

Inductive message : Type :=
| ErrorNotFound
| WarnNotFloat (line_number : nat) (line : string)
| WarnSkipped (line_number : nat) (line : string)
| Converted.

Definition header : list string :=
  ["xyz_magnitude"; "xyz_cosine_similarity";
   "rot_magnitude"; "rot_cosine_similarity"].

(** The list [values] of the loop body: split at commas, and again at
    blanks when that did not give four fields. *)
Definition fields (line : string) : list string :=
  let values := map py_strip (py_split_comma line) in
  if Nat.eqb (List.length values) 4 then values
  else map py_strip (py_split line).

(** One iteration of the loop over the input: the row written, if any, and
    the warning printed, if any. *)
Definition convert_line (line_number : nat) (raw : string)
  : option csv_row * option message :=
  let line := py_strip raw in
  if String.eqb line "" then (None, None)
  else
    let values := fields line in
    if Nat.eqb (List.length values) 4 then
      match floats_of values with
      | Some float_values => (Some (FloatRow float_values), None)
      | None => (Some (TextRow values), Some (WarnNotFloat line_number line))
      end
    else (None, Some (WarnSkipped line_number line)).

(** [for line_number, line in enumerate(infile, 1)] *)
Fixpoint convert_lines (line_number : nat) (lines : list string)
  : list csv_row * list message :=
  match lines with
  | [] => ([], [])
  | l :: ls =>
      let '(r, w) := convert_line line_number l in
      let '(rs, ws) := convert_lines (S line_number) ls in
      (match r with Some x => x :: rs | None => rs end,
       match w with Some x => x :: ws | None => ws end)
  end.

(** [convert_to_csv]: the input file is [None] when it does not exist;
    the result is the CSV file written, if any, and what was printed.
    The input is taken not to be a file named [*.csv] itself: the output
    path would then be the same file, emptied before a line is read. *)
Definition convert_to_csv (infile : option (list string))
  : option (list csv_row) * list message :=
  match infile with
  | None => (None, [ErrorNotFound])
  | Some lines =>
      let '(rows, warnings) := convert_lines 1 lines in
      (Some (TextRow header :: rows), warnings ++ [Converted])
  end.

Definition trace_line : string :=
  String.append "0.1234, 0.9800, 0.0500, -0.2000" (String "010" "").

End Convert.

(* ===================================================================== *)
(** * The lines of the motion trace, as the specification reads them *)
(* ===================================================================== *)

Module ConvertSpec.
Import Convert.

(** A line of blanks only. *)
Definition blank (raw : string) : bool :=
  forallb is_space (list_ascii_of_string raw).

Definition is_comma (c : ascii) : bool := Ascii.eqb c ",".

(** The number of commas of a line. *)
Definition comma_count (raw : string) : nat :=
  List.length (List.filter is_comma (list_ascii_of_string raw)).

(** The number of places where a word begins: a character that is not a
    blank, at the start of the text or right after a blank. *)
Fixpoint word_starts (after_blank : bool) (s : list ascii) : nat :=
  match s with
  | [] => O
  | c :: s' =>
      (if after_blank && negb (is_space c) then 1 else 0)
      + word_starts (is_space c) s'
  end.

Definition word_count (raw : string) : nat :=
  word_starts true (list_ascii_of_string raw).

Definition no_blank (w : list ascii) : bool :=
  forallb (fun c => negb (is_space c)) w.

Definition all_blank (w : list ascii) : bool := forallb is_space w.

(** The words of a text: its maximal runs of characters that are not
    blanks, from left to right. *)
Inductive words_of : list ascii -> list (list ascii) -> Prop :=
| words_none gap :
    all_blank gap = true -> words_of gap []
| words_next gap w rest ws :
    all_blank gap = true ->
    w <> [] -> no_blank w = true ->
    match rest with [] => True | c :: _ => is_space c = true end ->
    words_of rest ws ->
    words_of (gap ++ w ++ rest) (w :: ws).

(** The fields of a line that has them four: the pieces between its three
    commas, each one stripped; or else its words. *)
Definition four_fields (line : string) (values : list string) : Prop :=
  if Nat.eqb (comma_count line) 3
  then exists pieces,
         String.concat "," pieces = line /\
         Forall (fun p => comma_count p = O) pieces /\
         values = map py_strip pieces
  else words_of (list_ascii_of_string line)
                (map list_ascii_of_string values).

(** The first and the last character of a text are no blanks. *)
Definition trimmed (line : string) : Prop :=
  match list_ascii_of_string line with
  | [] => True
  | c :: _ =>
      is_space c = false /\
      is_space (List.last (list_ascii_of_string line) c) = false
  end.

(** The digit [d] as a character, and the number a row of digits
    denotes. *)
Definition digit_char (d : nat) : ascii := ascii_of_nat (48 + d).

Definition digits_value (ds : list nat) : Z :=
  fold_left (fun acc d => (10 * acc + Z.of_nat d)%Z) ds 0%Z.

(** The literal [[-]ip.fp] of a decimal number. *)
Definition decimal_literal (negative : bool) (ip fp : list nat) : string :=
  string_of_list_ascii
    ((if negative then ["-"%char] else [])
       ++ map digit_char ip ++ "."%char :: map digit_char fp).

(** Its value: the digits as one integer, over the power of ten of the
    digits after the point. *)
Definition decimal_value (negative : bool) (ip fp : list nat) : Q :=
  Qmake ((if negative then -1 else 1) * digits_value (ip ++ fp))
        (Z.to_pos (10 ^ Z.of_nat (List.length fp))).

(** The lines of a file with their numbers, from 1. *)
Definition numbered (lines : list string) : list (nat * string) :=
  combine (seq 1 (List.length lines)) lines.

Definition row_of (numbered_line : nat * string) : list csv_row :=
  match fst (convert_line (fst numbered_line) (snd numbered_line)) with
  | Some r => [r]
  | None => []
  end.

Definition warning_of (numbered_line : nat * string) : list message :=
  match snd (convert_line (fst numbered_line) (snd numbered_line)) with
  | Some w => [w]
  | None => []
  end.

Definition newline : string := String "010" "".

End ConvertSpec.

(* ===================================================================== *)
(** * run_libero_eval.py: the motion similarity of two consecutive actions *)
(* ===================================================================== *)

Module Similarity.

(** The floating-point operations the script applies to action components.
    The script is embedded over any carrier with these operations:
    [binary64_ops] below is the arithmetic it runs in, [R_ops] the exact
    arithmetic its formulas are read in. *)
Class FloatOps (F : Type) : Type := {
  fzero : F;
  fone : F;
  feps : F;                      (* the literal 1e-6 *)
  fadd : F -> F -> F;
  fmul : F -> F -> F;
  fdiv : F -> F -> F;
  fsqrt : F -> F;
  fltb : F -> F -> bool;
}.

Section Generic.
Context {F : Type} `{FloatOps F}.

(** [np.dot] of two 1-D arrays: [None] stands for the [ValueError] raised
    when the shapes differ.  The products are summed from left to right,
    each operation rounded; a kernel that fuses or reorders them can
    differ from this in the last place. *)
Fixpoint dot_from (acc : F) (u v : list F) : option F :=
  match u, v with
  | [], [] => Some acc
  | x :: u', y :: v' => dot_from (fadd acc (fmul x y)) u' v'
  | _, _ => None
  end.

Definition np_dot (u v : list F) : option F := dot_from fzero u v.

(** The sum of squares [x.dot(x)], which cannot fail. *)
Fixpoint sqnorm_from (acc : F) (u : list F) : F :=
  match u with
  | [] => acc
  | x :: u' => sqnorm_from (fadd acc (fmul x x)) u'
  end.

(** [np.linalg.norm(v, ord=2)] of a 1-D array: [sqrt(v.dot(v))]. *)
Definition norm2 (v : list F) : F := fsqrt (sqnorm_from fzero v).

(** Python's [min(a, b)]: [b] only when [b < a]. *)
Definition py_min (a b : F) : F := if fltb b a then b else a.

(** [a[lo:hi]] on a list; never fails. *)
Definition slice (lo hi : nat) (a : list F) : list F :=
  firstn (hi - lo) (skipn lo a).

(** [min(np.dot(v, vp) / (|v| * |vp| + 1e-6), 1)] *)
Definition changes_dir (v vp : list F) : option F :=
  match np_dot v vp with
  | Some d =>
      Some (py_min (fdiv d (fadd (fmul (norm2 v) (norm2 vp)) feps)) fone)
  | None => None
  end.

(** The four numbers of one line of the motion trace. *)
Record Report : Type := {
  xyz_fudu : F;
  xyz_changes_dir : F;
  rot_fudu : F;
  rot_changes_dir : F;
}.

End Generic.

Arguments Report F : clear implicits.

(** IEEE 754 binary64, the arithmetic of numpy's float64. *)
#[export] Instance binary64_ops : FloatOps float := {
  fzero := 0%float;
  fone := 1%float;
  feps := 1e-6%float;
  fadd := PrimFloat.add;
  fmul := PrimFloat.mul;
  fdiv := PrimFloat.div;
  fsqrt := PrimFloat.sqrt;
  fltb := PrimFloat.ltb;
}.

(** Exact real arithmetic. *)
#[export] Instance R_ops : FloatOps R := {
  fzero := 0%R;
  fone := 1%R;
  feps := (1 / 1000000)%R;
  fadd := Rplus;
  fmul := Rmult;
  fdiv := Rdiv;
  fsqrt := sqrt;
  fltb := fun a b => if Rlt_dec a b then true else false;
}.

(** The text of the specification: the cosine of two 3-component vectors
    with the guard in the denominator, clamped at 1. *)
Definition dot3 (v w : R * R * R) : R :=
  let '(a, b, c) := v in let '(x, y, z) := w in (a * x + b * y + c * z)%R.

Definition magnitude3 (v : R * R * R) : R := sqrt (dot3 v v).

Definition spec_cosine (v w : R * R * R) : R :=
  Rmin (dot3 v w / (magnitude3 v * magnitude3 w + 1 / 1000000)) 1.

Definition vec3 (v : R * R * R) : list R :=
  let '(a, b, c) := v in [a; b; c].

End Similarity.

(* ===================================================================== *)
(** * run_libero_eval.py: [eval_libero] *)
(* ===================================================================== *)

Module Eval.
Import Similarity.

Local Open Scope Z_scope.

(** ** Exceptions and results *)

(** The exceptions of class [Exception] that the script can meet.
    [Raised msg] is any exception coming out of the simulator, the policy
    or an imported helper. *)
Inductive PyExn : Type :=
| UnboundLocalError (name : string)
| KeyError (key : string)
| IndexError
| ValueError
| ZeroDivisionError
| AssertionError (msg : string)
| Raised (msg : string).

(** The result of running a piece of the script: a value, an exception on
    its way up, or [NoFuel] when the model of a [while] loop was given too
    few iterations. *)
Inductive Res (A : Type) : Type :=
| Val (a : A)
| Exc (e : PyExn)
| NoFuel.
Arguments Val {A} a.
Arguments Exc {A} e.
Arguments NoFuel {A}.

(** ** Configuration: the fields of [GenerateConfig] the script reads

    [pretrained_checkpoint] is [None] only when the caller sets it so (its
    default is the empty text). *)
Record GenerateConfig : Type := {
  model_family : string;
  pretrained_checkpoint : option string;
  load_in_8bit : bool;
  load_in_4bit : bool;
  center_crop : bool;
  task_suite_name : string;
  num_steps_wait : Z;
  num_trials_per_task : Z;
  use_wandb : bool;
}.

(** ** External collaborators *)

Record TaskSuite (Task InitState : Type) : Type := {
  n_tasks : Z;
  get_task : Z -> Task;
  get_task_init_states : Z -> list InitState;
}.
Arguments n_tasks {Task InitState} _.
Arguments get_task {Task InitState} _ _.
Arguments get_task_init_states {Task InitState} _ _.

(** The simulator, the policy and the helpers of [libero_utils] and
    [robot_utils], none of which is defined in this script.  [World] is the
    state they share (simulator, model, disk outside the JSON logs).  The
    calls made inside the [try] block may raise; those made outside it
    ([get_model], [get_libero_env], [env.reset], [env.set_init_state],
    [save_rollout_video], and the reading and writing of the JSON log) are
    taken to return.  [model_norm_stats] is the set of keys of
    [model.norm_stats], for the model that [get_model] loads. *)
Record Externals (F World Task InitState Obs Img Proprio : Type) : Type := {
  model_norm_stats : gset string;
  benchmark_dict : string -> option (TaskSuite Task InitState);
  get_libero_env : Task -> string -> World -> World * string;
  env_reset : World -> World;
  env_set_init_state : InitState -> World -> World * Obs;
  env_step : list F -> World -> World * (PyExn + Obs * bool);
  get_libero_dummy_action : string -> list F;
  get_libero_image : Obs -> PyExn + Img;
  draw_step_text : Img -> Z -> PyExn + Img;
  proprio_state : Obs -> PyExn + Proprio;
  get_action : Img -> Proprio -> string -> Z -> World
               -> World * (PyExn + list F);
  normalize_gripper_action : list F -> bool -> PyExn + list F;
  invert_gripper_action : list F -> PyExn + list F;
  save_rollout_video : list Img -> Z -> bool -> string -> World -> World;
}.
Arguments model_norm_stats {F World Task InitState Obs Img Proprio} _.
Arguments benchmark_dict {F World Task InitState Obs Img Proprio} _.
Arguments get_libero_env {F World Task InitState Obs Img Proprio} _.
Arguments env_reset {F World Task InitState Obs Img Proprio} _.
Arguments env_set_init_state {F World Task InitState Obs Img Proprio} _.
Arguments env_step {F World Task InitState Obs Img Proprio} _.
Arguments get_libero_dummy_action {F World Task InitState Obs Img Proprio} _.
Arguments get_libero_image {F World Task InitState Obs Img Proprio} _.
Arguments draw_step_text {F World Task InitState Obs Img Proprio} _.
Arguments proprio_state {F World Task InitState Obs Img Proprio} _.
Arguments get_action {F World Task InitState Obs Img Proprio} _.
Arguments normalize_gripper_action {F World Task InitState Obs Img Proprio} _.
Arguments invert_gripper_action {F World Task InitState Obs Img Proprio} _.
Arguments save_rollout_video {F World Task InitState Obs Img Proprio} _.

(** ** The per-task JSON log *)

Record Leaf : Type := { total_times : Z; success_times : Z }.

(** [data[str(scale)][str(ber)]] *)
Abbreviation JsonLog := (gmap string (gmap string Leaf)).

(** [scale = []] and [ber = 0] in every episode. *)
Definition scale_key : string := "[]".
Definition ber_key : string := "0".

Definition log_path (task_description : string) : string :=
  String.append "~/openvla/experiments/logs/"
                (String.append task_description "_log.json").

(** [if str(scale) not in data: data[str(scale)] = {}] *)
Definition ensure_scale (data : JsonLog) : JsonLog :=
  match data !! scale_key with
  | Some _ => data
  | None => <[scale_key := ∅]> data
  end.

(** [if str(ber) not in data[str(scale)]: data[str(scale)][str(ber)] = ...] *)
Definition ensure_ber (data : JsonLog) : JsonLog :=
  let inner := default ∅ (data !! scale_key) in
  match inner !! ber_key with
  | Some _ => data
  | None =>
      <[scale_key :=
          <[ber_key := {| total_times := 0; success_times := 0 |}]> inner]>
        data
  end.

(** An in-place update of the leaf [data[str(scale)][str(ber)]]. *)
Definition update_leaf (f : Leaf -> Leaf) (data : JsonLog) : JsonLog :=
  let inner := default ∅ (data !! scale_key) in
  match inner !! ber_key with
  | Some l => <[scale_key := <[ber_key := f l]> inner]> data
  | None => data
  end.

Definition incr_total (l : Leaf) : Leaf :=
  {| total_times := total_times l + 1; success_times := success_times l |}.

Definition incr_success (l : Leaf) : Leaf :=
  {| total_times := total_times l; success_times := success_times l + 1 |}.

(** What one episode does to the log of its task: both keys are created
    when absent, [total_times] is incremented, and [success_times] too
    when [done] holds. *)
Definition json_after (d : bool) (data : JsonLog) : JsonLog :=
  let data := update_leaf incr_total (ensure_ber (ensure_scale data)) in
  if d then update_leaf incr_success data else data.

Definition zero_leaf : Leaf := {| total_times := 0; success_times := 0 |}.

Definition bumped (d : bool) (l : Leaf) : Leaf :=
  {| total_times := total_times l + 1;
     success_times := success_times l + (if d then 1 else 0) |}.

(** [data[k1][k2]], when both keys are there. *)
Definition leaf_at (data : JsonLog) (k1 k2 : string) : option Leaf :=
  match data !! k1 with
  | Some inner => inner !! k2
  | None => None
  end.

(** The leaf [k1], [k2] of the file [p], when the file and both keys are
    there. *)
Definition leaf_in (fs : gmap string JsonLog) (p k1 k2 : string)
  : option Leaf :=
  match fs !! p with
  | Some data => leaf_at data k1 k2
  | None => None
  end.

(** ** Tallies *)

Definition tally_ok (successes episodes : Z) : Prop :=
  0 <= successes <= episodes.

Definition files_ok (fs : gmap string JsonLog) : Prop :=
  forall p k1 k2 l,
    leaf_in fs p k1 k2 = Some l -> tally_ok (success_times l) (total_times l).

Definition files_mono (fs fs' : gmap string JsonLog) : Prop :=
  forall p k1 k2 l,
    leaf_in fs p k1 k2 = Some l ->
    exists l', leaf_in fs' p k1 k2 = Some l' /\
               total_times l <= total_times l' /\
               success_times l <= success_times l'.

Section Script.

Context {F : Type} `{FloatOps F}.
Context {World Task InitState Obs Img Proprio : Type}.
Context (E : Externals F World Task InitState Obs Img Proprio).

(** ** What the run did, newest event first *)
Inductive Event : Type :=
| EvGetTask (task_id : Z)
| EvInitStates (task_id : Z)
| EvMakeEnv (task_description : string)
| EvReset
| EvSetInitState (s : InitState)
| EvStep (t : Z) (policy_action : option (list F)) (action : list F)
         (result : PyExn + bool)
| EvCaught (e : PyExn)
| EvJsonWritten (path : string)
| EvVideo (n : Z) (success : bool) (task_description : string)
| EvSuccessLogged (success : bool).

(** ** The local names of [eval_libero] *)

Record Tracker : Type := {
  action_previous : option (list F);
  actions_previous_xyz : option (list F);
  actions_previous_rot : option (list F);
}.

Record Counters : Type := {
  task_episodes : Z;
  task_successes : Z;
  total_episodes : Z;
  total_successes : Z;
  total_steps : Z;
}.

Record Locals : Type := {
  world : World;
  t : Z;
  obs : option Obs;
  done : option bool;
  max_steps : option Z;
  replay_images : list Img;
  tracker : Tracker;
  counters : Counters;
  files : gmap string JsonLog;
  motion_trace : list (Report F);
  trace : list Event;
}.

Definition set_world (x : World) (s : Locals) : Locals :=
  {| world := x; t := t s; obs := obs s; done := done s;
     max_steps := max_steps s; replay_images := replay_images s;
     tracker := tracker s; counters := counters s; files := files s;
     motion_trace := motion_trace s; trace := trace s |}.

Definition set_t (x : Z) (s : Locals) : Locals :=
  {| world := world s; t := x; obs := obs s; done := done s;
     max_steps := max_steps s; replay_images := replay_images s;
     tracker := tracker s; counters := counters s; files := files s;
     motion_trace := motion_trace s; trace := trace s |}.

Definition set_obs (x : option Obs) (s : Locals) : Locals :=
  {| world := world s; t := t s; obs := x; done := done s;
     max_steps := max_steps s; replay_images := replay_images s;
     tracker := tracker s; counters := counters s; files := files s;
     motion_trace := motion_trace s; trace := trace s |}.

Definition set_done (x : option bool) (s : Locals) : Locals :=
  {| world := world s; t := t s; obs := obs s; done := x;
     max_steps := max_steps s; replay_images := replay_images s;
     tracker := tracker s; counters := counters s; files := files s;
     motion_trace := motion_trace s; trace := trace s |}.

Definition set_max_steps (x : option Z) (s : Locals) : Locals :=
  {| world := world s; t := t s; obs := obs s; done := done s;
     max_steps := x; replay_images := replay_images s;
     tracker := tracker s; counters := counters s; files := files s;
     motion_trace := motion_trace s; trace := trace s |}.

Definition set_replay_images (x : list Img) (s : Locals) : Locals :=
  {| world := world s; t := t s; obs := obs s; done := done s;
     max_steps := max_steps s; replay_images := x;
     tracker := tracker s; counters := counters s; files := files s;
     motion_trace := motion_trace s; trace := trace s |}.

Definition set_tracker (x : Tracker) (s : Locals) : Locals :=
  {| world := world s; t := t s; obs := obs s; done := done s;
     max_steps := max_steps s; replay_images := replay_images s;
     tracker := x; counters := counters s; files := files s;
     motion_trace := motion_trace s; trace := trace s |}.

Definition set_counters (x : Counters) (s : Locals) : Locals :=
  {| world := world s; t := t s; obs := obs s; done := done s;
     max_steps := max_steps s; replay_images := replay_images s;
     tracker := tracker s; counters := x; files := files s;
     motion_trace := motion_trace s; trace := trace s |}.

Definition set_files (x : gmap string JsonLog) (s : Locals) : Locals :=
  {| world := world s; t := t s; obs := obs s; done := done s;
     max_steps := max_steps s; replay_images := replay_images s;
     tracker := tracker s; counters := counters s; files := x;
     motion_trace := motion_trace s; trace := trace s |}.

Definition set_motion_trace (x : list (Report F)) (s : Locals) : Locals :=
  {| world := world s; t := t s; obs := obs s; done := done s;
     max_steps := max_steps s; replay_images := replay_images s;
     tracker := tracker s; counters := counters s; files := files s;
     motion_trace := x; trace := trace s |}.

Definition set_trace (x : list Event) (s : Locals) : Locals :=
  {| world := world s; t := t s; obs := obs s; done := done s;
     max_steps := max_steps s; replay_images := replay_images s;
     tracker := tracker s; counters := counters s; files := files s;
     motion_trace := motion_trace s; trace := x |}.

(** The names as they are when [eval_libero] is entered: nothing is bound
    yet; the counters are the zeros of line 158. *)
Definition initial_locals (w : World) (disk : gmap string JsonLog)
  : Locals :=
  {| world := w; t := 0; obs := None; done := None; max_steps := None;
     replay_images := [];
     tracker := {| action_previous := None; actions_previous_xyz := None;
                   actions_previous_rot := None |};
     counters := {| task_episodes := 0; task_successes := 0;
                    total_episodes := 0; total_successes := 0;
                    total_steps := 0 |};
     files := disk; motion_trace := []; trace := [] |}.

(** ** The monad of the script: state, exceptions that keep the state *)

Definition M (A : Type) : Type := Locals -> Res A * Locals.

Definition ret {A : Type} (a : A) : M A := fun s => (Val a, s).

Definition bind {A B : Type} (m : M A) (f : A -> M B) : M B :=
  fun s =>
    match m s with
    | (Val a, s') => f a s'
    | (Exc e, s') => (Exc e, s')
    | (NoFuel, s') => (NoFuel, s')
    end.

Definition raise {A : Type} (e : PyExn) : M A := fun s => (Exc e, s).

Definition gets {A : Type} (f : Locals -> A) : M A := fun s => (Val (f s), s).

Definition modify (f : Locals -> Locals) : M unit := fun s => (Val tt, f s).

(** [try: m except Exception as e: h e] *)
Definition try_except {A : Type} (m : M A) (h : PyExn -> M A) : M A :=
  fun s =>
    match m s with
    | (Exc e, s') => h e s'
    | r => r
    end.

Notation "x <- m ;; k" := (bind m (fun x => k))
  (at level 100, m at next level, right associativity).
Notation "m ;; k" := (bind m (fun _ => k))
  (at level 100, right associativity).

Definition emit (e : Event) : M unit :=
  modify (fun s => set_trace (e :: trace s) s).

(** The result of a call that may raise. *)
Definition lift {A : Type} (r : PyExn + A) : M A :=
  fun s => match r with
           | inl e => (Exc e, s)
           | inr a => (Val a, s)
           end.

(** Reading a local name, which raises when the name is not bound. *)
Definition read {A : Type} (name : string) (f : Locals -> option A) : M A :=
  fun s => match f s with
           | Some a => (Val a, s)
           | None => (Exc (UnboundLocalError name), s)
           end.

(** A call into the world. *)
Definition call {A : Type} (f : World -> World * A) : M A :=
  fun s => let '(w, a) := f (world s) in (Val a, set_world w s).

(** ** Lines 197-206: the ceiling of the step counter *)
Definition max_steps_table (name : string) : option Z :=
  if String.eqb name "libero_spatial" then Some 220
  else if String.eqb name "libero_object" then Some 280
  else if String.eqb name "libero_goal" then Some 300
  else if String.eqb name "libero_10" then Some 520
  else if String.eqb name "libero_90" then Some 400
  else None.

(** The chain has no [else]: with another name [max_steps] keeps what it
    had, which is nothing in the first episode. *)
Definition assign_max_steps (cfg : GenerateConfig) : M unit :=
  match max_steps_table (task_suite_name cfg) with
  | Some m => modify (set_max_steps (Some m))
  | None => ret tt
  end.

(** ** Lines 260-303: the branch under [if replan] *)

Definition replan : bool := false.

(** [action_previous = np.array(...)] and the two slices of it. *)
Definition store_previous (action : list F) : M unit :=
  modify (set_tracker
            {| action_previous := Some action;
               actions_previous_xyz := Some (slice 0 3 action);
               actions_previous_rot := Some (slice 3 6 action) |}).

Definition tracker_update (action : list F) : M unit :=
  prev <- gets (fun s => action_previous (tracker s)) ;;
  match prev with
  | None => store_previous action
  | Some _ =>
      let actions_xyz := slice 0 3 action in
      let actions_rot := slice 3 6 action in
      let xyz_fudu := norm2 actions_xyz in
      let rot_fudu := norm2 actions_rot in
      pxyz <- read "actions_previous_xyz"
                   (fun s => actions_previous_xyz (tracker s)) ;;
      let previous_xyz_fudu := norm2 pxyz in
      prot <- read "actions_previous_rot"
                   (fun s => actions_previous_rot (tracker s)) ;;
      let previous_rot_fudu := norm2 prot in
      dxyz <- lift (match np_dot actions_xyz pxyz with
                    | Some d => inr d
                    | None => inl ValueError
                    end) ;;
      let xyz_changes_dir :=
        py_min (fdiv dxyz (fadd (fmul xyz_fudu previous_xyz_fudu) feps))
               fone in
      drot <- lift (match np_dot actions_rot prot with
                    | Some d => inr d
                    | None => inl ValueError
                    end) ;;
      let rot_changes_dir :=
        py_min (fdiv drot (fadd (fmul rot_fudu previous_rot_fudu) feps))
               fone in
      modify (fun s =>
                set_motion_trace
                  (motion_trace s ++
                     [{| xyz_fudu := xyz_fudu;
                         xyz_changes_dir := xyz_changes_dir;
                         rot_fudu := rot_fudu;
                         rot_changes_dir := rot_changes_dir |}]) s) ;;
      store_previous action
  end.

(** *** The tracker as the specification words it

    An action is seven numbers: three of translation, three of rotation
    and the gripper.  After an update the tracker holds the action and its
    two sub-vectors; from the second update on, a report is made of the
    magnitudes of the new sub-vectors and of their cosines with the
    stored ones, [dot / (|v| * |v_previous| + 1e-6)] clamped at 1. *)
Definition Action7 : Type := (F * F * F) * (F * F * F) * F.

Definition action_list (a : Action7) : list F :=
  let '((x, y, z), (rx, ry, rz), g) := a in [x; y; z; rx; ry; rz; g].

Definition triple (v : F * F * F) : list F :=
  let '(a, b, c) := v in [a; b; c].

Definition stored (a : Action7) : Tracker :=
  let '(xyz, rot, _) := a in
  {| action_previous := Some (action_list a);
     actions_previous_xyz := Some (triple xyz);
     actions_previous_rot := Some (triple rot) |}.

Definition spec_norm3 (v : F * F * F) : F :=
  let '(a, b, c) := v in
  fsqrt (fadd (fadd (fadd fzero (fmul a a)) (fmul b b)) (fmul c c)).

Definition spec_cosine3 (v w : F * F * F) : F :=
  let '(a, b, c) := v in
  let '(x, y, z) := w in
  let q := fdiv (fadd (fadd (fadd fzero (fmul a x)) (fmul b y)) (fmul c z))
                (fadd (fmul (spec_norm3 v) (spec_norm3 w)) feps) in
  if fltb fone q then fone else q.

Definition spec_report (previous current : Action7) : Report F :=
  let '(pxyz, prot, _) := previous in
  let '(xyz, rot, _) := current in
  {| xyz_fudu := spec_norm3 xyz;
     xyz_changes_dir := spec_cosine3 xyz pxyz;
     rot_fudu := spec_norm3 rot;
     rot_changes_dir := spec_cosine3 rot prot |}.

(** The reports of the updates that follow the one of [previous]. *)
Fixpoint spec_reports (previous : Action7) (next : list Action7)
  : list (Report F) :=
  match next with
  | [] => []
  | a :: next' => spec_report previous a :: spec_reports a next'
  end.

(** ** Lines 210-334: the step loop *)

(** [obs, reward, done, info = env.step(action)]: nothing is assigned when
    the call raises.  [policy_action] is what [get_action] returned for
    this step, [None] for the dummy action of a settling step. *)
Definition do_env_step (policy_action : option (list F))
  (action : list F) : M unit :=
  tnow <- gets t ;;
  r <- call (env_step E action) ;;
  emit (EvStep tnow policy_action action
               (match r with
                | inl e => inl e
                | inr x => inr (snd x)
                end)) ;;
  x <- lift r ;;
  modify (fun s => set_done (Some (snd x)) (set_obs (Some (fst x)) s)).

Definition count_success (c : Counters) : Counters :=
  {| task_episodes := task_episodes c;
     task_successes := task_successes c + 1;
     total_episodes := total_episodes c;
     total_successes := total_successes c + 1;
     total_steps := total_steps c |}.

Definition count_episode (c : Counters) : Counters :=
  {| task_episodes := task_episodes c + 1;
     task_successes := task_successes c;
     total_episodes := total_episodes c + 1;
     total_successes := total_successes c;
     total_steps := total_steps c |}.

Definition add_steps (n : Z) (c : Counters) : Counters :=
  {| task_episodes := task_episodes c;
     task_successes := task_successes c;
     total_episodes := total_episodes c;
     total_successes := total_successes c;
     total_steps := total_steps c + n |}.

(** [task_episodes, task_successes = 0, 0] and [total_steps = 0] *)
Definition reset_task (c : Counters) : Counters :=
  {| task_episodes := 0;
     task_successes := 0;
     total_episodes := total_episodes c;
     total_successes := total_successes c;
     total_steps := 0 |}.

Inductive LoopCtl : Type := Next | Break.

(** The body of the [try] block. *)
Definition step_body (cfg : GenerateConfig) (task_description : string)
  : M LoopCtl :=
  tnow <- gets t ;;
  if tnow <? num_steps_wait cfg then
    do_env_step None (get_libero_dummy_action E (model_family cfg)) ;;
    modify (fun s => set_t (t s + 1) s) ;;
    ret Next
  else
    o <- read "obs" obs ;;
    img <- lift (get_libero_image E o) ;;
    img <- lift (draw_step_text E img tnow) ;;
    modify (fun s => set_replay_images (replay_images s ++ [img]) s) ;;
    state <- lift (proprio_state E o) ;;
    r <- call (get_action E img state task_description tnow) ;;
    action <- lift r ;;
    (if replan then tracker_update action else ret tt) ;;
    normalized <- lift (normalize_gripper_action E action true) ;;
    final <- (if String.eqb (model_family cfg) "openvla"
              then lift (invert_gripper_action E normalized)
              else ret normalized) ;;
    do_env_step (Some action) final ;;
    d <- read "done" done ;;
    if (d : bool) then
      modify (fun s => set_counters (count_success (counters s)) s) ;;
      ret Break
    else
      modify (fun s => set_t (t s + 1) s) ;;
      ret Next.

(** One turn of the [while]: the [try] block and its handler. *)
Definition iteration (cfg : GenerateConfig) (task_description : string)
  : M LoopCtl :=
  try_except (step_body cfg task_description)
             (fun e => emit (EvCaught e) ;; ret Break).

(** [while t < max_steps + cfg.num_steps_wait], at most [fuel] turns. *)
Fixpoint step_loop (fuel : nat) (cfg : GenerateConfig)
  (task_description : string) : M unit :=
  m <- read "max_steps" max_steps ;;
  tnow <- gets t ;;
  if tnow <? m + num_steps_wait cfg then
    match fuel with
    | O => fun s => (NoFuel, s)
    | S fuel' =>
        c <- iteration cfg task_description ;;
        match c with
        | Break => ret tt
        | Next => step_loop fuel' cfg task_description
        end
    end
  else ret tt.

(** The turns the loop is given: the distance of [t] to its ceiling. *)
Definition loop_bound (cfg : GenerateConfig) (s : Locals) : nat :=
  match max_steps s with
  | Some m => Z.to_nat (m + num_steps_wait cfg - t s)
  | None => O
  end.

Definition while_steps (cfg : GenerateConfig) (task_description : string)
  : M unit :=
  fun s => step_loop (loop_bound cfg s) cfg task_description s.

(** ** Lines 339-361: the JSON log of the task

    The file is read and written back as a whole; opening, loading and
    dumping it are taken to succeed (the directory of the logs exists). *)
Definition record_json (task_description : string) : M unit :=
  let file_path := log_path task_description in
  fs <- gets files ;;
  let data := default ∅ (fs !! file_path) in
  let data := ensure_scale data in
  let data := ensure_ber data in
  let data := update_leaf incr_total data in
  d <- read "done" done ;;
  let data := if (d : bool) then update_leaf incr_success data else data in
  modify (set_files (<[file_path := data]> fs)) ;;
  emit (EvJsonWritten file_path).

(** ** Lines 176-378: one episode *)
Definition reset_action_previous (k : Tracker) : Tracker :=
  {| action_previous := None;
     actions_previous_xyz := actions_previous_xyz k;
     actions_previous_rot := actions_previous_rot k |}.

Definition episode_setup (cfg : GenerateConfig) : M unit :=
  modify (set_t 0) ;;
  modify (set_replay_images []) ;;
  modify (fun s => set_tracker (reset_action_previous (tracker s)) s) ;;
  assign_max_steps cfg.

(** Lines 187-209: reset, initial state of the trial, per-episode names. *)
Definition episode_begin (cfg : GenerateConfig)
  (initial_states : list InitState) (episode_idx : nat) : M unit :=
  call (fun w => (env_reset E w, tt)) ;;
  emit EvReset ;;
  s0 <- match nth_error initial_states episode_idx with
        | Some x => ret x
        | None => raise IndexError
        end ;;
  o <- call (env_set_init_state E s0) ;;
  emit (EvSetInitState s0) ;;
  modify (set_obs (Some o)) ;;
  episode_setup cfg.

(** Lines 336-378: the tallies, the JSON log, the video and the log lines
    after the step loop. *)
Definition episode_end (task_description : string) : M unit :=
  modify (fun s => set_counters (count_episode (counters s)) s) ;;
  record_json task_description ;;
  d <- read "done" done ;;
  n <- gets (fun s => total_episodes (counters s)) ;;
  imgs <- gets replay_images ;;
  call (fun w => (save_rollout_video E imgs n d task_description w, tt)) ;;
  emit (EvVideo n d task_description) ;;
  emit (EvSuccessLogged d) ;;
  modify (fun s => set_counters (add_steps (t s) (counters s)) s).

Definition run_episode (cfg : GenerateConfig) (task_description : string)
  (initial_states : list InitState) (episode_idx : nat) : M unit :=
  episode_begin cfg initial_states episode_idx ;;
  while_steps cfg task_description ;;
  episode_end task_description.

Fixpoint for_each {A : Type} (xs : list A) (body : A -> M unit) : M unit :=
  match xs with
  | [] => ret tt
  | x :: xs' => body x ;; for_each xs' body
  end.

(** ** Lines 160-392: one task *)

(** Lines 161-175.  The loop variable is overwritten at once (line 163), so
    every turn of the task loop fetches task 0. *)
Definition task_begin (cfg : GenerateConfig)
  (task_suite : TaskSuite Task InitState) (task_id : Z)
  : M (string * list InitState) :=
  let task_id := 0 in
  emit (EvGetTask task_id) ;;
  let task := get_task task_suite task_id in
  emit (EvInitStates task_id) ;;
  let initial_states := get_task_init_states task_suite task_id in
  task_description <- call (get_libero_env E task (model_family cfg)) ;;
  emit (EvMakeEnv task_description) ;;
  modify (fun s => set_counters (reset_task (counters s)) s) ;;
  ret (task_description, initial_states).

(** Lines 381-384: [float(task_successes) / float(task_episodes)]. *)
Definition task_end : M unit :=
  c <- gets counters ;;
  if task_episodes c =? 0 then raise ZeroDivisionError else ret tt.

Definition run_task (cfg : GenerateConfig)
  (task_suite : TaskSuite Task InitState) (task_id : Z) : M unit :=
  x <- task_begin cfg task_suite task_id ;;
  for_each (seq 0 (Z.to_nat (num_trials_per_task cfg)))
           (run_episode cfg (fst x) (snd x)) ;;
  task_end.

(** [range(n)] *)
Definition range (n : Z) : list Z := map Z.of_nat (seq 0 (Z.to_nat n)).

(** ** Lines 147-405: the run, from the lookup of the task suite on *)
Definition eval_libero (cfg : GenerateConfig) : M unit :=
  task_suite <- match benchmark_dict E (task_suite_name cfg) with
                | Some x => ret x
                | None => raise (KeyError (task_suite_name cfg))
                end ;;
  for_each (range (n_tasks task_suite)) (run_task cfg task_suite) ;;
  c <- gets counters ;;
  if use_wandb cfg && (total_episodes c =? 0)
  then raise ZeroDivisionError
  else ret tt.

(** ** Lines 103-123: what is checked before anything runs *)

(** [sub in s] on texts. *)
Fixpoint py_in (sub s : string) : bool :=
  String.prefix sub s ||
  match s with
  | EmptyString => false
  | String _ s' => py_in sub s'
  end.

(** Lines 103-106: the assertions on the options. *)
Definition check_options (cfg : GenerateConfig) : M unit :=
  match pretrained_checkpoint cfg with
  | None => raise (AssertionError "cfg.pretrained_checkpoint must not be None!")
  | Some checkpoint =>
      if py_in "image_aug" checkpoint && negb (center_crop cfg)
      then raise (AssertionError
                    "Expecting `center_crop==True` because model was trained with image augmentations!")
      else if load_in_8bit cfg && load_in_4bit cfg
      then raise (AssertionError
                    "Cannot use both 8-bit and 4-bit quantization!")
      else ret tt
  end.

Definition no_noops (key : string) : string :=
  String.append key "_no_noops".

(** Lines 111-123: [cfg.unnorm_key], which starts as the name of the
    suite; for the family "openvla" it must be a key of
    [model.norm_stats], as it is or with the suffix "_no_noops". *)
Definition resolve_unnorm_key (cfg : GenerateConfig) : M string :=
  let unnorm_key := task_suite_name cfg in
  if String.eqb (model_family cfg) "openvla" then
    let unnorm_key :=
      if negb (bool_decide (unnorm_key ∈ model_norm_stats E))
         && bool_decide (no_noops unnorm_key ∈ model_norm_stats E)
      then no_noops unnorm_key
      else unnorm_key in
    if bool_decide (unnorm_key ∈ model_norm_stats E)
    then ret unnorm_key
    else raise (AssertionError
                  (String.append "Action un-norm key "
                     (String.append unnorm_key
                        " not found in VLA `norm_stats`!")))
  else ret unnorm_key.

(** ** Lines 102-405: [eval_libero] from its first line

    The key resolved at the start is read by [get_action] only, which is
    external. *)
Definition eval_libero_whole (cfg : GenerateConfig) : M unit :=
  check_options cfg ;;
  resolve_unnorm_key cfg ;;
  eval_libero cfg.

(** ** Predicates on states and events, for the statements below *)

(** What a turn of the step loop leaves alone. *)
Definition same_frame (s s' : Locals) : Prop :=
  max_steps s' = max_steps s /\ tracker s' = tracker s /\
  files s' = files s /\ motion_trace s' = motion_trace s /\
  task_episodes (counters s') = task_episodes (counters s) /\
  total_episodes (counters s') = total_episodes (counters s) /\
  total_steps (counters s') = total_steps (counters s).

Definition same_successes (s s' : Locals) : Prop :=
  task_successes (counters s') = task_successes (counters s) /\
  total_successes (counters s') = total_successes (counters s).

Definition one_more_success (s s' : Locals) : Prop :=
  task_successes (counters s') = task_successes (counters s) + 1 /\
  total_successes (counters s') = total_successes (counters s) + 1.

(** The action of an [env.step] call: the dummy action in a settling step;
    in an acting step the action of the policy after
    [normalize_gripper_action(., binarize=True)] and, for the family
    "openvla", [invert_gripper_action], and nothing else. *)
Definition action_ok (cfg : GenerateConfig) (tnow : Z)
  (src : option (list F)) (a : list F) : Prop :=
  match src with
  | None =>
      tnow < num_steps_wait cfg /\
      a = get_libero_dummy_action E (model_family cfg)
  | Some raw =>
      num_steps_wait cfg <= tnow /\
      exists n, normalize_gripper_action E raw true = inr n /\
                if String.eqb (model_family cfg) "openvla"
                then invert_gripper_action E n = inr a
                else a = n
  end.

(** The four ways through one turn of the loop. *)
Inductive iter_post (cfg : GenerateConfig) (s : Locals)
  : LoopCtl -> Locals -> Prop :=
| post_next src a d s' :
    same_frame s s' -> same_successes s s' ->
    trace s' = EvStep (t s) src a (inr d) :: trace s ->
    action_ok cfg (t s) src a ->
    (src <> None -> d = false) ->
    t s' = t s + 1 -> done s' = Some d ->
    iter_post cfg s Next s'
| post_success raw a s' :
    same_frame s s' -> one_more_success s s' ->
    trace s' = EvStep (t s) (Some raw) a (inr true) :: trace s ->
    action_ok cfg (t s) (Some raw) a ->
    t s' = t s -> done s' = Some true ->
    iter_post cfg s Break s'
| post_caught e s' :
    same_frame s s' -> same_successes s s' ->
    trace s' = EvCaught e :: trace s ->
    t s' = t s -> done s' = done s ->
    iter_post cfg s Break s'
| post_caught_step e src a s' :
    same_frame s s' -> same_successes s s' ->
    trace s' = EvCaught e :: EvStep (t s) src a (inl e) :: trace s ->
    action_ok cfg (t s) src a ->
    t s' = t s -> done s' = done s ->
    iter_post cfg s Break s'.

Definition is_env_step (ev : Event) : bool :=
  match ev with EvStep _ _ _ _ => true | _ => false end.

(** The number of [env.step] calls among some events. *)
Definition count_env_steps (evs : list Event) : nat :=
  List.length (List.filter is_env_step evs).

(** The [done] returned by the latest [env.step] call that returned. *)
Fixpoint last_completed (evs : list Event) : option bool :=
  match evs with
  | EvStep _ _ _ (inr d) :: _ => Some d
  | _ :: evs' => last_completed evs'
  | [] => None
  end.

Definition ev_ok (cfg : GenerateConfig) (ev : Event) : Prop :=
  match ev with
  | EvStep tnow src a _ => action_ok cfg tnow src a
  | EvGetTask task_id => task_id = 0
  | EvInitStates task_id => task_id = 0
  | _ => True
  end.

Definition loop_event (ev : Event) : Prop :=
  match ev with
  | EvStep _ _ _ _ => True
  | EvCaught _ => True
  | _ => False
  end.

(** Why the step loop was left: the environment reported completion in an
    acting step, the counter is at its ceiling, or an exception was
    caught. *)
Inductive loop_exit (cfg : GenerateConfig) (m : Z) (s s' : Locals)
  (evs : list Event) : Prop :=
| exit_done tnow raw a evs' :
    one_more_success s s' -> done s' = Some true ->
    evs = EvStep tnow (Some raw) a (inr true) :: evs' ->
    loop_exit cfg m s s' evs
| exit_ceiling :
    same_successes s s' ->
    t s' = Z.max (t s) (m + num_steps_wait cfg) ->
    loop_exit cfg m s s' evs
| exit_caught e evs' :
    same_successes s s' -> evs = EvCaught e :: evs' ->
    loop_exit cfg m s s' evs.

Record loop_post (cfg : GenerateConfig) (m : Z) (s s' : Locals)
  (evs : list Event) : Prop := {
  lp_frame : same_frame s s';
  lp_trace : trace s' = evs ++ trace s;
  lp_count : (count_env_steps evs
              <= Z.to_nat (m + num_steps_wait cfg - t s))%nat;
  lp_ok : Forall (ev_ok cfg) evs;
  lp_events : Forall loop_event evs;
  lp_done : done s' = match last_completed evs with
                      | Some d => Some d
                      | None => done s
                      end;
  lp_t : t s <= t s' <= Z.max (t s) (m + num_steps_wait cfg);
  lp_exit : loop_exit cfg m s s' evs;
}.

(** [max_steps] as the step loop of an episode finds it. *)
Definition episode_max_steps (cfg : GenerateConfig) (s : Locals) : option Z :=
  match max_steps_table (task_suite_name cfg) with
  | Some m => Some m
  | None => max_steps s
  end.

(** The counters after an episode that ran its loop: one more episode, and
    one more success exactly when [won]. *)
Definition counted (won : bool) (s s' : Locals) : Prop :=
  task_episodes (counters s') = task_episodes (counters s) + 1 /\
  total_episodes (counters s') = total_episodes (counters s) + 1 /\
  task_successes (counters s') = task_successes (counters s) + Z.b2z won /\
  total_successes (counters s') = total_successes (counters s) + Z.b2z won.

Definition won_by (won : bool) (evs : list Event) : Prop :=
  if won
  then exists tnow raw a evs', evs = EvStep tnow (Some raw) a (inr true) :: evs'
  else True.

Record loop_trace (cfg : GenerateConfig) (m : Z) (evs : list Event)
  : Prop := {
  lt_count : (count_env_steps evs <= Z.to_nat (m + num_steps_wait cfg))%nat;
  lt_ok : Forall (ev_ok cfg) evs;
  lt_events : Forall loop_event evs;
}.

(** The four ways through one episode. *)
Inductive episode_post (cfg : GenerateConfig) (descr : string)
  (inits : list InitState) (idx : nat) (s : Locals)
  : Res unit -> Locals -> Prop :=
| ep_index s' :
    nth_error inits idx = None ->
    counters s' = counters s -> files s' = files s -> done s' = done s ->
    max_steps s' = max_steps s ->
    trace s' = EvReset :: trace s ->
    episode_post cfg descr inits idx s (Exc IndexError) s'
| ep_unbound_max s0 s' :
    nth_error inits idx = Some s0 ->
    episode_max_steps cfg s = None ->
    counters s' = counters s -> files s' = files s -> done s' = done s ->
    max_steps s' = None ->
    trace s' = EvSetInitState s0 :: EvReset :: trace s ->
    episode_post cfg descr inits idx s
                 (Exc (UnboundLocalError "max_steps")) s'
| ep_unbound_done s0 m evs s' :
    nth_error inits idx = Some s0 ->
    episode_max_steps cfg s = Some m ->
    loop_trace cfg m evs ->
    last_completed evs = None -> done s = None -> done s' = None ->
    counted false s s' -> files s' = files s ->
    max_steps s' = Some m ->
    trace s' = evs ++ EvSetInitState s0 :: EvReset :: trace s ->
    episode_post cfg descr inits idx s (Exc (UnboundLocalError "done")) s'
| ep_finished s0 m evs d won s' :
    nth_error inits idx = Some s0 ->
    episode_max_steps cfg s = Some m ->
    loop_trace cfg m evs ->
    match last_completed evs with
    | Some d' => Some d'
    | None => done s
    end = Some d ->
    done s' = Some d ->
    counted won s s' -> won_by won evs ->
    ((exists e evs', evs = EvCaught e :: evs') -> won = false) ->
    files s' =
      <[log_path descr :=
          json_after d (default ∅ (files s !! log_path descr))]> (files s) ->
    max_steps s' = Some m ->
    trace s' =
      EvSuccessLogged d
        :: EvVideo (total_episodes (counters s) + 1) d descr
        :: EvJsonWritten (log_path descr)
        :: evs ++ EvSetInitState s0 :: EvReset :: trace s ->
    episode_post cfg descr inits idx s (Val tt) s'.

Definition tallies_ok (s : Locals) : Prop :=
  tally_ok (task_successes (counters s)) (task_episodes (counters s)) /\
  tally_ok (total_successes (counters s)) (total_episodes (counters s)) /\
  files_ok (files s).

(** The run-wide counters and the JSON counters do not decrease. *)
Definition run_mono (s s' : Locals) : Prop :=
  total_episodes (counters s) <= total_episodes (counters s') /\
  total_successes (counters s) <= total_successes (counters s') /\
  files_mono (files s) (files s').

(** The counters of the task do not decrease. *)
Definition task_mono (s s' : Locals) : Prop :=
  task_episodes (counters s) <= task_episodes (counters s') /\
  task_successes (counters s) <= task_successes (counters s').

(** From one point between two episodes to the next: a task is set up, or
    an episode runs, to its end or to the exception that leaves it. *)
Inductive boundary_step (cfg : GenerateConfig) : Locals -> Locals -> Prop :=
| step_task task_suite task_id s :
    boundary_step cfg s (snd (task_begin cfg task_suite task_id s))
| step_episode descr inits idx s :
    boundary_step cfg s (snd (run_episode cfg descr inits idx s)).

(** The states a run started on disk [disk] can be in between episodes. *)
Definition at_boundary (cfg : GenerateConfig) (w : World)
  (disk : gmap string JsonLog) (s : Locals) : Prop :=
  rtc (boundary_step cfg) (initial_locals w disk) s.

(** The state inside the first episode of a task, right after the step
    loop and before the tallies of lines 336-337. *)
Definition after_first_loop (cfg : GenerateConfig)
  (task_suite : TaskSuite Task InitState) (s : Locals) : Res unit * Locals :=
  (x <- task_begin cfg task_suite 0 ;;
   episode_begin cfg (snd x) 0 ;;
   while_steps cfg (fst x)) s.

End Script.
End Eval.

(* ===================================================================== *)
(** * A scripted simulator, to run the script on *)
(* ===================================================================== *)

Module Scenario.
Import Similarity Eval.

Local Open Scope Z_scope.

(** [a[..., -1] = f(a[..., -1])] *)
Definition map_last (f : float -> float) (a : list float) : list float :=
  match rev a with
  | [] => []
  | g :: r => rev (f g :: r)
  end.

(** One of exactly two values: fully closed below the middle of the
    range, fully open from there on. *)
Definition snap (x : float) : float :=
  if PrimFloat.ltb x 0 then (-1)%float else 1%float.

(** Modelled from the spec: [robot_utils.normalize_gripper_action] is
    imported by the script and is not among the sources.  The gripper
    component goes from [0, 1] to [-1, +1] and is snapped to one of
    exactly two values when [binarize] holds; a vector that has not seven
    components is refused. *)
Definition normalize (a : list float) (binarize : bool)
  : PyExn + list float :=
  if Nat.eqb (List.length a) 7
  then inr (map_last (fun g =>
                        let g' := (2 * g - 1)%float in
                        if binarize then snap g' else g') a)
  else inl (Raised "InvalidActionShape").

(** Modelled from the spec: [robot_utils.invert_gripper_action] is
    imported by the script and is not among the sources.  The sign of the
    gripper component is flipped. *)
Definition invert (a : list float) : PyExn + list float :=
  if Nat.eqb (List.length a) 7
  then inr (map_last (fun g => (g * -1)%float) a)
  else inl (Raised "InvalidActionShape").

(** The keys of LIBERO's [benchmark_dict]. *)
Definition suite_names : list string :=
  ["libero_spatial"; "libero_object"; "libero_goal"; "libero_90";
   "libero_10"; "libero_100"].

(** The keys of [norm_stats] of a model fine-tuned on the four suites of
    the modified LIBERO datasets, and on the suite of a hundred tasks. *)
Definition trained_on : gset string :=
  {[ "libero_spatial_no_noops"; "libero_object_no_noops";
     "libero_goal_no_noops"; "libero_10_no_noops"; "libero_100_no_noops" ]}.

Definition policy_action : list float :=
  [0.5; 0; 0; 0; 0; 0.25; 1]%float.

Definition dummy_action : list float :=
  [0; 0; 0; 0; 0; 0; -1]%float.

Definition describe (task : Z) : string :=
  if task =? 0 then "pick up the black bowl" else "open the drawer".

(** A simulator that answers [env.step] from a script, one entry a call
    (an exception to raise, or the value of [done]); after the script,
    [done] is [False].  A task is its number, an initial state the pair of
    the task and the trial, the policy always proposes [policy_action]. *)
Definition scripted (tasks : Z) (states : nat)
  : Externals float (list (PyExn + bool)) Z (Z * nat) unit Z unit := {|
  model_norm_stats := trained_on;
  benchmark_dict := fun name =>
    if existsb (String.eqb name) suite_names
    then Some {| n_tasks := tasks;
                 get_task := fun task_id => task_id;
                 get_task_init_states := fun task_id =>
                   map (pair task_id) (seq 0 states) |}
    else None;
  get_libero_env := fun task _ w => (w, describe task);
  env_reset := fun w => w;
  env_set_init_state := fun _ w => (w, tt);
  env_step := fun _ w =>
    match w with
    | [] => ([], inr (tt, false))
    | inl e :: w' => (w', inl e)
    | inr d :: w' => (w', inr (tt, d))
    end;
  get_libero_dummy_action := fun _ => dummy_action;
  get_libero_image := fun _ => inr 0;
  draw_step_text := fun _ tnow => inr tnow;
  proprio_state := fun _ => inr tt;
  get_action := fun _ _ _ _ w => (w, inr policy_action);
  normalize_gripper_action := normalize;
  invert_gripper_action := invert;
  save_rollout_video := fun _ _ _ _ w => w;
|}.

(** A simulator that keeps what it is handed: its world is the list of
    the actions [env.step] received, newest first.  The policy always
    proposes [proposed]. *)
Definition recording (proposed : list float)
  : Externals float (list (list float)) Z (Z * nat) unit Z unit := {|
  model_norm_stats := trained_on;
  benchmark_dict := fun _ => None;
  get_libero_env := fun task _ w => (w, describe task);
  env_reset := fun w => w;
  env_set_init_state := fun _ w => (w, tt);
  env_step := fun a w => (a :: w, inr (tt, false));
  get_libero_dummy_action := fun _ => dummy_action;
  get_libero_image := fun _ => inr 0;
  draw_step_text := fun _ tnow => inr tnow;
  proprio_state := fun _ => inr tt;
  get_action := fun _ _ _ _ w => (w, inr proposed);
  normalize_gripper_action := normalize;
  invert_gripper_action := invert;
  save_rollout_video := fun _ _ _ _ w => w;
|}.

(** A proposal with the gripper at 0.2 of its range. *)
Definition half_closed : list float := [0.5; 0; 0; 0; 0; 0.25; 0.2]%float.

Definition config (suite : string) (wait trials : Z) : GenerateConfig :=
  {| model_family := "openvla";
     pretrained_checkpoint := Some "openvla/openvla-7b-finetuned-libero";
     load_in_8bit := false; load_in_4bit := false; center_crop := true;
     task_suite_name := suite;
     num_steps_wait := wait; num_trials_per_task := trials;
     use_wandb := false |}.

(** The task numbers handed to [get_task], oldest first. *)
Definition fetched_tasks {F InitState : Type}
  (evs : list (@Event F InitState)) : list Z :=
  flat_map (fun ev => match ev with
                      | EvGetTask task_id => [task_id]
                      | _ => []
                      end) (rev evs).

(** The initial states handed to [env.set_init_state], oldest first. *)
Definition initial_states_set {F InitState : Type}
  (evs : list (@Event F InitState)) : list InitState :=
  flat_map (fun ev => match ev with
                      | EvSetInitState s => [s]
                      | _ => []
                      end) (rev evs).

(** The exceptions caught by the handler of the step loop, oldest first. *)
Definition caught {F InitState : Type}
  (evs : list (@Event F InitState)) : list PyExn :=
  flat_map (fun ev => match ev with
                      | EvCaught e => [e]
                      | _ => []
                      end) (rev evs).

Definition resets {F InitState : Type}
  (evs : list (@Event F InitState)) : nat :=
  List.length (List.filter (fun ev => match ev with
                                      | EvReset => true
                                      | _ => false
                                      end) evs).

Definition bowl : string := "pick up the black bowl".

Definition one_task : TaskSuite Z (Z * nat) :=
  {| n_tasks := 1;
     get_task := fun task_id => task_id;
     get_task_init_states := fun task_id => map (pair task_id) (seq 0 1) |}.

(** One task, two trials, ten settling steps; the first [env.step] of the
    run raises. *)
Definition run_first_step_raises :=
  eval_libero (scripted 1 2) (config "libero_spatial" 10 2)
              (initial_locals [inl (Raised "sim")] ∅).

(** Two tasks, one trial each, no settling step; every episode is
    completed by its first action. *)
Definition run_two_tasks :=
  eval_libero (scripted 2 1) (config "libero_spatial" 0 1)
              (initial_locals [inr true; inr true] ∅).

(** A suite of the benchmark that the table of [max_steps] does not
    list, from the first line of [eval_libero]. *)
Definition run_unmapped_whole :=
  eval_libero_whole (scripted 1 1) (config "libero_100" 10 1)
                    (initial_locals [] ∅).

(** The first episode of a run, stopped right after its step loop: the
    first action completes the task. *)
Definition first_loop_won :=
  after_first_loop (scripted 1 1) (config "libero_spatial" 0 1) one_task
                   (initial_locals [inr true] ∅).

(** One settling step that reports [done], then an acting step whose
    [env.step] raises. *)
Definition settled_then_raised :=
  run_episode (scripted 1 1) (config "libero_spatial" 1 1) bowl
              [(0, 0%nat)] 0
              (initial_locals [inr true; inl (Raised "sim")] ∅).



End Scenario.

(* ===================================================================== *)
(** * Measures on the output of the converter *)
(* ===================================================================== *)

Module ConvertMeasures.
Import Convert.

(** The number of cells of a row of the CSV file. *)
Definition row_width (r : csv_row) : nat :=
  match r with
  | TextRow fields => List.length fields
  | FloatRow values => List.length values
  end.

(** [not line.strip()] *)
Definition is_blank (raw : string) : bool := String.eqb (py_strip raw) "".

Definition is_skipped (m : message) : bool :=
  match m with WarnSkipped _ _ => true | _ => false end.

Definition is_not_float (m : message) : bool :=
  match m with WarnNotFloat _ _ => true | _ => false end.

Definition is_text_row (r : csv_row) : bool :=
  match r with TextRow _ => true | FloatRow _ => false end.

(** The line number and the line a warning speaks of. *)
Definition warned_line (m : message) : option (nat * string) :=
  match m with
  | WarnSkipped n line => Some (n, line)
  | WarnNotFloat n line => Some (n, line)
  | _ => None
  end.

(** The rows and the messages of a conversion that found its input. *)
Definition converted (lines : list string) : list csv_row * list message :=
  match convert_to_csv (Some lines) with
  | (Some rows, messages) => (rows, messages)
  | (None, messages) => ([], messages)
  end.

End ConvertMeasures.

(* ===================================================================== *)
(** * What a computation leaves alone *)
(* ===================================================================== *)

Module EvalMeasures.
Import Eval.

(** The computation [m] leaves the component [g] of the state as it
    found it, however it ends. *)
Definition keeps {S X A : Type} (g : S -> X) (m : S -> Res A * S) : Prop :=
  forall s, g (snd (m s)) = g s.

End EvalMeasures.

(* ===================================================================== *)
(** * More runs on the scripted simulator *)
(* ===================================================================== *)

Module ScenarioMore.
Import Similarity Eval Scenario.

Local Open Scope Z_scope.

(** A task with two initial states. *)
Definition two_states : TaskSuite Z (Z * nat) :=
  {| n_tasks := 1;
     get_task := fun task_id => task_id;
     get_task_init_states := fun task_id => map (pair task_id) (seq 0 2) |}.


(** A suite without task. *)
Definition no_task : TaskSuite Z (Z * nat) :=
  {| n_tasks := 0;
     get_task := fun task_id => task_id;
     get_task_init_states := fun task_id => map (pair task_id) (seq 0 1) |}.

(** A suite of two tasks with one initial state each. *)
Definition two_tasks : TaskSuite Z (Z * nat) :=
  {| n_tasks := 2;
     get_task := fun task_id => task_id;
     get_task_init_states := fun task_id => map (pair task_id) (seq 0 1) |}.

End ScenarioMore.

(* ===================================================================== *)
(** * Facts on the converter *)
(* ===================================================================== *)

Module ConvertFacts.
Import Convert ConvertSpec.

(** ** Blanks at both ends *)

Lemma lstrip_split (s : list ascii) :
  exists lead, s = lead ++ lstrip s /\ all_blank lead = true.
Proof.
  induction s as [|c s IH]; cbn.
  - exists []. auto.
  - destruct (is_space c) eqn:Hc.
    + destruct IH as (lead & Heq & Hb). exists (c :: lead).
      unfold all_blank in *. cbn. rewrite Hc.
      split; [congruence|exact Hb].
    + exists []. auto.
Qed.

Lemma all_blank_rev (s : list ascii) : all_blank (rev s) = all_blank s.
Proof.
  unfold all_blank. induction s as [|c s IH]; [reflexivity|].
  cbn. rewrite forallb_app, IH. cbn. rewrite andb_true_r. apply andb_comm.
Qed.

Lemma rstrip_split (s : list ascii) :
  exists trail, s = rstrip s ++ trail /\ all_blank trail = true.
Proof.
  unfold rstrip. destruct (lstrip_split (rev s)) as (lead & Heq & Hb).
  exists (rev lead). split.
  - rewrite <- rev_app_distr, <- Heq, rev_involutive. reflexivity.
  - rewrite all_blank_rev. exact Hb.
Qed.

Lemma lstrip_head (s : list ascii) :
  match lstrip s with [] => True | c :: _ => is_space c = false end.
Proof.
  induction s as [|c s IH]; cbn; [exact I|].
  destruct (is_space c) eqn:Hc; [exact IH|exact Hc].
Qed.

Lemma lstrip_nil (s : list ascii) : lstrip s = [] <-> all_blank s = true.
Proof.
  induction s as [|c s IH]; cbn; [tauto|].
  destruct (is_space c); cbn; [exact IH|]. split; discriminate.
Qed.

Lemma lstrip_id (s : list ascii) :
  match s with [] => True | c :: _ => is_space c = false end ->
  lstrip s = s.
Proof. destruct s as [|c s]; cbn; [reflexivity|]. intros ->. reflexivity. Qed.

Lemma string_of_list_ascii_nil (l : list ascii) :
  string_of_list_ascii l = "" <-> l = [].
Proof. destruct l; cbn; split; congruence. Qed.

Lemma rstrip_nil (s : list ascii) : rstrip s = [] <-> all_blank s = true.
Proof.
  unfold rstrip. rewrite <- (all_blank_rev s), <- lstrip_nil.
  split; intros Hr.
  - apply (f_equal (@rev ascii)) in Hr. rewrite rev_involutive in Hr.
    exact Hr.
  - rewrite Hr. reflexivity.
Qed.

Lemma all_blank_head (s : list ascii) :
  match s with [] => True | c :: _ => is_space c = false end ->
  all_blank s = true -> s = [].
Proof.
  destruct s as [|c s]; [reflexivity|]. unfold all_blank. cbn.
  intros ->. discriminate.
Qed.

(** A line is empty once stripped exactly when it is made of blanks. *)
Lemma strip_blank (raw : string) : py_strip raw = "" <-> blank raw = true.
Proof.
  unfold py_strip, blank. rewrite string_of_list_ascii_nil, rstrip_nil.
  fold (all_blank (list_ascii_of_string raw)).
  rewrite <- (lstrip_nil (list_ascii_of_string raw)).
  split; intros Hs.
  - apply all_blank_head; [apply lstrip_head|exact Hs].
  - rewrite Hs. reflexivity.
Qed.

Lemma strip_eqb (raw : string) : String.eqb (py_strip raw) "" = blank raw.
Proof.
  destruct (String.eqb_spec (py_strip raw) "") as [He|Hne].
  - symmetry. apply strip_blank. exact He.
  - destruct (blank raw) eqn:Hb; [|reflexivity].
    exfalso. apply Hne, strip_blank. exact Hb.
Qed.

Lemma string_of_list_ascii_app (a b : list ascii) :
  string_of_list_ascii (a ++ b)
  = String.append (string_of_list_ascii a) (string_of_list_ascii b).
Proof. induction a as [|c a IH]; cbn; [reflexivity|]. rewrite IH. reflexivity. Qed.

Lemma list_ascii_of_string_app (a b : string) :
  list_ascii_of_string (String.append a b)
  = list_ascii_of_string a ++ list_ascii_of_string b.
Proof.
  induction a as [|c a IH]; [reflexivity|].
  change (c :: list_ascii_of_string (String.append a b)
          = c :: (list_ascii_of_string a ++ list_ascii_of_string b)).
  rewrite IH. reflexivity.
Qed.

Lemma last_hd_rev {A : Type} (l : list A) (d : A) :
  List.last l d = hd d (rev l).
Proof.
  induction l as [|x l _] using rev_ind; [reflexivity|].
  rewrite List.last_last, rev_unit. reflexivity.
Qed.

(** What [strip] removes: blanks before and after, and all of them. *)
Lemma strip_spec (raw : string) :
  (exists lead trail,
      raw = String.append lead (String.append (py_strip raw) trail) /\
      blank lead = true /\ blank trail = true) /\
  trimmed (py_strip raw).
Proof.
  unfold py_strip, blank, trimmed.
  set (cs := list_ascii_of_string raw).
  destruct (lstrip_split cs) as (lead & Hl & Hlb).
  destruct (rstrip_split (lstrip cs)) as (trail & Ht & Htb).
  split.
  - exists (string_of_list_ascii lead), (string_of_list_ascii trail).
    rewrite !list_ascii_of_string_of_list_ascii.
    split; [|split; assumption].
    rewrite <- !string_of_list_ascii_app, <- Ht, <- Hl.
    unfold cs. rewrite string_of_list_ascii_of_string. reflexivity.
  - rewrite list_ascii_of_string_of_list_ascii.
    pose proof (lstrip_head cs) as Hh.
    pose proof (lstrip_head (rev (lstrip cs))) as Hr.
    unfold rstrip in *.
    set (l := lstrip cs) in *. set (r := lstrip (rev l)) in *.
    destruct (rev r) as [|c core] eqn:Hcore; [exact I|].
    assert (Hrr : r = rev (c :: core)).
    { rewrite <- Hcore, rev_involutive. reflexivity. }
    split.
    + rewrite Ht in Hh. cbn in Hh. exact Hh.
    + rewrite last_hd_rev, <- Hrr.
      destruct r as [|x r']; [|exact Hr].
      apply (f_equal (@rev ascii)) in Hrr. rewrite rev_involutive in Hrr.
      discriminate.
Qed.

(** ** Splitting at commas *)

Lemma is_comma_eqb (c : ascii) : Ascii.eqb c "," = is_comma c.
Proof. reflexivity. Qed.

Lemma blank_is_no_comma (c : ascii) : is_space c = true -> is_comma c = false.
Proof.
  unfold is_comma. destruct (Ascii.eqb_spec c ",") as [->|]; [|reflexivity].
  vm_compute. discriminate.
Qed.

Lemma blanks_have_no_comma (l : list ascii) :
  all_blank l = true -> List.filter is_comma l = [].
Proof.
  unfold all_blank. induction l as [|c l IH]; cbn; [reflexivity|].
  intros [Hc Hl]%andb_prop. rewrite (blank_is_no_comma c Hc). auto.
Qed.

Lemma split_on_length (s : list ascii) : forall cur,
  List.length (split_on "," cur s)
  = S (List.length (List.filter is_comma s)).
Proof.
  induction s as [|c s IH]; intros cur; cbn; [reflexivity|].
  rewrite is_comma_eqb. destruct (is_comma c); cbn; rewrite IH; reflexivity.
Qed.

Lemma comma_count_strip (raw : string) :
  comma_count (py_strip raw) = comma_count raw.
Proof.
  unfold comma_count, py_strip.
  rewrite list_ascii_of_string_of_list_ascii.
  set (cs := list_ascii_of_string raw).
  destruct (lstrip_split cs) as (lead & Hl & Hlb).
  destruct (rstrip_split (lstrip cs)) as (trail & Ht & Htb).
  rewrite Hl at 2. rewrite Ht at 2.
  rewrite !List.filter_app, !List.length_app.
  rewrite (blanks_have_no_comma lead Hlb), (blanks_have_no_comma trail Htb).
  cbn. lia.
Qed.

(** The number of pieces is one more than the number of commas. *)
Lemma py_split_comma_length (line : string) :
  List.length (py_split_comma line) = S (comma_count line).
Proof. unfold py_split_comma, comma_count. apply split_on_length. Qed.

Lemma split_on_not_nil (s : list ascii) cur : split_on "," cur s <> [].
Proof.
  intros Hn. apply (f_equal (@List.length string)) in Hn.
  rewrite split_on_length in Hn. discriminate.
Qed.

Lemma concat_cons (x : string) (xs : list string) :
  xs <> [] ->
  String.concat "," (x :: xs)
  = String.append x (String.append "," (String.concat "," xs)).
Proof. destruct xs; [congruence|reflexivity]. Qed.

(** Joining the pieces with commas gives the text back. *)
Lemma split_on_join (s : list ascii) : forall cur,
  String.concat "," (split_on "," cur s)
  = string_of_list_ascii (rev cur ++ s).
Proof.
  induction s as [|c s IH]; intros cur; cbn [split_on].
  - rewrite app_nil_r. reflexivity.
  - rewrite is_comma_eqb. destruct (is_comma c) eqn:Hc.
    + rewrite concat_cons by apply split_on_not_nil.
      rewrite IH. cbn [rev app].
      unfold is_comma in Hc. apply Ascii.eqb_eq in Hc. subst c.
      rewrite string_of_list_ascii_app. reflexivity.
    + rewrite IH. cbn. rewrite <- app_assoc. reflexivity.
Qed.

Lemma py_split_comma_join (line : string) :
  String.concat "," (py_split_comma line) = line.
Proof.
  unfold py_split_comma. rewrite split_on_join. cbn.
  apply string_of_list_ascii_of_string.
Qed.

Lemma split_on_pieces (s : list ascii) : forall cur,
  List.filter is_comma cur = [] ->
  Forall (fun p => comma_count p = O) (split_on "," cur s).
Proof.
  assert (Hrev : forall cur, List.filter is_comma cur = [] ->
                   comma_count (string_of_list_ascii (rev cur)) = O).
  { intros cur Hcur. unfold comma_count.
    rewrite list_ascii_of_string_of_list_ascii.
    rewrite List.filter_rev, Hcur. reflexivity. }
  induction s as [|c s IH]; intros cur Hcur; cbn [split_on].
  - constructor; [auto|constructor].
  - rewrite is_comma_eqb. destruct (is_comma c) eqn:Hc.
    + constructor; [auto|]. apply IH. reflexivity.
    + apply IH. cbn. rewrite Hc. exact Hcur.
Qed.

Lemma py_split_comma_pieces (line : string) :
  Forall (fun p => comma_count p = O) (py_split_comma line).
Proof. apply split_on_pieces. reflexivity. Qed.

(** ** Splitting at blanks *)

Lemma split_ws_length (s : list ascii) : forall cur,
  List.length (split_ws cur s)
  = match cur with
    | [] => word_starts true s
    | _ :: _ => S (word_starts false s)
    end.
Proof.
  induction s as [|c s IH]; intros cur; cbn.
  - destruct cur; reflexivity.
  - destruct (is_space c); cbn.
    + destruct cur; cbn; rewrite (IH []); reflexivity.
    + rewrite (IH (c :: cur)). destruct cur; reflexivity.
Qed.

Lemma py_split_length (line : string) :
  List.length (py_split line) = word_count line.
Proof. unfold py_split, word_count. apply split_ws_length. Qed.

Lemma word_starts_lead (lead s : list ascii) :
  all_blank lead = true ->
  word_starts true (lead ++ s) = word_starts true s.
Proof.
  unfold all_blank. induction lead as [|c lead IH]; cbn; [reflexivity|].
  intros [Hc Hl]%andb_prop. rewrite Hc. cbn. auto.
Qed.

Lemma word_starts_trail (trail : list ascii) :
  all_blank trail = true ->
  forall s b, word_starts b (s ++ trail) = word_starts b s.
Proof.
  intros Ht.
  assert (Hz : forall b, word_starts b trail = O).
  { unfold all_blank in Ht. induction trail as [|c trail IH]; intros b;
      cbn; [reflexivity|].
    apply andb_prop in Ht as [Hc Hl]. rewrite Hc, andb_false_r. cbn. auto. }
  induction s as [|c s IH]; intros b; cbn; [apply Hz|].
  rewrite IH. reflexivity.
Qed.

Lemma word_count_strip (raw : string) :
  word_count (py_strip raw) = word_count raw.
Proof.
  unfold word_count, py_strip.
  rewrite list_ascii_of_string_of_list_ascii.
  set (cs := list_ascii_of_string raw).
  destruct (lstrip_split cs) as (lead & Hl & Hlb).
  destruct (rstrip_split (lstrip cs)) as (trail & Ht & Htb).
  rewrite Hl at 2. rewrite (word_starts_lead lead _ Hlb).
  rewrite Ht at 2. rewrite (word_starts_trail trail Htb). reflexivity.
Qed.

Lemma words_of_blank_cons (c : ascii) (s : list ascii) ws :
  is_space c = true -> words_of s ws -> words_of (c :: s) ws.
Proof.
  intros Hc Hw. inversion Hw as [gap Hg|gap w rest ws' Hg Hne Hnb Hr Hrest];
    subst.
  - apply words_none. unfold all_blank in *. cbn. rewrite Hc. exact Hg.
  - change (c :: gap ++ w ++ rest) with ((c :: gap) ++ w ++ rest).
    apply words_next; try assumption.
    unfold all_blank in *. cbn. rewrite Hc. exact Hg.
Qed.

Lemma no_blank_rev (w : list ascii) : no_blank (rev w) = no_blank w.
Proof.
  unfold no_blank. induction w as [|c w IH]; [reflexivity|].
  cbn. rewrite forallb_app, IH. cbn. rewrite andb_true_r. apply andb_comm.
Qed.

(** The fields [split] gives are the words of the text. *)
Lemma split_ws_words (s : list ascii) :
  words_of s (map list_ascii_of_string (split_ws [] s)) /\
  forall cur, cur <> [] -> no_blank cur = true ->
    words_of (rev cur ++ s) (map list_ascii_of_string (split_ws cur s)).
Proof.
  induction s as [|c s [IHe IHc]].
  - split.
    + cbn. apply words_none. reflexivity.
    + intros cur Hne Hnb. destruct cur as [|x cur]; [congruence|].
      cbn [split_ws map]. rewrite list_ascii_of_string_of_list_ascii.
      change (rev (x :: cur) ++ []) with ([] ++ rev (x :: cur) ++ []).
      apply words_next; try reflexivity.
      * intros Hn. apply (f_equal (@rev ascii)) in Hn.
        rewrite rev_involutive in Hn. discriminate.
      * rewrite no_blank_rev. exact Hnb.
      * apply words_none. reflexivity.
  - assert (He : words_of (c :: s)
                   (map list_ascii_of_string (split_ws [] (c :: s)))).
    { cbn [split_ws]. destruct (is_space c) eqn:Hc.
      - apply words_of_blank_cons; assumption.
      - apply (IHc [c]); [discriminate|].
        unfold no_blank. cbn. rewrite Hc. reflexivity. }
    split; [exact He|].
    intros cur Hne Hnb. destruct cur as [|x cur]; [congruence|].
    cbn [split_ws]. destruct (is_space c) eqn:Hc.
    + cbn [map]. rewrite list_ascii_of_string_of_list_ascii.
      change (rev (x :: cur) ++ c :: s)
        with ([] ++ rev (x :: cur) ++ c :: s).
      apply words_next; try reflexivity.
      * intros Hn. apply (f_equal (@rev ascii)) in Hn.
        rewrite rev_involutive in Hn. discriminate.
      * rewrite no_blank_rev. exact Hnb.
      * exact Hc.
      * cbn [split_ws] in He. rewrite Hc in He. exact He.
    + replace (rev (x :: cur) ++ c :: s)
        with (rev (c :: x :: cur) ++ s)
        by (cbn; rewrite <- !app_assoc; reflexivity).
      apply IHc; [discriminate|].
      unfold no_blank in *. cbn in *. rewrite Hc. exact Hnb.
Qed.

Lemma py_split_words (line : string) :
  words_of (list_ascii_of_string line)
           (map list_ascii_of_string (py_split line)).
Proof. apply split_ws_words. Qed.

Lemma words_of_no_blank (s : list ascii) ws :
  words_of s ws -> Forall (fun w => w <> [] /\ no_blank w = true) ws.
Proof. induction 1; constructor; auto. Qed.

Lemma rstrip_id (w : list ascii) : no_blank w = true -> rstrip w = w.
Proof.
  intros Hnb. unfold rstrip. rewrite lstrip_id.
  - apply rev_involutive.
  - rewrite <- no_blank_rev in Hnb. destruct (rev w) as [|c r]; [exact I|].
    unfold no_blank in Hnb. cbn in Hnb.
    apply andb_prop in Hnb as [Hc _]. destruct (is_space c); [discriminate|].
    reflexivity.
Qed.

(** A word is not changed by [strip]. *)
Lemma py_strip_word (w : string) :
  no_blank (list_ascii_of_string w) = true -> py_strip w = w.
Proof.
  intros Hnb. unfold py_strip. rewrite lstrip_id.
  - rewrite rstrip_id by exact Hnb. apply string_of_list_ascii_of_string.
  - destruct (list_ascii_of_string w) as [|c r]; [exact I|].
    unfold no_blank in Hnb. cbn in Hnb.
    apply andb_prop in Hnb as [Hc _]. destruct (is_space c); [discriminate|].
    reflexivity.
Qed.

Lemma py_split_stripped (line : string) :
  map py_strip (py_split line) = py_split line.
Proof.
  pose proof (words_of_no_blank _ _ (py_split_words line)) as Hall.
  induction (py_split line) as [|w ws IH]; [reflexivity|].
  cbn [map] in *. inversion Hall as [|? ? [_ Hw] Hrest]; subst.
  rewrite (py_strip_word w Hw), (IH Hrest). reflexivity.
Qed.

(** ** The fields of a line *)

Lemma fields_of_commas (line : string) :
  comma_count line = 3%nat ->
  fields line = map py_strip (py_split_comma line) /\
  List.length (fields line) = 4%nat.
Proof.
  intros Hc. unfold fields.
  rewrite List.length_map, py_split_comma_length, Hc. cbn.
  rewrite List.length_map, py_split_comma_length, Hc. auto.
Qed.

Lemma fields_of_words (line : string) :
  comma_count line <> 3%nat ->
  fields line = py_split line /\
  List.length (fields line) = word_count line.
Proof.
  intros Hc. unfold fields.
  rewrite List.length_map, py_split_comma_length.
  destruct (Nat.eqb_spec (S (comma_count line)) 4) as [He|_]; [lia|].
  rewrite py_split_stripped, py_split_length. auto.
Qed.

(** ** Decimal literals *)

Lemma digit_char_facts (d : nat) :
  (d < 10)%nat ->
  is_digit (digit_char d) = true /\
  digit_val (digit_char d) = Z.of_nat d /\
  is_c_space (digit_char d) = false /\
  lower (digit_char d) = digit_char d /\
  Ascii.eqb (digit_char d) "-" = false /\
  Ascii.eqb (digit_char d) "+" = false /\
  Ascii.eqb (digit_char d) "i" = false /\
  Ascii.eqb (digit_char d) "n" = false.
Proof.
  intros Hd.
  do 10 (destruct d as [|d]; [vm_compute; repeat split; reflexivity|]).
  lia.
Qed.

Lemma digits_tail_digits (ds : list nat) : forall acc n rest,
  Forall (fun d => (d < 10)%nat) ds ->
  digits_tail acc n (map digit_char ds ++ rest)
  = digits_tail (fold_left (fun a d => (10 * a + Z.of_nat d)%Z) ds acc)
                (n + List.length ds) rest.
Proof.
  induction ds as [|d ds IH]; intros acc n rest Hall.
  - cbn. rewrite Nat.add_0_r. reflexivity.
  - inversion Hall as [|? ? Hd Hrest]; subst.
    destruct (digit_char_facts d Hd) as (Hdig & Hval & _).
    cbn [map app digits_tail fold_left List.length].
    rewrite Hdig, Hval, (IH _ _ _ Hrest).
    f_equal. lia.
Qed.

Lemma digits_tail_stop (acc : Z) (n : nat) (rest : list ascii) :
  match rest with
  | [] => True
  | c :: _ => is_digit c = false /\ Ascii.eqb c "_" = false
  end ->
  digits_tail acc n rest = (acc, n, rest).
Proof.
  destruct rest as [|c rest]; [reflexivity|].
  intros [Hd Hu]. cbn. rewrite Hd, Hu. reflexivity.
Qed.

Lemma digitpart_digits (acc : Z) (d : nat) (ds : list nat)
  (rest : list ascii) :
  (d < 10)%nat -> Forall (fun d => (d < 10)%nat) ds ->
  match rest with
  | [] => True
  | c :: _ => is_digit c = false /\ Ascii.eqb c "_" = false
  end ->
  digitpart acc (map digit_char (d :: ds) ++ rest)
  = Some (fold_left (fun a d => (10 * a + Z.of_nat d)%Z) (d :: ds) acc,
          S (List.length ds), rest).
Proof.
  intros Hd Hds Hrest. unfold digitpart. cbn [map app].
  destruct (digit_char_facts d Hd) as (Hdig & Hval & _).
  rewrite Hdig, Hval, (digits_tail_digits ds _ _ _ Hds).
  rewrite (digits_tail_stop _ _ rest Hrest). reflexivity.
Qed.

Lemma lstrip_c_id (s : list ascii) :
  match s with [] => True | c :: _ => is_c_space c = false end ->
  lstrip_c s = s.
Proof. destruct s as [|c s]; cbn; [reflexivity|]. intros ->. reflexivity. Qed.

Lemma strip_c_id (s : list ascii) :
  match s with [] => True | c :: _ => is_c_space c = false end ->
  match rev s with [] => True | c :: _ => is_c_space c = false end ->
  strip_c s = s.
Proof.
  intros Hh Hl. unfold strip_c.
  rewrite (lstrip_c_id s Hh), (lstrip_c_id (rev s) Hl).
  apply rev_involutive.
Qed.

(** [float] reads a decimal literal as the number it denotes. *)
Lemma float_of_decimal (negative : bool) (ip fp : list nat) :
  ip <> [] -> fp <> [] ->
  Forall (fun d => (d < 10)%nat) ip ->
  Forall (fun d => (d < 10)%nat) fp ->
  float_of_string (decimal_literal negative ip fp)
  = Some (Finite (Qred (decimal_value negative ip fp))).
Proof.
  intros Hip Hfp Hipd Hfpd.
  destruct ip as [|i0 ipt]; [congruence|].
  destruct fp as [|f0 fpt]; [congruence|].
  inversion Hipd as [|? ? Hi0 Hipt]; subst.
  inversion Hfpd as [|? ? Hf0 Hfpt]; subst.
  destruct (digit_char_facts i0 Hi0)
    as (Hi0d & Hi0v & Hi0s & Hi0l & Hi0m & Hi0p & Hi0i & Hi0n).
  destruct (digit_char_facts f0 Hf0) as (Hf0d & Hf0v & _).
  set (body := map digit_char (i0 :: ipt)
                 ++ "."%char :: map digit_char (f0 :: fpt)).
  assert (Hlast : match rev ((if negative then ["-"%char] else []) ++ body)
                  with
                  | [] => True
                  | c :: _ => is_c_space c = false
                  end).
  { unfold body. rewrite !rev_app_distr. cbn [rev].
    rewrite <- !app_assoc.
    destruct (exists_last (l := f0 :: fpt)) as (fp' & dl & Heq);
      [discriminate|].
    rewrite Heq, map_app, rev_app_distr. cbn.
    assert (Hdl : (dl < 10)%nat).
    { rewrite Heq in Hfpd. apply Forall_app in Hfpd as [_ Hd].
      inversion Hd; assumption. }
    apply (digit_char_facts dl Hdl). }
  unfold float_of_string, decimal_literal.
  rewrite list_ascii_of_string_of_list_ascii.
  fold body. rewrite strip_c_id; [|destruct negative; cbn; auto|exact Hlast].
  assert (Hsign :
            match (if negative then ["-"%char] else []) ++ body with
            | c :: r => if Ascii.eqb c "-" then (true, r)
                        else if Ascii.eqb c "+" then (false, r)
                        else (false, (if negative then ["-"%char] else [])
                                       ++ body)
            | [] => (false, (if negative then ["-"%char] else []) ++ body)
            end = (negative, body)).
  { destruct negative; cbn; [reflexivity|].
    rewrite Hi0m, Hi0p. reflexivity. }
  rewrite Hsign.
  assert (Hword : forall w,
            String.eqb (string_of_list_ascii (map lower body)) w
            = match w with
              | String c _ => if Ascii.eqb (digit_char i0) c
                              then String.eqb
                                     (string_of_list_ascii (map lower body)) w
                              else false
              | EmptyString => false
              end).
  { intros [|c w]; cbn; [reflexivity|].
    rewrite Hi0l. destruct (Ascii.eqb (digit_char i0) c); reflexivity. }
  rewrite (Hword "inf"), (Hword "infinity"), (Hword "nan").
  rewrite Hi0i, Hi0n. cbn [orb].
  assert (Hnum : number body
                 = Some (digits_value ((i0 :: ipt) ++ f0 :: fpt),
                         S (List.length fpt), [])).
  { unfold number, body.
    rewrite (digitpart_digits 0 i0 ipt _ Hi0 Hipt)
      by (split; reflexivity).
    replace (Ascii.eqb "." ".") with true by reflexivity.
    rewrite <- (app_nil_r (map digit_char (f0 :: fpt))).
    rewrite (digitpart_digits _ f0 fpt [] Hf0 Hfpt) by exact I.
    unfold digits_value. rewrite fold_left_app. reflexivity. }
  rewrite Hnum. cbn [exponent].
  unfold scale10, decimal_value.
  destruct (Z.leb_spec 0 (0 - Z.of_nat (S (List.length fpt)))) as [Hle|_];
    [lia|].
  do 2 f_equal.
  replace (- (0 - Z.of_nat (S (List.length fpt))))%Z
    with (Z.of_nat (List.length (f0 :: fpt))) by (cbn [List.length]; lia).
  f_equal. destruct negative; f_equal; lia.
Qed.

(** ** The conversion *)

Lemma convert_lines_each (lines : list string) : forall n,
  convert_lines n lines
  = (flat_map row_of (combine (seq n (List.length lines)) lines),
     flat_map warning_of (combine (seq n (List.length lines)) lines)).
Proof.
  induction lines as [|l lines IH]; intros n; [reflexivity|].
  cbn [convert_lines List.length seq combine flat_map].
  rewrite (IH (S n)).
  change (row_of (n, l))
    with (match fst (convert_line n l) with Some r => [r] | None => [] end).
  change (warning_of (n, l))
    with (match snd (convert_line n l) with Some w => [w] | None => [] end).
  destruct (convert_line n l) as [[r|] [w|]]; reflexivity.
Qed.

Lemma convert_line_blank (n : nat) (raw : string) :
  blank raw = true -> convert_line n raw = (None, None).
Proof.
  intros Hb. unfold convert_line. rewrite strip_eqb, Hb. reflexivity.
Qed.

Lemma convert_line_skipped (n : nat) (raw : string) :
  blank raw = false ->
  comma_count raw <> 3%nat -> word_count raw <> 4%nat ->
  convert_line n raw = (None, Some (WarnSkipped n (py_strip raw))).
Proof.
  intros Hb Hc Hw. unfold convert_line. rewrite strip_eqb, Hb.
  rewrite <- comma_count_strip in Hc. rewrite <- word_count_strip in Hw.
  destruct (fields_of_words _ Hc) as [_ ->].
  destruct (Nat.eqb_spec (word_count (py_strip raw)) 4); [contradiction|].
  reflexivity.
Qed.

Lemma convert_line_four (n : nat) (raw : string) :
  blank raw = false ->
  comma_count raw = 3%nat \/ word_count raw = 4%nat ->
  exists v1 v2 v3 v4,
    four_fields (py_strip raw) [v1; v2; v3; v4] /\
    match float_of_string v1, float_of_string v2,
          float_of_string v3, float_of_string v4 with
    | Some x1, Some x2, Some x3, Some x4 =>
        convert_line n raw = (Some (FloatRow [x1; x2; x3; x4]), None)
    | _, _, _, _ =>
        convert_line n raw
        = (Some (TextRow [v1; v2; v3; v4]),
           Some (WarnNotFloat n (py_strip raw)))
    end.
Proof.
  intros Hb Hcw. unfold convert_line. rewrite strip_eqb, Hb.
  set (line := py_strip raw).
  assert (Hf : exists v1 v2 v3 v4,
             fields line = [v1; v2; v3; v4] /\
             four_fields line [v1; v2; v3; v4]).
  { unfold four_fields.
    destruct (Nat.eqb_spec (comma_count line) 3) as [Hc|Hc].
    - destruct (fields_of_commas line Hc) as [Hfd Hlen].
      destruct (fields line) as [|v1 [|v2 [|v3 [|v4 [|]]]]];
        try discriminate.
      exists v1, v2, v3, v4. split; [reflexivity|].
      exists (py_split_comma line).
      split; [apply py_split_comma_join|].
      split; [apply py_split_comma_pieces|exact Hfd].
    - destruct (fields_of_words line Hc) as [Hfd Hlen].
      assert (Hw : word_count line = 4%nat).
      { unfold line in *. rewrite comma_count_strip in Hc.
        rewrite word_count_strip. tauto. }
      rewrite Hw in Hlen.
      pose proof (py_split_words line) as Hwords. rewrite <- Hfd in Hwords.
      destruct (fields line) as [|v1 [|v2 [|v3 [|v4 [|]]]]];
        try discriminate.
      exists v1, v2, v3, v4. split; [reflexivity|exact Hwords]. }
  destruct Hf as (v1 & v2 & v3 & v4 & Hfd & Hfour).
  exists v1, v2, v3, v4. split; [exact Hfour|].
  rewrite Hfd. cbn [List.length Nat.eqb floats_of].
  destruct (float_of_string v1); [|reflexivity].
  destruct (float_of_string v2); [|reflexivity].
  destruct (float_of_string v3); [|reflexivity].
  destruct (float_of_string v4); reflexivity.
Qed.

(** What [float] makes of some texts. *)
Lemma float_of_string_examples :
  float_of_string "0.1234" = Some (Finite (617 # 5000)) /\
  float_of_string "-0.2000" = Some (Finite (-1 # 5)) /\
  float_of_string " 12 " = Some (Finite (12 # 1)) /\
  float_of_string "+1_000.5" = Some (Finite (2001 # 2)) /\
  float_of_string ".5" = Some (Finite (1 # 2)) /\
  float_of_string "5." = Some (Finite (5 # 1)) /\
  float_of_string "25e-1" = Some (Finite (5 # 2)) /\
  float_of_string "1.5E+2" = Some (Finite (150 # 1)) /\
  float_of_string "-Infinity" = Some (Infinite true) /\
  float_of_string "nan" = Some NaN /\
  float_of_string "" = None /\
  float_of_string "abc" = None /\
  float_of_string "1,2" = None /\
  float_of_string "1 2" = None /\
  float_of_string "1__0" = None /\
  float_of_string "1e" = None /\
  float_of_string "." = None /\
  float_of_string "0x10" = None /\
  float_of_string (String "028" "1") = None.
Proof. vm_compute. repeat split; reflexivity. Qed.

(** C9 (amended). The line "0.1234, 0.9800, 0.0500, -0.2000\n" of the
    motion trace becomes the row [0.1234, 0.98, 0.05, -0.2] of numbers.
    A line of blanks only is left without a row and without a warning.
    Any other line has four fields when it has exactly three commas (the
    fields are the pieces between them, stripped) or, failing that, when
    it has exactly four words (the fields are the words).  A line that
    has not four fields gives no row and the warning that it is skipped.
    A line that has them gives the row of the four numbers when [float]
    reads all four, and else the row of the four texts with the warning
    that they are written as they are.  The warnings show the number of
    the line and the line stripped of the blanks at its ends.  The
    conversion never stops before the end of the file: the rows written
    after the header and the warnings printed are those of the lines,
    one line after the other. *)
Theorem convert_line_cases (n : nat) (raw : string) (lines : list string) :
  convert_line n trace_line
  = (Some (FloatRow [Finite (617 # 5000); Finite (49 # 50);
                     Finite (1 # 20); Finite (-1 # 5)]), None) /\
  (blank raw = true -> convert_line n raw = (None, None)) /\
  (blank raw = false ->
   comma_count raw <> 3%nat -> word_count raw <> 4%nat ->
   convert_line n raw = (None, Some (WarnSkipped n (py_strip raw)))) /\
  (blank raw = false ->
   comma_count raw = 3%nat \/ word_count raw = 4%nat ->
   exists v1 v2 v3 v4,
     four_fields (py_strip raw) [v1; v2; v3; v4] /\
     match float_of_string v1, float_of_string v2,
           float_of_string v3, float_of_string v4 with
     | Some x1, Some x2, Some x3, Some x4 =>
         convert_line n raw = (Some (FloatRow [x1; x2; x3; x4]), None)
     | _, _, _, _ =>
         convert_line n raw
         = (Some (TextRow [v1; v2; v3; v4]),
            Some (WarnNotFloat n (py_strip raw)))
     end) /\
  ((exists lead trail,
       raw = String.append lead (String.append (py_strip raw) trail) /\
       blank lead = true /\ blank trail = true) /\
   trimmed (py_strip raw)) /\
  convert_to_csv (Some lines)
  = (Some (TextRow header :: flat_map row_of (numbered lines)),
     flat_map warning_of (numbered lines) ++ [Converted]).
Proof.
  split; [vm_compute; reflexivity|].
  split; [apply convert_line_blank|].
  split; [apply convert_line_skipped|].
  split; [apply convert_line_four|].
  split; [apply strip_spec|].
  unfold convert_to_csv, numbered. rewrite convert_lines_each. reflexivity.
Qed.

(** C9, counterexample: a line of blanks has not four fields, whichever
    way it is split, and is skipped without any warning. *)
Lemma blank_line_counterexample :
  List.length (py_split_comma (String.append "  " newline)) = 1%nat /\
  List.length (py_split (String.append "  " newline)) = 0%nat /\
  List.length (fields (py_strip (String.append "  " newline))) <> 4%nat /\
  convert_line 1 (String.append "  " newline) = (None, None) /\
  convert_to_csv (Some [String.append "  " newline])
  = (Some [TextRow header], [Converted]).
Proof. vm_compute. repeat split; discriminate. Qed.

Lemma convert_line_cases_witness :
  convert_line 7 "1 2 3" = (None, Some (WarnSkipped 7 "1 2 3")) /\
  convert_line 8 (String.append "0.5 1e-3" (String "009" "-2 inf "))
  = (Some (FloatRow [Finite (1 # 2); Finite (1 # 1000); Finite (-2 # 1);
                     Infinite false]), None) /\
  convert_line 9 " 0.1, abc ,0.3,0.4"
  = (Some (TextRow ["0.1"; "abc"; "0.3"; "0.4"]),
     Some (WarnNotFloat 9 "0.1, abc ,0.3,0.4")) /\
  convert_line 10 "1,2 3 4 5,6"
  = (Some (TextRow ["1,2"; "3"; "4"; "5,6"]),
     Some (WarnNotFloat 10 "1,2 3 4 5,6")).
Proof.
  assert (H1 : blank "1 2 3" = false) by reflexivity.
  assert (H2 : comma_count "1 2 3" <> 3%nat) by discriminate.
  assert (H3 : word_count "1 2 3" <> 4%nat) by discriminate.
  split.
  { exact (proj1 (proj2 (proj2 (convert_line_cases 7 "1 2 3" [])))
             H1 H2 H3). }
  vm_compute. repeat split; reflexivity.
Defined.

End ConvertFacts.

(* ===================================================================== *)
(** * Facts on the motion similarity *)
(* ===================================================================== *)

Module SimilarityFacts.
Import Similarity.

Local Open Scope R_scope.

Lemma le_div (a b c : R) : 0 < c -> a * c <= b -> a <= b / c.
Proof.
  intros Hc Hab. apply Rmult_le_reg_r with c; [exact Hc|].
  unfold Rdiv. rewrite Rmult_assoc, Rinv_l by lra. lra.
Qed.

Lemma div_lt (a b c : R) : 0 < c -> a < b * c -> a / c < b.
Proof.
  intros Hc Hab. apply Rmult_lt_reg_r with c; [exact Hc|].
  unfold Rdiv. rewrite Rmult_assoc, Rinv_l by lra. lra.
Qed.

Lemma dot3_self_nonneg (v : R * R * R) : 0 <= dot3 v v.
Proof. destruct v as [[a b] c]. cbn. nra. Qed.

Lemma dot3_self_pos (v : R * R * R) : v <> (0, 0, 0) -> 0 < dot3 v v.
Proof.
  destruct v as [[a b] c]. cbn. intros Hv.
  destruct (Req_dec a 0) as [->|Ha]; [|nra].
  destruct (Req_dec b 0) as [->|Hb]; [|nra].
  destruct (Req_dec c 0) as [->|Hc]; [|nra].
  contradiction.
Qed.

(** Cauchy-Schwarz in dimension 3, through Lagrange's identity. *)
Lemma cauchy_schwarz3 (v w : R * R * R) :
  dot3 v w * dot3 v w <= dot3 v v * dot3 w w.
Proof.
  destruct v as [[a b] c], w as [[x y] z]. cbn.
  assert (Hl : (a * a + b * b + c * c) * (x * x + y * y + z * z)
               - (a * x + b * y + c * z) * (a * x + b * y + c * z)
               = (a * y - b * x) * (a * y - b * x)
                 + (a * z - c * x) * (a * z - c * x)
                 + (b * z - c * y) * (b * z - c * y)) by ring.
  pose proof (Rle_0_sqr (a * y - b * x)) as H1.
  pose proof (Rle_0_sqr (a * z - c * x)) as H2.
  pose proof (Rle_0_sqr (b * z - c * y)) as H3.
  unfold Rsqr in H1, H2, H3. lra.
Qed.

Lemma dot_below_magnitudes (v w : R * R * R) :
  - (magnitude3 v * magnitude3 w) <= dot3 v w <= magnitude3 v * magnitude3 w.
Proof.
  unfold magnitude3.
  pose proof (dot3_self_nonneg v) as Hv.
  pose proof (dot3_self_nonneg w) as Hw.
  pose proof (cauchy_schwarz3 v w) as Hcs.
  pose proof (sqrt_pos (dot3 v v)) as Hsv.
  pose proof (sqrt_pos (dot3 w w)) as Hsw.
  pose proof (sqrt_sqrt _ Hv) as Hqv.
  pose proof (sqrt_sqrt _ Hw) as Hqw.
  set (p := sqrt (dot3 v v)) in *. set (q := sqrt (dot3 w w)) in *.
  assert (Hpq : (p * q) * (p * q) = dot3 v v * dot3 w w).
  { replace (p * q * (p * q)) with ((p * p) * (q * q)) by ring.
    rewrite Hqv, Hqw. reflexivity. }
  assert (Hn : 0 <= p * q) by nra.
  split; nra.
Qed.

Lemma changes_dir_spec (v w : R * R * R) :
  changes_dir (vec3 v) (vec3 w) = Some (spec_cosine v w).
Proof.
  destruct v as [[a b] c], w as [[x y] z].
  unfold changes_dir, np_dot, norm2, py_min, spec_cosine, magnitude3.
  cbn -[Rmin sqrt].
  replace (0 + a * x + b * y + c * z) with (a * x + b * y + c * z) by ring.
  replace (0 + a * a + b * b + c * c) with (a * a + b * b + c * c) by ring.
  replace (0 + x * x + y * y + z * z) with (x * x + y * y + z * z) by ring.
  f_equal. unfold Rmin.
  destruct (Rlt_dec _ _) as [Hlt|Hge]; destruct (Rle_dec _ _) as [Hle|Hgt];
    try reflexivity; lra.
Qed.

Lemma lt_div (a b c : R) : 0 < c -> a * c < b -> a < b / c.
Proof.
  intros Hc Hab. apply Rmult_lt_reg_r with c; [exact Hc|].
  unfold Rdiv. rewrite Rmult_assoc, Rinv_l by lra. lra.
Qed.

(** In exact arithmetic the clamp never acts: the guarded quotient lies
    strictly between -1 and 1. *)
Lemma quotient_strict (v w : R * R * R) :
  -1 < dot3 v w / (magnitude3 v * magnitude3 w + 1 / 1000000) < 1.
Proof.
  pose proof (dot_below_magnitudes v w) as [Hlo Hhi].
  assert (Hn : 0 <= magnitude3 v * magnitude3 w).
  { unfold magnitude3. apply Rmult_le_pos; apply sqrt_pos. }
  set (D := magnitude3 v * magnitude3 w + 1 / 1000000).
  assert (HD : 0 < D) by (unfold D; lra).
  split.
  - apply lt_div; [exact HD|]. unfold D. lra.
  - apply div_lt; [exact HD|]. unfold D. lra.
Qed.

Lemma changes_dir_exact (v w : R * R * R) :
  changes_dir (vec3 v) (vec3 w)
  = Some (dot3 v w / (magnitude3 v * magnitude3 w + 1 / 1000000)).
Proof.
  rewrite changes_dir_spec. unfold spec_cosine.
  pose proof (quotient_strict v w) as [_ Hhi].
  rewrite Rmin_left by lra. reflexivity.
Qed.

(** In binary64 the value is never above 1. *)
Lemma changes_dir_clamped (u v : list float) (r : float) :
  changes_dir u v = Some r -> PrimFloat.ltb 1 r = false.
Proof.
  unfold changes_dir. destruct (np_dot u v) as [d|]; [|discriminate].
  intros [= <-]. unfold py_min. cbn [fltb fone binary64_ops].
  match goal with
  | |- context [if PrimFloat.ltb 1 ?q then _ else _] =>
      destruct (PrimFloat.ltb 1 q) eqn:Hq
  end; [reflexivity|exact Hq].
Qed.

(** C5 (amended). The value computed for two sub-vectors of three
    components is [min(dot(v, w) / (|v| * |w| + 1e-6), 1)], the sums taken
    from left to right in binary64, and it is never above 1.  It is not
    the cosine but the cosine scaled by [|v||w| / (|v||w| + 1e-6)]: in
    exact arithmetic it lies strictly between -1 and 1 for every pair,
    zero vectors included, and for two identical sub-vectors it is
    [|v|^2 / (|v|^2 + 1e-6)], which is at least [1 - 1e-6 / |v|^2] and
    close to 1 only when [|v|^2] is large against the guard: it is 0.5
    at magnitude 0.001.  In binary64 it can fall below -1 by rounding and
    is no number when the squares overflow. *)
Theorem similarity_value :
  (forall a b c x y z : float,
      changes_dir [a; b; c] [x; y; z]
      = Some (let q := ((0 + a * x + b * y + c * z)
                        / (PrimFloat.sqrt (0 + a * a + b * b + c * c)
                           * PrimFloat.sqrt (0 + x * x + y * y + z * z)
                           + 1e-6))%float in
              if PrimFloat.ltb 1 q then 1%float else q)) /\
  (forall (u v : list float) (r : float),
      changes_dir u v = Some r -> PrimFloat.ltb 1 r = false) /\
  (forall v w : R * R * R,
      changes_dir (vec3 v) (vec3 w)
      = Some (dot3 v w / (magnitude3 v * magnitude3 w + 1 / 1000000)) /\
      -1 < dot3 v w / (magnitude3 v * magnitude3 w + 1 / 1000000) < 1) /\
  (forall v : R * R * R,
      changes_dir (vec3 v) (vec3 v)
      = Some (dot3 v v / (dot3 v v + 1 / 1000000)) /\
      (v <> (0, 0, 0) ->
       1 - (1 / 1000000) / dot3 v v
       <= dot3 v v / (dot3 v v + 1 / 1000000) < 1)) /\
  changes_dir (F := float) [0.001; 0; 0]%float [0.001; 0; 0]%float
  = Some 0.5%float /\
  changes_dir (F := float) [1e6; 1e6; 0]%float [-1e6; -1e6; 0]%float
  = Some (-1.0000000000000002)%float /\
  changes_dir (F := float) [1e200; 0; 0]%float [1e200; 0; 0]%float
  = Some nan.
Proof.
  split; [intros; reflexivity|].
  split; [exact changes_dir_clamped|].
  split.
  { intros v w. split; [apply changes_dir_exact|apply quotient_strict]. }
  split; [|vm_compute; repeat split; reflexivity].
  intros v. split.
  - rewrite changes_dir_exact. unfold magnitude3.
    rewrite sqrt_sqrt by apply dot3_self_nonneg. reflexivity.
  - intros Hv. pose proof (dot3_self_pos v Hv) as Hpos.
    set (n := dot3 v v) in *.
    assert (Hd : 0 < n + 1 / 1000000) by lra.
    split.
    + apply le_div; [exact Hd|].
      assert (He : (1 - 1 / 1000000 / n) * (n + 1 / 1000000)
                   = n - (1 / 1000000) * (1 / 1000000) / n).
      { field. lra. }
      rewrite He.
      assert (0 <= 1 / 1000000 * (1 / 1000000) / n).
      { apply le_div; [exact Hpos|]. lra. }
      lra.
    + apply div_lt; [exact Hd|]. lra.
Qed.

(** C5, counterexample.  Two identical non-zero sub-vectors of magnitude
    0.001 have similarity 1/2, in exact arithmetic and in binary64 alike:
    not about 1.  In binary64 two opposite non-zero sub-vectors can fall
    below -1 (here by one unit in the last place; the same vector against
    itself gives exactly 1, through the clamp), and two sub-vectors whose
    squares overflow give no number at all. *)
Lemma tiny_identical_vectors_counterexample :
  (1 / 1000, 0, 0) <> (0, 0, 0) /\
  changes_dir (vec3 (1 / 1000, 0, 0)) (vec3 (1 / 1000, 0, 0))
  = Some (1 / 2) /\
  ~ Rabs (1 / 2 - 1) <= 1 / 10 /\
  changes_dir (F := float) [0.001; 0; 0]%float [0.001; 0; 0]%float
  = Some 0.5%float /\
  changes_dir (F := float) [1e6; 1e6; 0]%float [-1e6; -1e6; 0]%float
  = Some (-1.0000000000000002)%float /\
  PrimFloat.ltb (-1.0000000000000002) (-1) = true /\
  changes_dir (F := float) [1e6; 1e6; 0]%float [1e6; 1e6; 0]%float
  = Some 1%float /\
  changes_dir (F := float) [1e200; 0; 0]%float [1e200; 0; 0]%float
  = Some nan.
Proof.
  split; [intros [= He]; lra|].
  split.
  - rewrite changes_dir_exact. f_equal. unfold magnitude3.
    rewrite sqrt_sqrt by apply dot3_self_nonneg. cbn. field.
  - split; [|vm_compute; repeat split; reflexivity].
    replace (1 / 2 - 1) with (- (1 / 2)) by lra.
    rewrite Rabs_Ropp, Rabs_right by lra. lra.
Qed.

End SimilarityFacts.

(* ===================================================================== *)
(** * Facts on [eval_libero] *)
(* ===================================================================== *)

Module EvalFacts.
Import Similarity Eval.

Local Open Scope Z_scope.

Ltac run :=
  repeat (cbn [fst snd] in *;
          unfold bind, ret, raise, gets, modify, lift, read, call, emit,
                 try_except in *;
          cbn [world t obs done max_steps replay_images tracker counters
               files motion_trace trace set_world set_t set_obs set_done
               set_max_steps set_replay_images set_tracker set_counters
               set_files set_motion_trace set_trace
               task_episodes task_successes total_episodes total_successes
               total_steps count_success count_episode add_steps reset_task
               fst snd] in *).

(** Case analysis on the innermost call whose result is inspected. *)
Ltac split_paths :=
  repeat (run; match goal with
               | |- context [match ?x with _ => _ end] =>
                   lazymatch x with
                   | context [match _ with _ => _ end] => fail
                   | _ => let Hq := fresh "Hq" in destruct x eqn:Hq
                   end
               end); run.

Ltac frame := cbn; try reflexivity; repeat split; auto.

Ltac action_done :=
  cbn; split; [lia|];
  eexists; split; [eassumption|];
  match goal with
  | Hq : String.eqb _ _ = _ |- _ => rewrite Hq
  end; auto.

Ltac finish :=
  first [ solve [frame] | solve [action_done]
        | solve [intros; congruence] | solve [cbn; lia] ].

Ltac conjs :=
  repeat match goal with
         | |- _ /\ _ => split
         | |- tallies_ok _ -> _ => intros (Hta & Hto & Hfi)
         end.

(** ** The JSON log *)

Lemma leaf_at_update f (data : JsonLog) l k1 k2 :
  leaf_at data scale_key ber_key = Some l ->
  leaf_at (update_leaf f data) k1 k2 =
  if decide (k1 = scale_key /\ k2 = ber_key) then Some (f l)
  else leaf_at data k1 k2.
Proof.
  unfold leaf_at, update_leaf. intros Hl.
  destruct (data !! scale_key) as [inner|] eqn:Hin; [|discriminate].
  cbn. rewrite Hl.
  destruct (decide (k1 = scale_key)) as [->|Hk1].
  - rewrite lookup_insert_eq.
    destruct (decide (k2 = ber_key)) as [->|Hk2].
    + rewrite lookup_insert_eq. rewrite decide_True; auto.
    + rewrite lookup_insert_ne by congruence.
      rewrite decide_False by tauto. rewrite Hin. reflexivity.
  - rewrite lookup_insert_ne by congruence.
    rewrite decide_False by tauto. reflexivity.
Qed.

Lemma leaf_at_ensure (data : JsonLog) k1 k2 :
  leaf_at (ensure_ber (ensure_scale data)) k1 k2 =
  if decide (k1 = scale_key /\ k2 = ber_key)
  then Some (default zero_leaf (leaf_at data scale_key ber_key))
  else leaf_at data k1 k2.
Proof.
  unfold leaf_at, ensure_ber, ensure_scale.
  destruct (data !! scale_key) as [inner|] eqn:Hin; cbn.
  - rewrite Hin. cbn.
    destruct (inner !! ber_key) as [l|] eqn:Hl; cbn.
    + destruct (decide _) as [[-> ->]|Hne]; [rewrite Hin; auto|reflexivity].
    + destruct (decide (k1 = scale_key)) as [->|Hk1].
      * rewrite lookup_insert_eq.
        destruct (decide (k2 = ber_key)) as [->|Hk2].
        -- rewrite lookup_insert_eq, decide_True; auto.
        -- rewrite lookup_insert_ne by congruence.
           rewrite decide_False by tauto. rewrite Hin. reflexivity.
      * rewrite lookup_insert_ne by congruence.
        rewrite decide_False by tauto. reflexivity.
  - rewrite lookup_insert_eq. cbn. rewrite lookup_empty.
    destruct (decide (k1 = scale_key)) as [->|Hk1].
    + rewrite lookup_insert_eq.
      destruct (decide (k2 = ber_key)) as [->|Hk2].
      * rewrite lookup_insert_eq, decide_True; auto.
      * rewrite lookup_insert_ne by congruence.
        rewrite decide_False by tauto.
        rewrite lookup_empty, Hin. reflexivity.
    + rewrite !lookup_insert_ne by congruence.
      rewrite decide_False by tauto. reflexivity.
Qed.

Lemma leaf_at_json_after d (data : JsonLog) k1 k2 :
  leaf_at (json_after d data) k1 k2 =
  if decide (k1 = scale_key /\ k2 = ber_key)
  then Some (bumped d (default zero_leaf (leaf_at data scale_key ber_key)))
  else leaf_at data k1 k2.
Proof.
  unfold json_after.
  set (l0 := default zero_leaf (leaf_at data scale_key ber_key)).
  assert (H0 : leaf_at (ensure_ber (ensure_scale data)) scale_key ber_key
               = Some l0).
  { rewrite leaf_at_ensure, decide_True; auto. }
  assert (H1 : leaf_at (update_leaf incr_total (ensure_ber (ensure_scale data)))
                       scale_key ber_key = Some (incr_total l0)).
  { rewrite (leaf_at_update _ _ l0), decide_True; auto. }
  destruct d.
  - rewrite (leaf_at_update _ _ (incr_total l0)) by exact H1.
    destruct (decide _) as [Hk|Hk].
    + reflexivity.
    + rewrite (leaf_at_update _ _ l0) by exact H0.
      rewrite decide_False by exact Hk.
      rewrite leaf_at_ensure, decide_False by exact Hk. reflexivity.
  - rewrite (leaf_at_update _ _ l0) by exact H0.
    destruct (decide _) as [Hk|Hk].
    + unfold bumped, incr_total. cbn. f_equal. f_equal. lia.
    + rewrite leaf_at_ensure, decide_False by exact Hk. reflexivity.
Qed.

Lemma leaf_in_after (fs : gmap string JsonLog) p d q k1 k2 :
  leaf_in (<[p := json_after d (default ∅ (fs !! p))]> fs) q k1 k2 =
  if decide (q = p /\ k1 = scale_key /\ k2 = ber_key)
  then Some (bumped d (default zero_leaf (leaf_in fs p scale_key ber_key)))
  else leaf_in fs q k1 k2.
Proof.
  unfold leaf_in.
  destruct (decide (q = p)) as [->|Hq].
  - rewrite lookup_insert_eq, leaf_at_json_after.
    destruct (decide (k1 = scale_key /\ k2 = ber_key)) as [Hk|Hk].
    + rewrite decide_True by tauto.
      destruct (fs !! p); reflexivity.
    + rewrite decide_False by tauto.
      destruct (fs !! p); [reflexivity|].
      unfold leaf_at. cbn. rewrite lookup_empty. reflexivity.
  - rewrite lookup_insert_ne by congruence.
    rewrite decide_False by tauto. reflexivity.
Qed.

Lemma files_ok_empty : files_ok ∅.
Proof.
  intros p k1 k2 l. unfold leaf_in. rewrite lookup_empty. discriminate.
Qed.

Lemma files_ok_after (fs : gmap string JsonLog) p d :
  files_ok fs ->
  files_ok (<[p := json_after d (default ∅ (fs !! p))]> fs).
Proof.
  intros Hok q k1 k2 l. rewrite leaf_in_after.
  destruct (decide _) as [_|_]; [|apply Hok].
  intros [= <-].
  destruct (leaf_in fs p scale_key ber_key) as [l0|] eqn:Hl0; cbn.
  - specialize (Hok _ _ _ _ Hl0). unfold tally_ok in *.
    destruct d; lia.
  - unfold tally_ok. destruct d; lia.
Qed.

Lemma files_mono_refl (fs : gmap string JsonLog) : files_mono fs fs.
Proof. intros p k1 k2 l Hl. exists l. split; [assumption|lia]. Qed.

Lemma files_mono_trans (f1 f2 f3 : gmap string JsonLog) :
  files_mono f1 f2 -> files_mono f2 f3 -> files_mono f1 f3.
Proof.
  intros H12 H23 p k1 k2 l Hl.
  destruct (H12 _ _ _ _ Hl) as (l2 & Hl2 & ? & ?).
  destruct (H23 _ _ _ _ Hl2) as (l3 & Hl3 & ? & ?).
  exists l3. split; [assumption|lia].
Qed.

Lemma files_mono_after (fs : gmap string JsonLog) p d :
  files_mono fs (<[p := json_after d (default ∅ (fs !! p))]> fs).
Proof.
  intros q k1 k2 l Hl. rewrite leaf_in_after.
  destruct (decide _) as [(-> & -> & ->)|_].
  - rewrite Hl. eexists; split; [reflexivity|]. cbn. destruct d; lia.
  - exists l. split; [assumption|lia].
Qed.

Section Facts.
Context {F : Type} `{FloatOps F}.
Context {World Task InitState Obs Img Proprio : Type}.
Context (E : Externals F World Task InitState Obs Img Proprio).

Local Abbreviation Locals := (@Locals F World InitState Obs Img).
Local Abbreviation Event := (@Event F InitState).

(** ** One turn of the step loop *)

Lemma iteration_post cfg descr (s : Locals) :
  exists c s', iteration E cfg descr s = (Val c, s') /\
               iter_post E cfg s c s'.
Proof.
  unfold iteration, step_body, do_env_step, replan. run.
  destruct (Z.ltb_spec (t s) (num_steps_wait cfg)) as [Hlt|Hge].
  - split_paths; (eexists _, _; split; [reflexivity|]).
    + eapply post_caught_step; finish.
    + eapply post_next; finish.
  - split_paths; (eexists _, _; split; [reflexivity|]).
    all: first [ solve [eapply post_caught; finish]
               | solve [eapply post_caught_step; finish]
               | solve [eapply post_success; finish]
               | solve [eapply post_next; finish] ].
Qed.

Lemma count_env_steps_app (xs ys : list Event) :
  count_env_steps (xs ++ ys) = (count_env_steps xs + count_env_steps ys)%nat.
Proof.
  unfold count_env_steps. rewrite List.filter_app, List.length_app. reflexivity.
Qed.

Lemma last_completed_app (xs ys : list Event) :
  last_completed (xs ++ ys) =
  match last_completed xs with
  | Some d => Some d
  | None => last_completed ys
  end.
Proof.
  induction xs as [|x xs IH]; [reflexivity|].
  destruct x; cbn; auto. destruct result; auto.
Qed.

Lemma same_frame_refl (s : Locals) : same_frame s s.
Proof. unfold same_frame; tauto. Qed.

Lemma same_frame_trans (s1 s2 s3 : Locals) :
  same_frame s1 s2 -> same_frame s2 s3 -> same_frame s1 s3.
Proof. unfold same_frame; intuition congruence. Qed.

(** ** The step loop: with the turns it is given it always comes back *)

Lemma step_loop_spec cfg descr fuel : forall (s : Locals) m,
  max_steps s = Some m ->
  (Z.to_nat (m + num_steps_wait cfg - t s) <= fuel)%nat ->
  exists s' evs,
    step_loop E fuel cfg descr s = (Val tt, s') /\
    loop_post E cfg m s s' evs.
Proof.
  induction fuel as [|fuel IH]; intros s m Hm Hfuel.
  - exists s, []. cbn. run. rewrite Hm.
    destruct (Z.ltb_spec (t s) (m + num_steps_wait cfg)); [lia|].
    split; [reflexivity|].
    split; cbn; auto using same_frame_refl; try lia.
    apply exit_ceiling; [split; reflexivity|lia].
  - cbn. run. rewrite Hm.
    destruct (Z.ltb_spec (t s) (m + num_steps_wait cfg)) as [Hlt|Hge].
    2:{ exists s, []. split; [reflexivity|].
        split; cbn; auto using same_frame_refl; try lia.
        apply exit_ceiling; [split; reflexivity|lia]. }
    destruct (iteration_post cfg descr s) as (c & s1 & Hit & Hpost).
    rewrite Hit.
    inversion Hpost; subst.
    + (* one more turn *)
      destruct (IH s1 m) as (s2 & evs & Hloop & Hp).
      { destruct H0 as (-> & _); assumption. }
      { lia. }
      exists s2, (evs ++ [EvStep (t s) src a (inr d)]).
      split; [exact Hloop|].
      destruct Hp. split.
      * eauto using same_frame_trans.
      * rewrite lp_trace0, H2, <- app_assoc. reflexivity.
      * rewrite count_env_steps_app. cbn. lia.
      * apply Forall_app; split; auto.
      * apply Forall_app; split; auto. repeat constructor.
      * rewrite lp_done0, last_completed_app. cbn.
        destruct (last_completed evs); congruence.
      * lia.
      * destruct H1 as [Hs1 Hs2].
        destruct lp_exit0
          as [tn raw a' evs' [Ha Hb] Hd ->|[Ha Hb] Ht|e evs' [Ha Hb] ->].
        -- eapply exit_done; [split; congruence|assumption|reflexivity].
        -- apply exit_ceiling; [split; congruence|lia].
        -- eapply exit_caught; [split; congruence|reflexivity].
    + exists s1, [EvStep (t s) (Some raw) a (inr true)].
      split; [reflexivity|].
      split; cbn; auto; try lia.
      all: try solve [repeat constructor; auto].
      all: try solve [eapply exit_done; eauto].
      all: try solve [rewrite H5; lia].
    + exists s1, [EvCaught e].
      split; [reflexivity|].
      split; cbn; auto; try lia.
      all: try solve [repeat constructor; auto].
      all: try solve [eapply exit_caught; eauto].
      all: try solve [rewrite H4; lia].
    + exists s1, [EvCaught e; EvStep (t s) src a (inl e)].
      split; [reflexivity|].
      split; cbn; auto; try lia.
      all: try solve [repeat constructor; auto].
      all: try solve [eapply exit_caught; eauto].
      all: try solve [rewrite H5; lia].
Qed.

Lemma while_steps_spec cfg descr (s : Locals) m :
  max_steps s = Some m ->
  exists s' evs,
    while_steps E cfg descr s = (Val tt, s') /\ loop_post E cfg m s s' evs.
Proof.
  intros Hm. unfold while_steps, loop_bound. rewrite Hm.
  apply step_loop_spec; [assumption|lia].
Qed.

Lemma while_steps_unbound cfg descr (s : Locals) :
  max_steps s = None ->
  while_steps E cfg descr s = (Exc (UnboundLocalError "max_steps"), s).
Proof.
  intros Hm. unfold while_steps, loop_bound. rewrite Hm. cbn. run.
  rewrite Hm. reflexivity.
Qed.

(** ** One episode *)

Lemma episode_begin_spec cfg inits idx (s : Locals) :
  match nth_error inits idx with
  | None =>
      exists s', episode_begin E cfg inits idx s = (Exc IndexError, s') /\
                 counters s' = counters s /\ files s' = files s /\
                 done s' = done s /\ max_steps s' = max_steps s /\
                 trace s' = EvReset :: trace s
  | Some s0 =>
      exists s1, episode_begin E cfg inits idx s = (Val tt, s1) /\
                 max_steps s1 = episode_max_steps cfg s /\
                 t s1 = 0 /\ done s1 = done s /\ counters s1 = counters s /\
                 files s1 = files s /\
                 action_previous (tracker s1) = None /\
                 trace s1 = EvSetInitState s0 :: EvReset :: trace s
  end.
Proof.
  unfold episode_begin, episode_setup, assign_max_steps, episode_max_steps.
  run.
  destruct (nth_error inits idx) as [s0|] eqn:Hnth; run.
  - destruct (env_set_init_state E s0 (env_reset E (world s))) as [w1 o].
    destruct (max_steps_table (task_suite_name cfg)); run;
      (eexists; split; [reflexivity|]; cbn; repeat apply conj; reflexivity).
  - eexists; split; [reflexivity|]; cbn; repeat apply conj; reflexivity.
Qed.

Lemma episode_end_spec descr (s : Locals) :
  match done s with
  | None =>
      exists s', episode_end E descr s = (Exc (UnboundLocalError "done"), s') /\
                 counters s' = count_episode (counters s) /\
                 files s' = files s /\ done s' = None /\
                 max_steps s' = max_steps s /\ trace s' = trace s
  | Some d =>
      exists s', episode_end E descr s = (Val tt, s') /\
                 counters s' = add_steps (t s) (count_episode (counters s)) /\
                 files s' =
                   <[log_path descr :=
                       json_after d (default ∅ (files s !! log_path descr))]>
                     (files s) /\
                 done s' = Some d /\ max_steps s' = max_steps s /\
                 trace s' =
                   EvSuccessLogged d
                     :: EvVideo (total_episodes (counters s) + 1) d descr
                     :: EvJsonWritten (log_path descr) :: trace s
  end.
Proof.
  unfold episode_end, record_json. run.
  destruct (done s) as [d|] eqn:Hd; run.
  - rewrite Hd. run.
    eexists; split; [reflexivity|]; cbn; repeat apply conj;
      try reflexivity; try assumption.
  - eexists; split; [reflexivity|]; cbn; repeat apply conj; auto.
Qed.

Lemma run_episode_spec cfg descr inits idx (s : Locals) :
  exists r s',
    run_episode E cfg descr inits idx s = (r, s') /\
    episode_post E cfg descr inits idx s r s'.
Proof.
  unfold run_episode. unfold bind at 1 2.
  pose proof (episode_begin_spec cfg inits idx s) as Hb.
  destruct (nth_error inits idx) as [s0|] eqn:Hnth.
  2:{ destruct Hb as (s' & -> & Hc & Hf & Hd & Hm & Ht).
      eexists _, _; split; [reflexivity|]. eapply ep_index; auto. }
  destruct Hb as (s1 & -> & Hm1 & Ht1 & Hd1 & Hc1 & Hf1 & _ & Htr1).
  destruct (episode_max_steps cfg s) as [m|] eqn:Hmax.
  - (* the ceiling is bound *)
    destruct (while_steps_spec cfg descr s1 m Hm1) as (s2 & evs & Hw & Hp).
    rewrite Hw. destruct Hp.
    destruct lp_frame0 as (Hfm & Hftr & Hff & Hfmt & Hfe & Hfte & Hfts).
    assert (Hlt : loop_trace E cfg m evs).
    { split; auto. rewrite Ht1 in lp_count0.
      replace (m + num_steps_wait cfg - 0) with (m + num_steps_wait cfg)
        in lp_count0 by lia. exact lp_count0. }
    pose proof (episode_end_spec descr s2) as He.
    destruct (done s2) as [d|] eqn:Hd2.
    + destruct He as (s3 & -> & Hc3 & Hf3 & Hd3 & Hm3 & Htr3).
      eexists _, _; split; [reflexivity|].
      assert (Hcnt : forall won,
                 task_successes (counters s2)
                 = task_successes (counters s1) + Z.b2z won ->
                 total_successes (counters s2)
                 = total_successes (counters s1) + Z.b2z won ->
                 counted won s s3).
      { intros won Ha Hb. unfold counted. rewrite Hc3, <- Hc1. cbn.
        repeat split; congruence. }
      assert (Hfiles : files s3 =
                <[log_path descr :=
                    json_after d (default ∅ (files s !! log_path descr))]>
                  (files s)).
      { rewrite Hf3, Hff, Hf1. reflexivity. }
      assert (Htrace : trace s3 =
                EvSuccessLogged d
                  :: EvVideo (total_episodes (counters s) + 1) d descr
                  :: EvJsonWritten (log_path descr)
                  :: evs ++ EvSetInitState s0 :: EvReset :: trace s).
      { rewrite Htr3, lp_trace0, Htr1, Hfte, Hc1. reflexivity. }
      destruct lp_exit0
        as [tn raw a' evs' [Ha Hb] Hd ->|[Ha Hb] Ht|e evs' [Ha Hb] ->].
      * eapply ep_finished with (s0 := s0) (m := m) (d := d) (won := true);
          eauto; cbn.
        all: try solve [congruence].
        all: try solve [apply Hcnt; cbn; lia].
        all: try solve [eauto].
        all: try solve [intros (e & evs'' & Heq); discriminate].
      * eapply ep_finished with (s0 := s0) (m := m) (d := d) (won := false);
          eauto; cbn.
        all: try solve [congruence].
        all: try solve [apply Hcnt; cbn; lia].
        all: try solve [rewrite <- Hd1, <- lp_done0; reflexivity].
        all: try exact I.
      * eapply ep_finished with (s0 := s0) (m := m) (d := d) (won := false);
          eauto; cbn.
        all: try solve [congruence].
        all: try solve [apply Hcnt; cbn; lia].
        all: try solve [rewrite <- Hd1, <- lp_done0; reflexivity].
        all: try exact I.
        cbn in lp_done0. rewrite <- Hd1, <- lp_done0. reflexivity.
    + destruct He as (s3 & -> & Hc3 & Hf3 & Hd3 & Hm3 & Htr3).
      eexists _, _; split; [reflexivity|].
      assert (Hlc : last_completed evs = None).
      { destruct (last_completed evs); [discriminate|reflexivity]. }
      rewrite Hlc in lp_done0.
      eapply ep_unbound_done with (s0 := s0) (m := m) (evs := evs);
        eauto; cbn.
      * congruence.
      * destruct lp_exit0
          as [tn raw a' evs' [Ha Hb] Hd ->|[Ha Hb] Ht|e evs' [Ha Hb] ->].
        -- cbn in Hlc. discriminate.
        -- unfold counted. rewrite Hc3, <- Hc1. cbn.
           repeat split; try congruence; lia.
        -- unfold counted. rewrite Hc3, <- Hc1. cbn.
           repeat split; try congruence; lia.
      * congruence.
      * congruence.
      * rewrite Htr3, lp_trace0, Htr1. reflexivity.
  - rewrite while_steps_unbound by exact Hm1.
    eexists _, _; split; [reflexivity|].
    eapply ep_unbound_max; eauto.
Qed.

(** ** Tallies from one episode boundary to the next *)

Lemma run_mono_refl (s : Locals) : run_mono s s.
Proof. unfold run_mono. repeat split; try lia. apply files_mono_refl. Qed.

Lemma run_mono_trans (s1 s2 s3 : Locals) :
  run_mono s1 s2 -> run_mono s2 s3 -> run_mono s1 s3.
Proof.
  unfold run_mono. intros (? & ? & ?) (? & ? & ?).
  repeat split; try lia. eapply files_mono_trans; eassumption.
Qed.

(** An episode keeps the tallies sound and lets no counter decrease,
    however it ends. *)
Lemma run_episode_tallies cfg descr inits idx (s : Locals) :
  let s' := snd (run_episode E cfg descr inits idx s) in
  (tallies_ok s -> tallies_ok s') /\ run_mono s s' /\ task_mono s s'.
Proof.
  destruct (run_episode_spec cfg descr inits idx s) as (r & s' & Hrun & Hp).
  rewrite Hrun. cbn.
  unfold tallies_ok at 2, run_mono, task_mono, tally_ok.
  inversion Hp; subst.
  - rewrite H1, H2. conjs; unfold tally_ok in *; auto using files_mono_refl; lia.
  - rewrite H2, H3. conjs; unfold tally_ok in *; auto using files_mono_refl; lia.
  - destruct H6 as (-> & -> & -> & ->). rewrite H7. cbn.
    conjs; unfold tally_ok in *; auto using files_mono_refl; lia.
  - destruct H5 as (-> & -> & -> & ->). rewrite H8.
    conjs; unfold tally_ok in *;
      auto using files_mono_after, files_ok_after;
      destruct won; cbn; lia.
Qed.

Lemma task_begin_tallies cfg suite id (s : Locals) :
  let s' := snd (task_begin E cfg suite id s) in
  (tallies_ok s -> tallies_ok s') /\ run_mono s s'.
Proof.
  unfold task_begin. run.
  destruct (get_libero_env E _ _ (world s)) as [w d]. run. cbn.
  unfold tallies_ok at 2, run_mono, tally_ok. cbn.
  conjs; unfold tally_ok in *; auto using files_mono_refl; lia.
Qed.

Lemma for_each_rtc {A : Type} (R : relation Locals) (xs : list A)
  (body : A -> M unit) :
  (forall x s, rtc R s (snd (body x s))) ->
  forall s, rtc R s (snd (for_each xs body s)).
Proof.
  intros Hbody. induction xs as [|x xs IH]; intros s; cbn.
  - apply rtc_refl.
  - unfold bind. specialize (Hbody x s).
    destruct (body x s) as [[[]| |] s1]; cbn in *; auto.
    eapply rtc_trans; [exact Hbody|apply IH].
Qed.

Lemma run_task_rtc cfg suite id (s : Locals) :
  rtc (boundary_step E cfg) s (snd (run_task E cfg suite id s)).
Proof.
  unfold run_task. unfold bind at 1.
  pose proof (step_task E cfg suite id s) as Hb.
  destruct (task_begin E cfg suite id s) as [[[descr inits]| |] s1] eqn:Hbeg;
    cbn in *; try (apply rtc_once; exact Hb).
  eapply rtc_l; [exact Hb|].
  unfold bind.
  pose proof (for_each_rtc (boundary_step E cfg)
                (seq 0 (Z.to_nat (num_trials_per_task cfg)))
                (run_episode E cfg descr inits)
                (fun x s => rtc_once _ _ (step_episode E cfg descr inits x s))
                s1)
    as Hloop.
  destruct (for_each _ _ s1) as [[[]| |] s2]; cbn in *; auto.
  unfold task_end. run.
  destruct (task_episodes (counters s2) =? 0); exact Hloop.
Qed.

(** A run, however it ends, stops between two episodes. *)
Lemma eval_libero_rtc cfg (s : Locals) :
  rtc (boundary_step E cfg) s (snd (eval_libero E cfg s)).
Proof.
  unfold eval_libero. unfold bind at 1.
  destruct (benchmark_dict E (task_suite_name cfg)) as [suite|]; cbn;
    [|apply rtc_refl].
  unfold bind.
  pose proof (for_each_rtc (boundary_step E cfg) (range (n_tasks suite))
                (run_task E cfg suite) (run_task_rtc cfg suite) s) as Hloop.
  destruct (for_each _ _ s) as [[[]| |] s2]; cbn in *; auto.
  run. destruct (use_wandb cfg && _); exact Hloop.
Qed.

Lemma boundary_tallies cfg (s s' : Locals) :
  rtc (boundary_step E cfg) s s' ->
  (tallies_ok s -> tallies_ok s') /\ run_mono s s'.
Proof.
  induction 1 as [s|s1 s2 s3 Hstep _ [IH1 IH2]].
  - split; [tauto|apply run_mono_refl].
  - assert (Hs : (tallies_ok s1 -> tallies_ok s2) /\ run_mono s1 s2).
    { destruct Hstep.
      - apply task_begin_tallies.
      - destruct (run_episode_tallies cfg descr inits idx s) as (? & ? & ?).
        split; assumption. }
    destruct Hs. split; [tauto|]. eapply run_mono_trans; eassumption.
Qed.

(** Every event of a run is in order: the task fetched is task 0, the
    action stepped is the dummy action or the post-processed action of the
    policy. *)
Lemma boundary_events cfg (s s' : Locals) :
  rtc (boundary_step E cfg) s s' ->
  exists evs, trace s' = evs ++ trace s /\ Forall (ev_ok E cfg) evs.
Proof.
  induction 1 as [s|s1 s2 s3 Hstep _ (evs2 & Htr2 & Hok2)].
  - exists []. split; [reflexivity|constructor].
  - assert (Hs : exists evs, trace s2 = evs ++ trace s1 /\
                             Forall (ev_ok E cfg) evs).
    { destruct Hstep.
      - unfold task_begin. run.
        destruct (get_libero_env E _ _ (world s)) as [w d]. run. cbn.
        exists [EvMakeEnv d; EvInitStates 0; EvGetTask 0].
        split; [reflexivity|]. repeat constructor.
      - destruct (run_episode_spec cfg descr inits idx s)
          as (r & s' & Hrun & Hp).
        rewrite Hrun. cbn. inversion Hp; subst.
        + exists [EvReset]. split; [assumption|repeat constructor].
        + exists [EvSetInitState s0; EvReset].
          split; [assumption|repeat constructor].
        + exists (evs ++ [EvSetInitState s0; EvReset]).
          rewrite <- app_assoc. split; [assumption|].
          apply Forall_app; split; [apply H2|repeat constructor].
        + exists (EvSuccessLogged d
                    :: EvVideo (total_episodes (counters s) + 1) d descr
                    :: EvJsonWritten (log_path descr)
                    :: evs ++ [EvSetInitState s0; EvReset]).
          cbn. rewrite <- app_assoc. split; [assumption|].
          repeat (constructor; [exact I|]).
          apply Forall_app; split; [apply H2|repeat constructor]. }
    destruct Hs as (evs1 & Htr1 & Hok1).
    exists (evs2 ++ evs1). rewrite Htr2, Htr1, app_assoc.
    split; [reflexivity|]. apply Forall_app; split; assumption.
Qed.

(** ** The claims on the run *)

(** The task fetched is always task 0, whatever the turn of the task
    loop. *)
Lemma fetched_task_is_zero cfg w disk task_id :
  In (EvGetTask task_id)
     (trace (snd (eval_libero E cfg (initial_locals w disk)))) ->
  task_id = 0.
Proof.
  intros Hin.
  destruct (boundary_events cfg _ _
              (eval_libero_rtc cfg (initial_locals w disk)))
    as (evs & Htr & Hok).
  rewrite Htr in Hin. cbn in Hin. rewrite app_nil_r in Hin.
  rewrite List.Forall_forall in Hok. apply (Hok _ Hin).
Qed.

(** In every run, an [env.step] event of an acting step carries the
    policy's action and what the two helpers made of it. *)
Lemma acting_events_are_postprocessed cfg w disk tnow raw a r :
  In (EvStep tnow (Some raw) a r)
     (trace (snd (eval_libero E cfg (initial_locals w disk)))) ->
  num_steps_wait cfg <= tnow /\
  exists n, normalize_gripper_action E raw true = inr n /\
            if String.eqb (model_family cfg) "openvla"
            then invert_gripper_action E n = inr a
            else a = n.
Proof.
  intros Hin.
  destruct (boundary_events cfg _ _
              (eval_libero_rtc cfg (initial_locals w disk)))
    as (evs & Htr & Hok).
  rewrite Htr in Hin. cbn in Hin. rewrite app_nil_r in Hin.
  rewrite List.Forall_forall in Hok. exact (Hok _ Hin).
Qed.

(** C4. An acting turn of the step loop, in which the image and the
    proprioceptive state are built and [get_action], called once in the
    world [world s], returns the action [raw] and leaves the world [w1].
    The action goes through [normalize_gripper_action] with
    [binarize=True] and then, for the family "openvla" only, through
    [invert_gripper_action].  When both accept it, [env.step] is called
    once, in [w1], with the list they produced: the world after the turn
    is the one that call leaves, and [obs] and [done] are what it
    returned.  When one of them refuses the action, nothing is executed:
    the world stays [w1].  The replanning branch is switched off: the
    tracker and the motion trace are not touched.  The event logged for
    the turn names that very call, and in a whole run every event of an
    acting step is of this kind. *)
Theorem executed_action_is_postprocessed cfg descr (s : Locals)
  o img img' st w1 raw :
  num_steps_wait cfg <= t s ->
  obs s = Some o ->
  get_libero_image E o = inr img ->
  draw_step_text E img (t s) = inr img' ->
  proprio_state E o = inr st ->
  get_action E img' st descr (t s) (world s) = (w1, inr raw) ->
  (exists c s',
      iteration E cfg descr s = (Val c, s') /\
      tracker s' = tracker s /\ motion_trace s' = motion_trace s /\
      match
        match normalize_gripper_action E raw true with
        | inr n => if String.eqb (model_family cfg) "openvla"
                   then invert_gripper_action E n
                   else inr n
        | inl e => inl e
        end
      with
      | inl e =>
          c = Break /\ world s' = w1 /\ obs s' = obs s /\ done s' = done s /\
          trace s' = EvCaught e :: trace s
      | inr a =>
          world s' = fst (env_step E a w1) /\
          match snd (env_step E a w1) with
          | inr (o', d) =>
              c = (if d then Break else Next) /\
              obs s' = Some o' /\ done s' = Some d /\
              trace s' = EvStep (t s) (Some raw) a (inr d) :: trace s
          | inl e =>
              c = Break /\ obs s' = obs s /\ done s' = done s /\
              trace s' = EvCaught e
                           :: EvStep (t s) (Some raw) a (inl e) :: trace s
          end
      end) /\
  (forall w disk tnow raw' a r,
      In (EvStep tnow (Some raw') a r)
         (trace (snd (eval_libero E cfg (initial_locals w disk)))) ->
      num_steps_wait cfg <= tnow /\
      exists n, normalize_gripper_action E raw' true = inr n /\
                if String.eqb (model_family cfg) "openvla"
                then invert_gripper_action E n = inr a
                else a = n).
Proof.
  intros Hwait Hobs Himg Hdraw Hprop Hact.
  split; [|intros; eapply acting_events_are_postprocessed; eassumption].
  unfold iteration, step_body, do_env_step, replan. run.
  destruct (Z.ltb_spec (t s) (num_steps_wait cfg)) as [Hlt|_]; [lia|].
  rewrite Hobs. run. rewrite Himg. run. rewrite Hdraw. run.
  rewrite Hprop. run. rewrite Hact. run.
  destruct (normalize_gripper_action E raw true) as [e|n]; run.
  { eexists _, _. split; [reflexivity|]. cbn. repeat apply conj; first [reflexivity|assumption]. }
  destruct (String.eqb (model_family cfg) "openvla").
  - destruct (invert_gripper_action E n) as [e|a]; run.
    { eexists _, _. split; [reflexivity|]. cbn. repeat apply conj; first [reflexivity|assumption]. }
    destruct (env_step E a w1) as [w2 [e|[o' d]]]; run.
    + eexists _, _. split; [reflexivity|]. cbn.
      repeat apply conj; first [reflexivity|assumption].
    + destruct d; run;
        (eexists _, _; split; [reflexivity|]; cbn;
         repeat apply conj; first [reflexivity|assumption]).
  - run. destruct (env_step E n w1) as [w2 [e|[o' d]]]; run.
    + eexists _, _. split; [reflexivity|]. cbn.
      repeat apply conj; first [reflexivity|assumption].
    + destruct d; run;
        (eexists _, _; split; [reflexivity|]; cbn;
         repeat apply conj; first [reflexivity|assumption]).
Qed.

(** An exception raised while stepping never leaves its episode as such:
    once the environment is set up and the ceiling is bound, an episode
    returns and is counted, or stops on the unbound name [done]. *)
Lemma step_exception_is_not_propagated cfg descr inits idx (s : Locals)
  s0 m :
  nth_error inits idx = Some s0 ->
  episode_max_steps cfg s = Some m ->
  exists r s' won,
    run_episode E cfg descr inits idx s = (r, s') /\
    counted won s s' /\
    (r = Val tt \/
     (r = Exc (UnboundLocalError "done") /\ done s = None /\ won = false)).
Proof.
  intros Hnth Hmax.
  destruct (run_episode_spec cfg descr inits idx s) as (r & s' & Hrun & Hp).
  inversion Hp; subst; try congruence.
  - exists (Exc (UnboundLocalError "done")), s', false. auto 6.
  - exists (Val tt), s', won. auto.
Qed.

Lemma bind_val {A B : Type} (m : M A) (f : A -> M B) (s s1 : Locals) a :
  m s = (Val a, s1) -> bind m f s = f a s1.
Proof. unfold bind. intros ->. reflexivity. Qed.

Lemma bind_exc {A B : Type} (m : M A) (f : A -> M B) (s s1 : Locals) e :
  m s = (Exc e, s1) -> bind m f s = (Exc e, s1).
Proof. unfold bind. intros ->. reflexivity. Qed.

Lemma task_begin_spec cfg suite id (s : Locals) :
  exists descr s1,
    task_begin E cfg suite id s
    = (Val (descr, get_task_init_states suite 0), s1) /\
    trace s1 = EvMakeEnv descr :: EvInitStates 0 :: EvGetTask 0 :: trace s /\
    counters s1 = reset_task (counters s) /\ files s1 = files s /\
    max_steps s1 = max_steps s /\ done s1 = done s.
Proof.
  unfold task_begin. run.
  destruct (get_libero_env E _ _ (world s)) as [w d]. run.
  eexists _, _. split; [reflexivity|]. cbn. auto.
Qed.

(** From the lookup of the suite on: with a suite of the benchmark that
    the table of [max_steps] does not list, the first episode is begun
    and the run stops at the head of its step loop. *)
Lemma unmapped_suite_run cfg w disk suite s0 :
  benchmark_dict E (task_suite_name cfg) = Some suite ->
  max_steps_table (task_suite_name cfg) = None ->
  0 < n_tasks suite ->
  0 < num_trials_per_task cfg ->
  nth_error (get_task_init_states suite 0) 0 = Some s0 ->
  let r := eval_libero E cfg (initial_locals w disk) in
  fst r = Exc (UnboundLocalError "max_steps") /\
  (exists descr,
      trace (snd r) =
        [EvSetInitState s0; EvReset; EvMakeEnv descr;
         EvInitStates 0; EvGetTask 0]) /\
  count_env_steps (trace (snd r)) = 0%nat /\
  task_episodes (counters (snd r)) = 0 /\
  total_episodes (counters (snd r)) = 0 /\
  task_successes (counters (snd r)) = 0 /\
  total_successes (counters (snd r)) = 0 /\
  files (snd r) = disk.
Proof.
  intros Hsuite Htab Htasks Htrials Hinit. cbn zeta.
  set (s := initial_locals w disk : Locals).
  destruct (task_begin_spec cfg suite 0 s)
    as (descr & s1 & Hbeg & Htr1 & Hc1 & Hf1 & Hm1 & Hd1).
  destruct (run_episode_spec cfg descr (get_task_init_states suite 0)
              0%nat s1) as (r & s2 & Hrun & Hp).
  assert (Hr : r = Exc (UnboundLocalError "max_steps") /\
               trace s2 = EvSetInitState s0 :: EvReset :: trace s1 /\
               counters s2 = counters s1 /\ files s2 = files s1).
  { inversion Hp; subst; try congruence.
    - rewrite Hinit in H0. injection H0 as <-. auto.
    - unfold episode_max_steps in H1. rewrite Htab, Hm1 in H1. discriminate.
    - unfold episode_max_steps in H1. rewrite Htab, Hm1 in H1. discriminate. }
  destruct Hr as (-> & Htr2 & Hc2 & Hf2).
  assert (Hall : eval_libero E cfg s
                 = (Exc (UnboundLocalError "max_steps"), s2)).
  { unfold eval_libero. rewrite Hsuite.
    erewrite bind_val by reflexivity.
    apply bind_exc. unfold range.
    destruct (Z.to_nat (n_tasks suite)) as [|k] eqn:Hk; [lia|].
    cbn [seq map for_each]. apply bind_exc.
    unfold run_task. erewrite bind_val by exact Hbeg.
    apply bind_exc.
    destruct (Z.to_nat (num_trials_per_task cfg)) as [|j] eqn:Hj; [lia|].
    cbn [seq for_each fst snd]. apply bind_exc. exact Hrun. }
  rewrite Hall. cbn [fst snd].
  rewrite Htr2, Htr1, Hc2, Hc1, Hf2, Hf1.
  repeat apply conj; try reflexivity.
  exists descr. reflexivity.
Qed.

(** The assertions of lines 103-106 pass on options that meet them. *)
Lemma check_options_pass cfg checkpoint (s : Locals) :
  pretrained_checkpoint cfg = Some checkpoint ->
  (py_in "image_aug" checkpoint = true -> center_crop cfg = true) ->
  (load_in_8bit cfg = true -> load_in_4bit cfg = false) ->
  check_options cfg s = (Val tt, s).
Proof.
  intros Hc Hcrop Hq. unfold check_options. rewrite Hc.
  destruct (py_in "image_aug" checkpoint).
  - rewrite Hcrop by reflexivity. cbn.
    destruct (load_in_8bit cfg); [rewrite Hq by reflexivity|]; reflexivity.
  - cbn. destruct (load_in_8bit cfg); [rewrite Hq by reflexivity|];
      reflexivity.
Qed.

(** The assertion of line 123 passes when the name of the suite, or that
    name with "_no_noops", is a key of [norm_stats]. *)
Lemma resolve_unnorm_key_pass cfg (s : Locals) :
  (model_family cfg = "openvla" ->
   task_suite_name cfg ∈ model_norm_stats E \/
   no_noops (task_suite_name cfg) ∈ model_norm_stats E) ->
  exists key, resolve_unnorm_key E cfg s = (Val key, s).
Proof.
  intros Hkey. unfold resolve_unnorm_key.
  destruct (String.eqb_spec (model_family cfg) "openvla") as [Hf|_];
    [|eexists; reflexivity].
  destruct (decide (task_suite_name cfg ∈ model_norm_stats E)) as [Hin|Hout].
  - rewrite (bool_decide_eq_true_2 _ Hin). cbn.
    rewrite (bool_decide_eq_true_2 _ Hin). eexists; reflexivity.
  - rewrite (bool_decide_eq_false_2 _ Hout). cbn.
    destruct (Hkey Hf) as [Hin|Hin]; [contradiction|].
    rewrite (bool_decide_eq_true_2 _ Hin). cbn.
    rewrite (bool_decide_eq_true_2 _ Hin). eexists; reflexivity.
Qed.

(** What the start of the run does refuse, before anything is set up: a
    missing checkpoint, a key that [norm_stats] has in neither form, and
    a name that is not a suite of the benchmark. *)
Lemma run_start_rejections cfg (s : Locals) :
  (pretrained_checkpoint cfg = None ->
   exists msg, eval_libero_whole E cfg s = (Exc (AssertionError msg), s)) /\
  (check_options cfg s = (Val tt, s) ->
   model_family cfg = "openvla" ->
   task_suite_name cfg ∉ model_norm_stats E ->
   no_noops (task_suite_name cfg) ∉ model_norm_stats E ->
   exists msg, eval_libero_whole E cfg s = (Exc (AssertionError msg), s)) /\
  (check_options cfg s = (Val tt, s) ->
   (exists key, resolve_unnorm_key E cfg s = (Val key, s)) ->
   benchmark_dict E (task_suite_name cfg) = None ->
   eval_libero_whole E cfg s = (Exc (KeyError (task_suite_name cfg)), s)).
Proof.
  split; [|split].
  - intros Hc. eexists. unfold eval_libero_whole. apply bind_exc.
    unfold check_options. rewrite Hc. reflexivity.
  - intros Hopt Hf Hk Hn. eexists. unfold eval_libero_whole.
    erewrite bind_val by exact Hopt. apply bind_exc.
    unfold resolve_unnorm_key. rewrite Hf, String.eqb_refl.
    rewrite (bool_decide_eq_false_2 _ Hk), (bool_decide_eq_false_2 _ Hn).
    cbn. rewrite (bool_decide_eq_false_2 _ Hk). reflexivity.
  - intros Hopt (key & Hres) Hb. unfold eval_libero_whole.
    erewrite bind_val by exact Hopt. erewrite bind_val by exact Hres.
    unfold eval_libero. rewrite Hb. reflexivity.
Qed.

(** C3 (defect of the code). A suite name that passes every check made
    at the start of the run (the assertions on the options, the key of
    [norm_stats], the lookup in the benchmark) and that the table of
    [max_steps] does not list is not refused at the start: the first
    task is set up, the first episode resets the environment and sets its
    initial state, and only then the run stops, on [UnboundLocalError]
    for [max_steps] at the head of the step loop. *)
Theorem unmapped_suite_starts_an_episode cfg w disk checkpoint suite s0 :
  pretrained_checkpoint cfg = Some checkpoint ->
  (py_in "image_aug" checkpoint = true -> center_crop cfg = true) ->
  (load_in_8bit cfg = true -> load_in_4bit cfg = false) ->
  (model_family cfg = "openvla" ->
   task_suite_name cfg ∈ model_norm_stats E \/
   no_noops (task_suite_name cfg) ∈ model_norm_stats E) ->
  benchmark_dict E (task_suite_name cfg) = Some suite ->
  max_steps_table (task_suite_name cfg) = None ->
  0 < n_tasks suite ->
  0 < num_trials_per_task cfg ->
  nth_error (get_task_init_states suite 0) 0 = Some s0 ->
  fst (eval_libero_whole E cfg (initial_locals w disk))
  = Exc (UnboundLocalError "max_steps") /\
  exists descr,
    trace (snd (eval_libero_whole E cfg (initial_locals w disk)))
    = [EvSetInitState s0; EvReset; EvMakeEnv descr;
       EvInitStates 0; EvGetTask 0].
Proof.
  intros Hc Hcrop Hq Hkey Hsuite Htab Htasks Htrials Hinit.
  unfold eval_libero_whole.
  erewrite bind_val
    by (eapply check_options_pass; [exact Hc|exact Hcrop|exact Hq]).
  destruct (resolve_unnorm_key_pass cfg (initial_locals w disk) Hkey)
    as (key & Hres).
  erewrite bind_val by exact Hres.
  destruct (unmapped_suite_run cfg w disk suite s0
              Hsuite Htab Htasks Htrials Hinit) as (Hr & Htr & _).
  auto.
Qed.




(** Inside an episode the step loop adds at most one success and touches
    neither the episode counters nor the files. *)
Lemma while_steps_tallies cfg descr (s1 : Locals) :
  let s2 := snd (while_steps E cfg descr s1) in
  task_episodes (counters s2) = task_episodes (counters s1) /\
  total_episodes (counters s2) = total_episodes (counters s1) /\
  files s2 = files s1 /\
  exists won : bool,
    task_successes (counters s2) = task_successes (counters s1) + Z.b2z won /\
    total_successes (counters s2) = total_successes (counters s1) + Z.b2z won.
Proof.
  destruct (max_steps s1) as [m|] eqn:Hm.
  - destruct (while_steps_spec cfg descr s1 m Hm) as (s2 & evs & -> & Hp).
    cbn. destruct Hp.
    destruct lp_frame0 as (_ & _ & Hf & _ & He & Hte & _).
    repeat apply conj; try assumption.
    destruct lp_exit0 as [? ? ? ? [Ha Hb] _ _|[Ha Hb] _|? ? [Ha Hb] _].
    + exists true. cbn. split; assumption.
    + exists false. cbn. split; lia.
    + exists false. cbn. split; lia.
  - rewrite while_steps_unbound by assumption. cbn.
    repeat apply conj; try reflexivity. exists false. cbn. split; lia.
Qed.

(** C7 (amended). Between two episodes of a run (where the tallies are
    read, logged and written) every tally has
    [0 <= successes <= episodes]: the tally of the task, the totals of the
    run and every leaf of the JSON files, provided the files found on disk
    had it.  From there the next episode and the set-up of the next task
    keep this, no run-wide or JSON counter ever decreases, and an episode
    decreases no counter of its task (they restart from zero with each
    task).  Inside an episode, after the step loop and before the episode
    is counted, the successes exceed the episodes by at most one.  The
    run stops at such a point. *)
Theorem tallies_sound_between_episodes cfg w disk (s : Locals) :
  files_ok disk ->
  at_boundary E cfg w disk s ->
  tallies_ok s /\
  run_mono (initial_locals w disk) s /\
  (forall descr inits idx,
      let s' := snd (run_episode E cfg descr inits idx s) in
      tallies_ok s' /\ run_mono s s' /\ task_mono s s') /\
  (forall suite task_id,
      let s' := snd (task_begin E cfg suite task_id s) in
      tallies_ok s' /\ run_mono s s') /\
  (forall descr inits idx s1,
      episode_begin E cfg inits idx s = (Val tt, s1) ->
      let s2 := snd (while_steps E cfg descr s1) in
      0 <= task_successes (counters s2) <= task_episodes (counters s2) + 1 /\
      0 <= total_successes (counters s2)
        <= total_episodes (counters s2) + 1 /\
      files s2 = files s) /\
  at_boundary E cfg w disk
    (snd (eval_libero E cfg (initial_locals w disk))).
Proof.
  intros Hdisk Hat.
  assert (Hinit : tallies_ok (initial_locals w disk : Locals)).
  { unfold tallies_ok. cbn. repeat apply conj; try exact Hdisk;
      unfold tally_ok; lia. }
  destruct (boundary_tallies cfg _ _ Hat) as [Hok Hmono].
  specialize (Hok Hinit).
  split; [exact Hok|]. split; [exact Hmono|].
  split; [|split; [|split]].
  - intros descr inits idx.
    destruct (run_episode_tallies cfg descr inits idx s) as (Ha & Hb & Hc).
    cbn zeta. auto.
  - intros suite task_id.
    destruct (task_begin_tallies cfg suite task_id s) as (Ha & Hb).
    cbn zeta. auto.
  - intros descr inits idx s1 Hbeg.
    pose proof (episode_begin_spec cfg inits idx s) as Hb.
    destruct (nth_error inits idx) as [s0|].
    2:{ destruct Hb as (s' & Heq & _). congruence. }
    destruct Hb as (s1' & Heq & _ & _ & _ & Hc1 & Hf1 & _).
    assert (s1' = s1) by congruence. subst s1'.
    destruct (while_steps_tallies cfg descr s1)
      as (He & Hte & Hf & won & Hs & Hts).
    cbn zeta. rewrite He, Hte, Hf, Hs, Hts, Hc1, Hf1.
    destruct Hok as (Hta & Hto & _). unfold tally_ok in *.
    destruct won; cbn; repeat split; lia.
  - apply eval_libero_rtc.
Qed.

(** An update of a tracker that holds an action: the report is appended,
    then the new action takes the place of the old one. *)
Lemma tracker_update_stored (previous a : Action7) (s : Locals) :
  tracker s = stored previous ->
  exists s',
    tracker_update (action_list a) s = (Val tt, s') /\
    motion_trace s' = motion_trace s ++ [spec_report previous a] /\
    tracker s' = stored a.
Proof.
  destruct previous as [[[[px py] pz] [[prx pry] prz]] pg].
  destruct a as [[[[x y] z] [[rx ry] rz]] g].
  intros Htr. destruct s. cbn in Htr. subst.
  unfold tracker_update, store_previous. run. cbn.
  eexists. split; [reflexivity|]. cbn. split; reflexivity.
Qed.

Lemma last_cons {A : Type} (l : list A) : forall a d,
  List.last (a :: l) d = List.last l a.
Proof.
  induction l as [|b l IH]; intros a d; [reflexivity|].
  change (List.last (a :: b :: l) d) with (List.last (b :: l) d).
  rewrite (IH b d), (IH b a). reflexivity.
Qed.

Lemma tracker_updates_stored : forall (next : list Action7)
  (previous : Action7) (s : Locals),
  tracker s = stored previous ->
  exists s',
    for_each (map action_list next) tracker_update s = (Val tt, s') /\
    motion_trace s' = motion_trace s ++ spec_reports previous next /\
    tracker s' = stored (List.last next previous).
Proof.
  induction next as [|a next IH]; intros previous s Htr.
  - exists s. cbn. rewrite app_nil_r. auto.
  - destruct (tracker_update_stored previous a s Htr)
      as (s1 & Hup & Hmt & Htr1).
    destruct (IH a s1 Htr1) as (s2 & Hrest & Hmt2 & Htr2).
    exists s2. cbn [map for_each]. unfold bind. rewrite Hup.
    split; [exact Hrest|]. split.
    + rewrite Hmt2, Hmt, <- app_assoc. reflexivity.
    + rewrite Htr2, last_cons. reflexivity.
Qed.

(** C8. Every episode starts with [action_previous] at [None], whatever
    the episodes before left in the tracker.  From there the first update
    of the tracker yields no report (nothing is appended to the motion
    trace): it only stores the action, its first three components as
    [xyz] and the next three as [rot].  Every later update, however many
    follow, appends the report of the new action against the stored one
    and then stores the new action and its two sub-vectors in place of
    the old ones. *)
Theorem tracker_starts_empty_each_episode cfg inits idx (s : Locals)
  s0 (first : Action7) (next : list Action7) :
  nth_error inits idx = Some s0 ->
  exists sb s1 s2,
    episode_begin E cfg inits idx s = (Val tt, sb) /\
    action_previous (tracker sb) = None /\
    tracker_update (action_list first) sb = (Val tt, s1) /\
    motion_trace s1 = motion_trace s /\
    tracker s1 = stored first /\
    for_each (map action_list next) tracker_update s1 = (Val tt, s2) /\
    motion_trace s2 = motion_trace s ++ spec_reports first next /\
    tracker s2 = stored (List.last next first).
Proof.
  intros Hnth.
  assert (Hbeg : exists sb,
             episode_begin E cfg inits idx s = (Val tt, sb) /\
             action_previous (tracker sb) = None /\
             motion_trace sb = motion_trace s).
  { unfold episode_begin, episode_setup, assign_max_steps. run.
    rewrite Hnth. run.
    destruct (env_set_init_state E s0 (env_reset E (world s))) as [w1 o].
    destruct (max_steps_table (task_suite_name cfg)); run;
      (eexists; split; [reflexivity|]; cbn; auto). }
  destruct Hbeg as (sb & Hbeg & Hnone & Hmt).
  assert (Hfirst : exists s1,
             tracker_update (action_list first) sb = (Val tt, s1) /\
             motion_trace s1 = motion_trace sb /\
             tracker s1 = stored first).
  { destruct first as [[[[x y] z] [[rx ry] rz]] g].
    unfold tracker_update, store_previous. run. rewrite Hnone. run.
    eexists. split; [reflexivity|]. cbn. split; reflexivity. }
  destruct Hfirst as (s1 & Hup & Hmt1 & Htr1).
  destruct (tracker_updates_stored next first s1 Htr1)
    as (s2 & Hrest & Hmt2 & Htr2).
  exists sb, s1, s2.
  repeat apply conj; try assumption.
  - congruence.
  - rewrite Hmt2, Hmt1, Hmt. reflexivity.
Qed.


End Facts.

(** ** The script on the scripted simulator *)

Import Scenario.

(** C1 (defect of the code). An exception in the very first [env.step] of
    a run is caught and logged, and the episode is counted, but [done] has
    never been bound: reading it for the JSON log raises
    [UnboundLocalError], which nothing catches.  The run stops there; the
    second of the two trials is never started. *)
Theorem first_step_exception_aborts_run :
  fst run_first_step_raises = Exc (UnboundLocalError "done") /\
  caught (trace (snd run_first_step_raises)) = [Raised "sim"] /\
  count_env_steps (trace (snd run_first_step_raises)) = 1%nat /\
  task_episodes (counters (snd run_first_step_raises)) = 1 /\
  task_successes (counters (snd run_first_step_raises)) = 0 /\
  resets (trace (snd run_first_step_raises)) = 1%nat /\
  files (snd run_first_step_raises) = ∅.
Proof. vm_compute. repeat split. Qed.

(** C2 (defect of the code). On a suite of two tasks the second turn of
    the task loop fetches task 0 again, with the initial states and the
    description of task 0: task 1 is never evaluated, and the log of task
    0 receives both episodes. *)
Theorem task_loop_runs_task_zero_only :
  fst run_two_tasks = Val tt /\
  fetched_tasks (trace (snd run_two_tasks)) = [0; 0] /\
  initial_states_set (trace (snd run_two_tasks))
  = [(0, 0%nat); (0, 0%nat)] /\
  leaf_in (files (snd run_two_tasks)) (log_path (describe 0))
          scale_key ber_key
  = Some {| total_times := 2; success_times := 2 |} /\
  files (snd run_two_tasks) !! log_path (describe 1) = None.
Proof. vm_compute. repeat split. Qed.

Lemma unmapped_suite_witness :
  pretrained_checkpoint (config "libero_100" 10 1)
  = Some "openvla/openvla-7b-finetuned-libero" /\
  benchmark_dict (scripted 1 1) "libero_100" = Some one_task /\
  max_steps_table "libero_100" = None /\
  fst run_unmapped_whole = Exc (UnboundLocalError "max_steps") /\
  resets (trace (snd run_unmapped_whole)) = 1%nat /\
  initial_states_set (trace (snd run_unmapped_whole)) = [(0, 0%nat)].
Proof.
  assert (H1 : pretrained_checkpoint (config "libero_100" 10 1)
               = Some "openvla/openvla-7b-finetuned-libero")
    by reflexivity.
  assert (H2 : py_in "image_aug" "openvla/openvla-7b-finetuned-libero"
               = true ->
               center_crop (config "libero_100" 10 1) = true)
    by (intros _; reflexivity).
  assert (H3 : load_in_8bit (config "libero_100" 10 1) = true ->
               load_in_4bit (config "libero_100" 10 1) = false)
    by (intros _; reflexivity).
  assert (H4 : model_family (config "libero_100" 10 1) = "openvla" ->
               task_suite_name (config "libero_100" 10 1)
                 ∈ model_norm_stats (scripted 1 1) \/
               no_noops (task_suite_name (config "libero_100" 10 1))
                 ∈ model_norm_stats (scripted 1 1)).
  { intros _. right.
    apply (bool_decide_eq_true_1
             (no_noops (task_suite_name (config "libero_100" 10 1))
                ∈ model_norm_stats (scripted 1 1))).
    vm_compute. reflexivity. }
  assert (H5 : benchmark_dict (scripted 1 1)
                 (task_suite_name (config "libero_100" 10 1))
               = Some one_task) by reflexivity.
  assert (H6 : max_steps_table (task_suite_name (config "libero_100" 10 1))
               = None) by reflexivity.
  assert (H7 : 0 < n_tasks one_task) by (cbn; lia).
  assert (H8 : 0 < num_trials_per_task (config "libero_100" 10 1))
    by (cbn; lia).
  assert (H9 : nth_error (get_task_init_states one_task 0) 0
               = Some (0, 0%nat)) by reflexivity.
  assert (H10 : resets (trace (snd run_unmapped_whole)) = 1%nat)
    by (vm_compute; reflexivity).
  assert (H11 : initial_states_set (trace (snd run_unmapped_whole))
                = [(0, 0%nat)]) by (vm_compute; reflexivity).
  exact (conj H1 (conj H5 (conj H6
           (conj (proj1 (unmapped_suite_starts_an_episode
                           (scripted 1 1) (config "libero_100" 10 1) [] ∅
                           "openvla/openvla-7b-finetuned-libero"
                           one_task (0, 0%nat)
                           H1 H2 H3 H4 H5 H6 H7 H8 H9))
                 (conj H10 H11))))).
Defined.

Lemma executed_action_witness :
  normalize half_closed true = inr [0.5; 0; 0; 0; 0; 0.25; -1]%float /\
  invert [0.5; 0; 0; 0; 0; 0.25; -1]%float
  = inr [0.5; 0; 0; 0; 0; 0.25; 1]%float /\
  exists c s',
    iteration (recording half_closed) (config "libero_spatial" 0 1) bowl
              (set_obs (Some tt) (initial_locals [] ∅)) = (Val c, s') /\
    world s' = [[0.5; 0; 0; 0; 0; 0.25; 1]%float].
Proof.
  assert (H1 : num_steps_wait (config "libero_spatial" 0 1)
               <= t (set_obs (Some tt)
                       (initial_locals (F := float) (InitState := Z * nat)
                          (Img := Z) ([] : list (list float)) ∅)))
    by (cbn; lia).
  destruct (proj1 (executed_action_is_postprocessed
                     (recording half_closed) (config "libero_spatial" 0 1)
                     bowl (set_obs (Some tt) (initial_locals [] ∅))
                     tt 0 0 tt [] half_closed
                     H1 eq_refl eq_refl eq_refl eq_refl eq_refl))
    as (c & s' & Hit & _ & _ & Hpost).
  vm_compute in Hpost.
  refine (conj eq_refl (conj eq_refl _)).
  exists c, s'. exact (conj Hit (proj1 Hpost)).
Defined.


(** C7, counterexample: in the first episode of a run, completed by its
    first action, the task has one success and no episode when the step
    loop is left. *)
Lemma tally_inside_episode_counterexample :
  fst first_loop_won = Val tt /\
  task_successes (counters (snd first_loop_won)) = 1 /\
  task_episodes (counters (snd first_loop_won)) = 0 /\
  ~ tally_ok (task_successes (counters (snd first_loop_won)))
             (task_episodes (counters (snd first_loop_won))).
Proof.
  vm_compute. repeat split. intros [_ Hle]. apply Hle. reflexivity.
Qed.

Lemma tallies_witness :
  files_ok ∅ /\
  at_boundary (scripted 2 1) (config "libero_spatial" 0 1)
              [inr true; inr true] ∅ (snd run_two_tasks) /\
  tallies_ok (snd run_two_tasks).
Proof.
  assert (H1 : files_ok ∅) by exact files_ok_empty.
  assert (H2 : at_boundary (scripted 2 1) (config "libero_spatial" 0 1)
                 [inr true; inr true] ∅ (snd run_two_tasks))
    by apply eval_libero_rtc.
  exact (conj H1 (conj H2
           (proj1 (tallies_sound_between_episodes
                     (scripted 2 1) (config "libero_spatial" 0 1)
                     [inr true; inr true] ∅ (snd run_two_tasks) H1 H2)))).
Defined.

Lemma tracker_witness :
  nth_error [(0, 0%nat)] 0 = Some (0, 0%nat) /\
  exists sb s1 s2,
    episode_begin (scripted 1 1) (config "libero_spatial" 10 1)
                  [(0, 0%nat)] 0 (initial_locals [] ∅) = (Val tt, sb) /\
    tracker_update [3; 4; 0; 0; 0; 1; 1]%float sb = (Val tt, s1) /\
    motion_trace s1 = [] /\
    actions_previous_xyz (tracker s1) = Some [3; 4; 0]%float /\
    actions_previous_rot (tracker s1) = Some [0; 0; 1]%float /\
    for_each [[4; 3; 0; 0; 0; -2; 0]%float; [0; 0; 0; 0; 2; 0; 1]%float]
             tracker_update s1 = (Val tt, s2) /\
    motion_trace s2
    = [{| xyz_fudu := 5; xyz_changes_dir := 0.9599999616000015;
          rot_fudu := 2; rot_changes_dir := -0.99999950000025 |};
       {| xyz_fudu := 0; xyz_changes_dir := 0;
          rot_fudu := 2; rot_changes_dir := 0 |}]%float /\
    actions_previous_xyz (tracker s2) = Some [0; 0; 0]%float /\
    actions_previous_rot (tracker s2) = Some [0; 2; 0]%float.
Proof.
  assert (H1 : nth_error [(0, 0%nat)] 0 = Some (0, 0%nat)) by reflexivity.
  refine (conj H1 _).
  destruct (tracker_starts_empty_each_episode
              (scripted 1 1) (config "libero_spatial" 10 1)
              [(0, 0%nat)] 0%nat (initial_locals [] ∅) (0, 0%nat)
              ((3, 4, 0), (0, 0, 1), 1)%float
              [((4, 3, 0), (0, 0, -2), 0)%float;
               ((0, 0, 0), (0, 2, 0), 1)%float] H1)
    as (sb & s1 & s2 & Ha & _ & Hb & Hc & Hd & He & Hf & Hg).
  exists sb, s1, s2.
  split; [exact Ha|]. split; [exact Hb|]. split; [exact Hc|].
  rewrite Hd, Hf, Hg.
  split; [reflexivity|]. split; [reflexivity|]. split; [exact He|].
  split; [vm_compute; reflexivity|]. split; reflexivity.
Defined.


(** The flag written for an episode left through the handler can come
    from a settling step and disagree with the tally of the task: the log
    and the video say success, the tally counts none. *)
Lemma flag_may_differ_from_tally :
  caught (trace (snd settled_then_raised)) = [Raised "sim"] /\
  In (EvVideo 1 true bowl) (trace (snd settled_then_raised)) /\
  leaf_in (files (snd settled_then_raised)) (log_path bowl)
          scale_key ber_key
  = Some {| total_times := 1; success_times := 1 |} /\
  task_episodes (counters (snd settled_then_raised)) = 1 /\
  task_successes (counters (snd settled_then_raised)) = 0.
Proof. vm_compute. repeat split. tauto. Qed.

End EvalFacts.

(* ===================================================================== *)
(** * More on the converter *)
(* ===================================================================== *)

Module ConvertMore.
Import Convert ConvertMeasures.

Lemma floats_of_length (values : list string) (xs : list pyfloat) :
  floats_of values = Some xs -> List.length xs = List.length values.
Proof.
  revert xs. induction values as [|v vs IH]; intros xs; cbn.
  - intros [= <-]. reflexivity.
  - destruct (float_of_string v); [|discriminate].
    destruct (floats_of vs) as [ys|]; [|discriminate].
    intros [= <-]. cbn. f_equal. apply IH. reflexivity.
Qed.

(** What one line gives, by the three cases of the loop body. *)
Lemma convert_line_shape (n : nat) (raw : string) :
  (is_blank raw = true /\ convert_line n raw = (None, None)) \/
  (is_blank raw = false /\
   exists r, row_width r = 4%nat /\
             ((convert_line n raw = (Some r, None) /\ is_text_row r = false)
              \/ (convert_line n raw
                  = (Some r, Some (WarnNotFloat n (py_strip raw))) /\
                  is_text_row r = true))) \/
  (is_blank raw = false /\
   convert_line n raw = (None, Some (WarnSkipped n (py_strip raw)))).
Proof.
  unfold convert_line, is_blank.
  destruct (String.eqb (py_strip raw) ""); [left; auto|].
  destruct (Nat.eqb_spec (List.length (fields (py_strip raw))) 4)
    as [Hlen|Hlen]; [|right; right; auto].
  right; left. split; [reflexivity|].
  destruct (floats_of (fields (py_strip raw))) as [xs|] eqn:Hf.
  - exists (FloatRow xs). cbn.
    rewrite (floats_of_length _ _ Hf). auto.
  - exists (TextRow (fields (py_strip raw))). cbn. auto.
Qed.

(** X1. Every row of the CSV file written has exactly four cells: the
    header, the rows of numbers and the rows written through as text. *)
Theorem csv_rows_have_four_cells (lines : list string) :
  Forall (fun r => row_width r = 4%nat) (fst (converted lines)).
Proof.
  unfold converted, convert_to_csv.
  assert (Hgen : forall n,
             Forall (fun r => row_width r = 4%nat)
                    (fst (convert_lines n lines))).
  { induction lines as [|l ls IH]; intros n; cbn; [constructor|].
    specialize (IH (S n)).
    destruct (convert_lines (S n) ls) as [rs ws]. cbn in IH.
    destruct (convert_line_shape n l)
      as [[_ ->]|[(_ & r & Hw & [[-> _]|[-> _]])|[_ ->]]];
      cbn; auto. }
  specialize (Hgen 1%nat).
  destruct (convert_lines 1 lines) as [rows warnings]. cbn in *.
  constructor; [reflexivity|exact Hgen].
Qed.

(** X2. Every line of the input is accounted for exactly once: it is
    empty, or it gives a row, or it is skipped with a warning.  So the
    rows after the header, the skip warnings and the empty lines add up
    to the lines read; and there are as many rows written through as text
    as warnings that a line is no row of numbers. *)
Theorem every_line_accounted_for (lines : list string) :
  (List.length (fst (converted lines))
   + List.length (List.filter is_blank lines)
   + List.length (List.filter is_skipped (snd (converted lines)))
   = S (List.length lines))%nat /\
  List.length (List.filter is_text_row (fst (converted lines)))
  = S (List.length (List.filter is_not_float (snd (converted lines)))).
Proof.
  unfold converted, convert_to_csv.
  assert (Hgen : forall n,
             let '(rows, ws) := convert_lines n lines in
             (List.length rows
              + List.length (List.filter is_blank lines)
              + List.length (List.filter is_skipped ws)
              = List.length lines)%nat /\
             List.length (List.filter is_text_row rows)
             = List.length (List.filter is_not_float ws) /\
             List.filter is_skipped (ws ++ [Converted])
             = List.filter is_skipped ws /\
             List.filter is_not_float (ws ++ [Converted])
             = List.filter is_not_float ws).
  { induction lines as [|l ls IH]; intros n; cbn.
    - auto.
    - specialize (IH (S n)).
      destruct (convert_lines (S n) ls) as [rs ws].
      destruct IH as (IH1 & IH2 & IH3 & IH4).
      destruct (convert_line_shape n l)
        as [[Hb ->]|[(Hb & r & Hw & [[-> Ht]|[-> Ht]])|[Hb ->]]];
        rewrite Hb; cbn; rewrite ?Ht; cbn; rewrite ?IH3, ?IH4;
        repeat split; lia. }
  specialize (Hgen 1%nat).
  destruct (convert_lines 1 lines) as [rows ws].
  destruct Hgen as (H1 & H2 & H3 & H4). cbn [fst snd].
  rewrite H3, H4. cbn. rewrite H2. repeat split; lia.
Qed.

(** X3. Empty lines change nothing in the file written: the rows are
    those of the input with its empty lines removed (only the line
    numbers of the warnings differ). *)
Theorem blank_lines_leave_rows_unchanged (lines : list string) :
  fst (converted (List.filter (fun l => negb (is_blank l)) lines))
  = fst (converted lines).
Proof.
  unfold converted, convert_to_csv.
  assert (Hnum : forall ls n n',
             fst (convert_lines n ls) = fst (convert_lines n' ls)).
  { induction ls as [|l ls IH]; intros n n'; cbn; [reflexivity|].
    specialize (IH (S n) (S n')).
    destruct (convert_lines (S n) ls) as [rs ws].
    destruct (convert_lines (S n') ls) as [rs' ws']. cbn in IH. subst rs'.
    unfold convert_line.
    destruct (String.eqb (py_strip l) ""); [reflexivity|].
    destruct (Nat.eqb _ 4); [|reflexivity].
    destruct (floats_of _); reflexivity. }
  assert (Hgen : forall n n',
             fst (convert_lines n
                    (List.filter (fun l => negb (is_blank l)) lines))
             = fst (convert_lines n' lines)).
  { induction lines as [|l ls IH]; intros n n'; cbn; [reflexivity|].
    destruct (is_blank l) eqn:Hb; cbn.
    - rewrite (IH n (S n')).
      destruct (convert_lines (S n') ls) as [rs ws].
      unfold convert_line. unfold is_blank in Hb. rewrite Hb. reflexivity.
    - rewrite (surjective_pairing
                 (convert_lines (S n) (List.filter _ ls))).
      rewrite (IH (S n) (S n')).
      rewrite (surjective_pairing (convert_lines (S n') ls)).
      rewrite (surjective_pairing (convert_line n l)).
      rewrite (surjective_pairing (convert_line n' l)).
      cbn.
      assert (Hl : fst (convert_line n l) = fst (convert_line n' l)).
      { unfold convert_line.
        destruct (String.eqb (py_strip l) ""); [reflexivity|].
        destruct (Nat.eqb _ 4); [|reflexivity].
        destruct (floats_of _); reflexivity. }
      rewrite Hl. reflexivity. }
  specialize (Hgen 1%nat 1%nat).
  destruct (convert_lines 1 (List.filter _ lines)) as [rows ws].
  destruct (convert_lines 1 lines) as [rows' ws']. cbn in *.
  congruence.
Qed.

(** X4. The line number of a warning is the position of its line in the
    input, counted from 1 with the empty lines included, and the text
    shown is that line stripped. *)
Theorem warnings_name_their_line (lines : list string) (m : message)
  (n : nat) (text : string) :
  In m (snd (converted lines)) ->
  warned_line m = Some (n, text) ->
  (1 <= n <= List.length lines)%nat /\
  exists raw, nth_error lines (n - 1) = Some raw /\ py_strip raw = text.
Proof.
  unfold converted, convert_to_csv.
  assert (Hgen : forall ls k,
             In m (snd (convert_lines k ls)) ->
             warned_line m = Some (n, text) ->
             (k <= n < k + List.length ls)%nat /\
             exists raw, nth_error ls (n - k) = Some raw /\
                         py_strip raw = text).
  { induction ls as [|l ls IH]; intros k; cbn; [tauto|].
    specialize (IH (S k)).
    destruct (convert_lines (S k) ls) as [rs ws]. cbn in IH.
    intros Hin Hm.
    assert (Htail : In m ws ->
              (k <= n < k + S (List.length ls))%nat /\
              exists raw, nth_error (l :: ls) (n - k) = Some raw /\
                          py_strip raw = text).
    { intros Hw. destruct (IH Hw Hm) as ([Hlo Hhi] & raw & Hnth & Hs).
      split; [lia|]. exists raw. split; [|exact Hs].
      replace (n - k)%nat with (S (n - S k)) by lia. exact Hnth. }
    assert (Hhead : forall w, m = w -> warned_line w = Some (k, py_strip l) ->
              (k <= n < k + S (List.length ls))%nat /\
              exists raw, nth_error (l :: ls) (n - k) = Some raw /\
                          py_strip raw = text).
    { intros w -> Hw. rewrite Hw in Hm. injection Hm as <- <-.
      split; [lia|]. exists l. rewrite Nat.sub_diag. auto. }
    destruct (convert_line_shape k l)
      as [[_ Heq]|[(_ & r & _ & [[Heq _]|[Heq _]])|[_ Heq]]];
      rewrite Heq in Hin; cbn in Hin.
    - auto.
    - auto.
    - destruct Hin as [<-|Hin]; [|auto]. eapply Hhead; reflexivity.
    - destruct Hin as [<-|Hin]; [|auto]. eapply Hhead; reflexivity. }
  specialize (Hgen lines 1%nat).
  destruct (convert_lines 1 lines) as [rows ws]. cbn [fst snd] in *.
  intros Hin Hm. apply in_app_or in Hin.
  destruct Hin as [Hin|[<-|[]]]; [|discriminate].
  destruct (Hgen Hin Hm) as ([Hlo Hhi] & raw & Hnth & Hs).
  split; [lia|]. exists raw. auto.
Qed.

Lemma warnings_name_their_line_witness :
  In (WarnSkipped 3 "1 2 3")
     (snd (converted ["1,2,3,4"; ""; "  1 2 3 "])) /\
  warned_line (WarnSkipped 3 "1 2 3") = Some (3%nat, "1 2 3") /\
  (1 <= 3 <= List.length ["1,2,3,4"; ""; "  1 2 3 "])%nat.
Proof.
  assert (H1 : In (WarnSkipped 3 "1 2 3")
                  (snd (converted ["1,2,3,4"; ""; "  1 2 3 "])))
    by (vm_compute; tauto).
  assert (H2 : warned_line (WarnSkipped 3 "1 2 3")
               = Some (3%nat, "1 2 3")) by reflexivity.
  exact (conj H1 (conj H2
           (proj1 (warnings_name_their_line
                     ["1,2,3,4"; ""; "  1 2 3 "] _ _ _ H1 H2)))).
Defined.

End ConvertMore.

(* ===================================================================== *)
(** * More on the motion similarity *)
(* ===================================================================== *)

Module SimilarityMore.
Import Similarity.

Local Open Scope R_scope.

Lemma dot_from_comm (u v : list R) : forall acc,
  dot_from acc u v = dot_from acc v u.
Proof.
  revert v. induction u as [|x u IH]; intros [|y v] acc; cbn;
    try reflexivity.
  rewrite (Rmult_comm x y). apply IH.
Qed.

Lemma changes_dir_comm (u v : list R) :
  changes_dir u v = changes_dir v u.
Proof.
  unfold changes_dir, np_dot. rewrite (dot_from_comm u v).
  destruct (dot_from fzero v u); [|reflexivity].
  replace (fmul (norm2 u) (norm2 v)) with (fmul (norm2 v) (norm2 u))
    by apply Rmult_comm.
  reflexivity.
Qed.

(** X6. In exact real arithmetic the similarity does not depend on which
    of the two sub-vectors is the current one and which the previous one:
    swapping them gives the same value, or the same failure. *)
Theorem changes_dir_symmetric (u v : list R) :
  changes_dir u v = changes_dir v u /\
  (forall a b : R * R * R, spec_cosine a b = spec_cosine b a).
Proof.
  split; [apply changes_dir_comm|].
  intros a b.
  assert (Hs : Some (spec_cosine a b) = Some (spec_cosine b a)).
  { rewrite <- !SimilarityFacts.changes_dir_spec. apply changes_dir_comm. }
  injection Hs as Hs. exact Hs.
Qed.

End SimilarityMore.

(* ===================================================================== *)
(** * More on [eval_libero] *)
(* ===================================================================== *)

Module EvalMore.
Import Similarity Eval EvalFacts EvalMeasures.

Local Open Scope Z_scope.

Section More.
Context {F : Type} `{FloatOps F}.
Context {World Task InitState Obs Img Proprio : Type}.
Context (E : Externals F World Task InitState Obs Img Proprio).

Local Abbreviation Locals := (@Locals F World InitState Obs Img).
Local Abbreviation Event := (@Event F InitState).


(** X10. When the task has no initial state for the index of the trial,
    the episode stops on [IndexError] right after [env.reset]: no
    [env.step], no tally and no file is touched, and nothing catches
    it. *)
Theorem missing_initial_state_raises cfg descr inits idx (s : Locals) :
  (List.length inits <= idx)%nat ->
  fst (run_episode E cfg descr inits idx s) = Exc IndexError /\
  trace (snd (run_episode E cfg descr inits idx s)) = EvReset :: trace s /\
  counters (snd (run_episode E cfg descr inits idx s)) = counters s /\
  files (snd (run_episode E cfg descr inits idx s)) = files s.
Proof.
  intros Hlen. apply nth_error_None in Hlen.
  destruct (run_episode_spec E cfg descr inits idx s)
    as (r & s' & -> & Hp).
  cbn. inversion Hp; subst; try congruence. auto.
Qed.

(** X11. With [num_trials_per_task] at zero or below, the first task is
    set up and no episode runs; the success rate of the task then divides
    by zero and the run stops on [ZeroDivisionError]. *)
Theorem no_trial_divides_by_zero cfg w disk suite :
  benchmark_dict E (task_suite_name cfg) = Some suite ->
  0 < n_tasks suite ->
  num_trials_per_task cfg <= 0 ->
  fst (eval_libero E cfg (initial_locals w disk)) = Exc ZeroDivisionError /\
  exists descr,
    trace (snd (eval_libero E cfg (initial_locals w disk)))
    = [EvMakeEnv descr; EvInitStates 0; EvGetTask 0].
Proof.
  intros Hsuite Htasks Htrials.
  set (s := initial_locals w disk : Locals).
  destruct (task_begin_spec E cfg suite 0 s)
    as (descr & s1 & Hbeg & Htr1 & Hc1 & _).
  assert (Hall : eval_libero E cfg s = (Exc ZeroDivisionError, s1)).
  { unfold eval_libero. rewrite Hsuite.
    erewrite bind_val by reflexivity.
    apply bind_exc. unfold range.
    destruct (Z.to_nat (n_tasks suite)) as [|k] eqn:Hk; [lia|].
    cbn [seq map for_each]. apply bind_exc.
    unfold run_task. erewrite bind_val by exact Hbeg.
    replace (Z.to_nat (num_trials_per_task cfg)) with 0%nat by lia.
    cbn [seq for_each]. erewrite bind_val by reflexivity.
    unfold task_end, bind, gets, raise. rewrite Hc1. reflexivity. }
  rewrite Hall. cbn [fst snd]. split; [reflexivity|].
  exists descr. rewrite Htr1. reflexivity.
Qed.

(** X12. On a suite without task no task is set up and nothing is
    counted; the run returns, unless Weights and Biases logging is on, in
    which case the total rate divides by zero. *)
Theorem empty_suite_runs_nothing cfg w disk suite :
  benchmark_dict E (task_suite_name cfg) = Some suite ->
  n_tasks suite <= 0 ->
  eval_libero E cfg (initial_locals w disk)
  = (if use_wandb cfg then Exc ZeroDivisionError else Val tt,
     initial_locals w disk).
Proof.
  intros Hsuite Htasks.
  unfold eval_libero. rewrite Hsuite.
  erewrite bind_val by reflexivity.
  unfold range. replace (Z.to_nat (n_tasks suite)) with 0%nat by lia.
  cbn [seq map for_each]. erewrite bind_val by reflexivity.
  unfold bind, gets, raise, ret. cbn.
  destruct (use_wandb cfg); reflexivity.
Qed.


Lemma episodes_counted cfg descr inits : forall n a (s : Locals),
  fst (for_each (seq a n) (run_episode E cfg descr inits) s) = Val tt ->
  task_episodes
    (counters (snd (for_each (seq a n) (run_episode E cfg descr inits) s)))
  = task_episodes (counters s) + Z.of_nat n /\
  total_episodes
    (counters (snd (for_each (seq a n) (run_episode E cfg descr inits) s)))
  = total_episodes (counters s) + Z.of_nat n.
Proof.
  induction n as [|n IH]; intros a s; cbn [seq for_each].
  - intros _. cbn. lia.
  - unfold bind.
    destruct (run_episode_spec E cfg descr inits a s)
      as (r & s1 & Hrun & Hp).
    rewrite Hrun.
    inversion Hp; subst; try (cbn; discriminate).
    intros Hrest. specialize (IH (S a) s1 Hrest).
    match goal with
    | Hc : counted _ s s1 |- _ => destruct Hc as (Ha & Hb & _)
    end.
    rewrite Ha, Hb in IH. lia.
Qed.

Lemma run_task_counts cfg suite task_id (s : Locals) :
  fst (run_task E cfg suite task_id s) = Val tt ->
  0 < num_trials_per_task cfg /\
  task_episodes (counters (snd (run_task E cfg suite task_id s)))
  = num_trials_per_task cfg /\
  total_episodes (counters (snd (run_task E cfg suite task_id s)))
  = total_episodes (counters s) + num_trials_per_task cfg.
Proof.
  unfold run_task.
  destruct (task_begin_spec E cfg suite task_id s)
    as (descr & s1 & Hb & _ & Hc1 & _).
  erewrite bind_val by exact Hb. cbn [fst snd]. unfold bind.
  pose proof (episodes_counted cfg descr (get_task_init_states suite 0)
                (Z.to_nat (num_trials_per_task cfg)) 0%nat s1) as Hcount.
  destruct (for_each _ _ s1) as [[[]| |] s2]; cbn [fst snd] in *;
    try discriminate.
  destruct (Hcount eq_refl) as [Ha Hb'].
  rewrite Hc1 in Ha, Hb'. cbn in Ha, Hb'.
  unfold task_end, bind, gets, raise, ret.
  destruct (Z.eqb_spec (task_episodes (counters s2)) 0) as [Hz|Hnz];
    cbn; [discriminate|].
  intros _. lia.
Qed.

(** X14. A task that returns has run exactly [num_trials_per_task]
    episodes, a positive number: its episode tally equals it and the
    total of the run has grown by it. *)
Theorem completed_task_ran_all_trials cfg suite task_id (s : Locals) :
  fst (run_task E cfg suite task_id s) = Val tt ->
  0 < num_trials_per_task cfg /\
  task_episodes (counters (snd (run_task E cfg suite task_id s)))
  = num_trials_per_task cfg /\
  total_episodes (counters (snd (run_task E cfg suite task_id s)))
  = total_episodes (counters s) + num_trials_per_task cfg.
Proof. exact (run_task_counts cfg suite task_id s). Qed.

(** X15. A success is tallied only for an episode whose last [env.step]
    is an acting step that returned [done]: the flag logged is then
    [True].  A [done] reported by a settling step counts for nothing in
    the tallies. *)
Theorem success_needs_done_in_acting_step cfg descr inits idx (s : Locals) :
  task_successes (counters (snd (run_episode E cfg descr inits idx s)))
  <> task_successes (counters s) ->
  fst (run_episode E cfg descr inits idx s) = Val tt /\
  task_successes (counters (snd (run_episode E cfg descr inits idx s)))
  = task_successes (counters s) + 1 /\
  total_successes (counters (snd (run_episode E cfg descr inits idx s)))
  = total_successes (counters s) + 1 /\
  exists tnow raw a evs,
    num_steps_wait cfg <= tnow /\
    trace (snd (run_episode E cfg descr inits idx s))
    = EvSuccessLogged true
        :: EvVideo (total_episodes (counters s) + 1) true descr
        :: EvJsonWritten (log_path descr)
        :: EvStep tnow (Some raw) a (inr true) :: evs.
Proof.
  destruct (run_episode_spec E cfg descr inits idx s)
    as (r & s' & -> & Hp).
  cbn. intros Hne. inversion Hp; subst.
  - exfalso. apply Hne. congruence.
  - exfalso. apply Hne. congruence.
  - exfalso. apply Hne.
    match goal with
    | Hc : counted false s s' |- _ => destruct Hc as (_ & _ & Hts & _)
    end.
    rewrite Hts. cbn. lia.
  - match goal with
    | Hc : counted won s s' |- _ => destruct Hc as (_ & _ & Hts & Htos)
    end.
    destruct won; [|exfalso; apply Hne; rewrite Hts; cbn; lia].
    cbn in Hts, Htos.
    match goal with
    | Hw : won_by true _ |- _ => destruct Hw as (tn & raw & a & evs' & ->)
    end.
    match goal with
    | Hd : match last_completed _ with _ => _ end = Some d |- _ =>
        cbn in Hd; injection Hd as <-
    end.
    repeat split; try assumption.
    match goal with
    | Hl : loop_trace E cfg m _ |- _ => destruct Hl as [_ Hok _]
    end.
    inversion Hok as [|? ? Hstep _]; subst. cbn in Hstep.
    destruct Hstep as [Hge _].
    match goal with
    | Ht : trace s' = _ |- _ => rewrite Ht
    end.
    eexists tn, raw, a, _. split; [exact Hge|]. cbn. reflexivity.
Qed.

(** ** What no run touches *)

Lemma keeps_bind {X A B : Type} (g : Locals -> X) (m : M A) (f : A -> M B) :
  keeps g m -> (forall a, keeps g (f a)) -> keeps g (bind m f).
Proof.
  intros Hm Hf s. unfold bind. specialize (Hm s).
  destruct (m s) as [[a| |] s1]; cbn in *; auto.
  rewrite Hf. exact Hm.
Qed.

Lemma keeps_try {X A : Type} (g : Locals -> X) (m : M A)
  (h : PyExn -> M A) :
  keeps g m -> (forall e, keeps g (h e)) -> keeps g (try_except m h).
Proof.
  intros Hm Hh s. unfold try_except. specialize (Hm s).
  destruct (m s) as [[a| |] s1]; cbn in *; auto.
  rewrite Hh. exact Hm.
Qed.

Lemma keeps_for_each {X A : Type} (g : Locals -> X) (xs : list A)
  (body : A -> M unit) :
  (forall x, keeps g (body x)) -> keeps g (for_each xs body).
Proof.
  intros Hbody. induction xs as [|x xs IH]; cbn.
  - intros s. reflexivity.
  - apply keeps_bind; auto.
Qed.

(** The elementary steps keep every component they do not assign. *)
Ltac keeps_leaf :=
  let s := fresh "s" in
  intros s; split_paths; reflexivity.

Ltac keeps_all :=
  repeat match goal with
         | |- keeps _ (bind _ _) => apply keeps_bind; [|intros ?]
         | |- keeps _ (try_except _ _) => apply keeps_try; [|intros ?]
         | |- keeps _ (for_each _ _) => apply keeps_for_each; intros ?
         | |- _ => solve [keeps_leaf]
         end.

Lemma step_body_quiet cfg descr :
  keeps motion_trace (step_body E cfg descr).
Proof.
  unfold step_body, do_env_step, replan.
  apply keeps_bind; [keeps_leaf|intros tnow].
  destruct (tnow <? num_steps_wait cfg); keeps_all.
Qed.

Lemma step_loop_quiet cfg descr fuel :
  keeps motion_trace (step_loop E fuel cfg descr).
Proof.
  induction fuel as [|fuel IH]; cbn.
  - apply keeps_bind; [keeps_leaf|intros m].
    apply keeps_bind; [keeps_leaf|intros tnow].
    destruct (tnow <? m + num_steps_wait cfg); intros s; reflexivity.
  - apply keeps_bind; [keeps_leaf|intros m].
    apply keeps_bind; [keeps_leaf|intros tnow].
    destruct (tnow <? m + num_steps_wait cfg); [|intros s; reflexivity].
    apply keeps_bind.
    + unfold iteration. apply keeps_try; [apply step_body_quiet|].
      intros e. keeps_all.
    + intros [|]; [exact IH|intros s; reflexivity].
Qed.

Lemma run_episode_quiet cfg descr inits idx :
  keeps motion_trace (run_episode E cfg descr inits idx).
Proof.
  unfold run_episode, episode_begin, episode_setup, assign_max_steps,
    episode_end, record_json.
  keeps_all.
  unfold while_steps. intros s. apply step_loop_quiet.
Qed.

(** X16. No run ever appends a line to the motion trace: the branch that
    computes the similarity is switched off by the constant [replan], so
    the trace is after the run what it was before, however the run
    ends. *)
Theorem run_never_writes_motion_trace cfg (s : Locals) :
  motion_trace (snd (eval_libero E cfg s)) = motion_trace s.
Proof.
  revert s. change (keeps motion_trace (eval_libero E cfg)).
  unfold eval_libero.
  apply keeps_bind.
  { destruct (benchmark_dict E (task_suite_name cfg)); keeps_all. }
  intros suite. apply keeps_bind.
  - apply keeps_for_each. intros id.
    unfold run_task, task_begin, task_end.
    keeps_all. apply run_episode_quiet.
  - intros _. keeps_all.
Qed.

Lemma episode_end_t descr : keeps t (episode_end E descr).
Proof. unfold episode_end, record_json. keeps_all. Qed.

(** X17. An episode that returns adds to [total_steps] the value of the
    step counter at the end of its loop, which lies between 0 and
    [max_steps + num_steps_wait] (0 when that sum is negative). *)
Theorem episode_adds_its_steps cfg descr inits idx (s : Locals) m :
  max_steps_table (task_suite_name cfg) = Some m ->
  fst (run_episode E cfg descr inits idx s) = Val tt ->
  total_steps (counters (snd (run_episode E cfg descr inits idx s)))
  = total_steps (counters s) + t (snd (run_episode E cfg descr inits idx s))
  /\ 0 <= t (snd (run_episode E cfg descr inits idx s))
       <= Z.max 0 (m + num_steps_wait cfg).
Proof.
  intros Htab.
  unfold run_episode.
  pose proof (episode_begin_spec E cfg inits idx s) as Hb.
  destruct (nth_error inits idx) as [s0|].
  2:{ destruct Hb as (s' & Hb & _). erewrite bind_exc by exact Hb.
      cbn. discriminate. }
  destruct Hb as (s1 & Hb & Hm1 & Ht1 & _ & Hc1 & _).
  erewrite bind_val by exact Hb.
  unfold episode_max_steps in Hm1. rewrite Htab in Hm1.
  destruct (while_steps_spec E cfg descr s1 m Hm1) as (s2 & evs & Hw & Hp).
  erewrite bind_val by exact Hw.
  pose proof (episode_end_spec E descr s2) as He.
  pose proof (episode_end_t descr s2) as Ht.
  destruct (done s2) as [d|].
  2:{ destruct He as (s3 & -> & _). cbn. discriminate. }
  destruct He as (s3 & Heq & Hc3 & _).
  rewrite Heq in *. cbn [fst snd] in *. intros _.
  destruct Hp. destruct lp_frame0 as (_ & _ & _ & _ & _ & _ & Hts).
  rewrite Hc3, Ht. cbn. rewrite Hts, Hc1.
  split; [reflexivity|]. lia.
Qed.

(** ** The frames of the replay video *)

Lemma iteration_frames cfg descr (s : Locals) :
  (List.length (replay_images (snd (iteration E cfg descr s)))
   <= List.length (replay_images s)
      + (if (t s <? num_steps_wait cfg)%Z then 0 else 1))%nat.
Proof.
  unfold iteration, step_body, do_env_step, replan. run.
  destruct (t s <? num_steps_wait cfg); split_paths;
    rewrite ?List.length_app; cbn; lia.
Qed.

Lemma step_loop_frames cfg descr fuel : forall (s : Locals) m,
  max_steps s = Some m ->
  (List.length (replay_images (snd (step_loop E fuel cfg descr s)))
   <= List.length (replay_images s)
      + Z.to_nat (m + num_steps_wait cfg
                  - Z.max (t s) (num_steps_wait cfg)))%nat.
Proof.
  induction fuel as [|fuel IH]; intros s m Hm; cbn; run; rewrite Hm.
  - destruct (t s <? m + num_steps_wait cfg); cbn; lia.
  - destruct (Z.ltb_spec (t s) (m + num_steps_wait cfg)) as [Hlt|Hge];
      [|cbn; lia].
    pose proof (iteration_frames cfg descr s) as Hfr.
    destruct (iteration_post E cfg descr s) as (c & s1 & Hit & Hpost).
    rewrite Hit in *. cbn [fst snd] in Hfr.
    destruct (Z.ltb_spec (t s) (num_steps_wait cfg)) as [Hw|Hw].
    + inversion Hpost; subst; cbn [fst snd]; try lia.
      match goal with
      | Hf : same_frame s s1 |- _ => destruct Hf as (Hms & _)
      end.
      specialize (IH s1 m ltac:(congruence)). lia.
    + inversion Hpost; subst; cbn [fst snd]; try lia.
      match goal with
      | Hf : same_frame s s1 |- _ => destruct Hf as (Hms & _)
      end.
      specialize (IH s1 m ltac:(congruence)). lia.
Qed.

Lemma episode_end_frames descr : keeps replay_images (episode_end E descr).
Proof. unfold episode_end, record_json. keeps_all. Qed.

Lemma episode_begin_frames cfg inits idx (s s1 : Locals) :
  episode_begin E cfg inits idx s = (Val tt, s1) -> replay_images s1 = [].
Proof.
  unfold episode_begin, episode_setup, assign_max_steps. run.
  destruct (nth_error inits idx) as [s0|]; run; [|discriminate].
  destruct (env_set_init_state E s0 (env_reset E (world s))) as [w1 o].
  destruct (max_steps_table (task_suite_name cfg)); run;
    intros Heq; injection Heq as <-; reflexivity.
Qed.

(** X18. The replay video of an episode has at most [max_steps] frames:
    with a settling time that is not negative, the images handed to
    [save_rollout_video] are those of this episode only, one for each
    turn of the loop that came to query the policy. *)
Theorem video_has_at_most_max_steps_frames cfg descr inits idx (s : Locals)
  m :
  max_steps_table (task_suite_name cfg) = Some m ->
  0 <= num_steps_wait cfg ->
  fst (run_episode E cfg descr inits idx s) = Val tt ->
  (List.length (replay_images (snd (run_episode E cfg descr inits idx s)))
   <= Z.to_nat m)%nat.
Proof.
  intros Htab Hwait.
  unfold run_episode.
  pose proof (episode_begin_spec E cfg inits idx s) as Hb.
  destruct (nth_error inits idx) as [s0|].
  2:{ destruct Hb as (s' & Hb & _). erewrite bind_exc by exact Hb.
      cbn. discriminate. }
  destruct Hb as (s1 & Hb & Hm1 & Ht1 & _).
  erewrite bind_val by exact Hb.
  unfold episode_max_steps in Hm1. rewrite Htab in Hm1.
  pose proof (episode_begin_frames cfg inits idx s s1 Hb) as Himg.
  pose proof (step_loop_frames cfg descr (loop_bound cfg s1) s1 m Hm1)
    as Hfr.
  destruct (while_steps_spec E cfg descr s1 m Hm1) as (s2 & evs & Hw & _).
  erewrite bind_val by exact Hw.
  unfold while_steps in Hw. rewrite Hw in Hfr. cbn [snd] in Hfr.
  rewrite Himg, Ht1 in Hfr. cbn [List.length] in Hfr.
  intros _. rewrite (episode_end_frames descr s2). lia.
Qed.

(** ** The initial states of the trials *)






(** ** The episodes of a whole run *)

Lemma tasks_counted cfg suite : forall (ids : list Z) (s : Locals),
  fst (for_each ids (run_task E cfg suite) s) = Val tt ->
  total_episodes (counters (snd (for_each ids (run_task E cfg suite) s)))
  = total_episodes (counters s)
    + Z.of_nat (List.length ids) * num_trials_per_task cfg.
Proof.
  induction ids as [|id ids IH]; intros s; cbn [for_each List.length].
  - intros _. cbn. lia.
  - unfold bind.
    pose proof (run_task_counts cfg suite id s) as Htask.
    destruct (run_task E cfg suite id s) as [[[]| |] s1]; cbn [fst snd] in *;
      try discriminate.
    intros Hrest. rewrite (IH s1 Hrest).
    destruct (Htask eq_refl) as (_ & _ & ->). lia.
Qed.

(** X20. A run that returns has run [num_trials_per_task] episodes for
    every task of the suite: [total_episodes] ends at the product of the
    two. *)
Theorem completed_run_ran_all_trials cfg w disk suite :
  benchmark_dict E (task_suite_name cfg) = Some suite ->
  fst (eval_libero E cfg (initial_locals w disk)) = Val tt ->
  total_episodes
    (counters (snd (eval_libero E cfg (initial_locals w disk))))
  = Z.max 0 (n_tasks suite) * num_trials_per_task cfg.
Proof.
  intros Hsuite. unfold eval_libero. rewrite Hsuite.
  erewrite bind_val by reflexivity. unfold bind.
  pose proof (tasks_counted cfg suite (range (n_tasks suite))
                (initial_locals w disk)) as Hall.
  destruct (for_each _ _ (initial_locals w disk)) as [[[]| |] s2];
    cbn [fst snd] in *; try discriminate.
  specialize (Hall eq_refl).
  unfold range in Hall. rewrite List.length_map, List.length_seq in Hall.
  cbn in Hall.
  unfold gets, raise, ret.
  destruct (use_wandb cfg && _); cbn; [discriminate|].
  intros _. rewrite Hall. lia.
Qed.

End More.

(** ** On the scripted simulator *)

Import Scenario ScenarioMore.


Lemma missing_initial_state_witness :
  (List.length [(0, 0%nat)] <= 1)%nat /\
  fst (run_episode (scripted 1 1) (config "libero_spatial" 10 1) bowl
         [(0, 0%nat)] 1 (initial_locals [] ∅)) = Exc IndexError.
Proof.
  assert (H1 : (List.length [(0, 0%nat)] <= 1)%nat) by (cbn; lia).
  exact (conj H1
           (proj1 (missing_initial_state_raises
                     (scripted 1 1) (config "libero_spatial" 10 1) bowl
                     [(0, 0%nat)] 1%nat (initial_locals [] ∅) H1))).
Defined.

Lemma no_trial_witness :
  benchmark_dict (scripted 1 1) "libero_spatial" = Some one_task /\
  0 < n_tasks one_task /\
  0 <= 0 /\
  fst (eval_libero (scripted 1 1) (config "libero_spatial" 10 0)
         (initial_locals [] ∅)) = Exc ZeroDivisionError.
Proof.
  assert (H1 : benchmark_dict (scripted 1 1)
                 (task_suite_name (config "libero_spatial" 10 0))
               = Some one_task) by reflexivity.
  assert (H2 : 0 < n_tasks one_task) by (cbn; lia).
  assert (H3 : num_trials_per_task (config "libero_spatial" 10 0) <= 0)
    by (cbn; lia).
  exact (conj H1 (conj H2 (conj H3
           (proj1 (no_trial_divides_by_zero
                     (scripted 1 1) (config "libero_spatial" 10 0) [] ∅
                     one_task H1 H2 H3))))).
Defined.

Lemma empty_suite_witness :
  benchmark_dict (scripted 0 1) "libero_spatial" = Some no_task /\
  n_tasks no_task <= 0 /\
  eval_libero (scripted 0 1) (config "libero_spatial" 10 1)
              (initial_locals [] ∅)
  = (Val tt, initial_locals [] ∅).
Proof.
  assert (H1 : benchmark_dict (scripted 0 1)
                 (task_suite_name (config "libero_spatial" 10 1))
               = Some no_task) by reflexivity.
  assert (H2 : n_tasks no_task <= 0) by (cbn; lia).
  exact (conj H1 (conj H2
           (empty_suite_runs_nothing
              (scripted 0 1) (config "libero_spatial" 10 1) [] ∅
              no_task H1 H2))).
Defined.


Lemma completed_task_witness :
  fst (run_task (scripted 1 2) (config "libero_spatial" 0 2) two_states 0
         (initial_locals [inr true; inr true] ∅)) = Val tt /\
  0 < 2.
Proof.
  assert (H1 : fst (run_task (scripted 1 2) (config "libero_spatial" 0 2)
                      two_states 0
                      (initial_locals [inr true; inr true] ∅)) = Val tt)
    by (vm_compute; reflexivity).
  exact (conj H1
           (proj1 (completed_task_ran_all_trials
                     (scripted 1 2) (config "libero_spatial" 0 2)
                     two_states 0
                     (initial_locals [inr true; inr true] ∅) H1))).
Defined.

Lemma success_witness :
  task_successes
    (counters (snd (run_episode (scripted 1 1)
                      (config "libero_spatial" 0 1) bowl [(0, 0%nat)] 0
                      (initial_locals [inr true] ∅))))
  <> task_successes
       (counters (initial_locals (F := float) (InitState := Z * nat)
                    (Obs := unit) (Img := Z)
                    ([inr true] : list (PyExn + bool)) ∅)) /\
  fst (run_episode (scripted 1 1) (config "libero_spatial" 0 1) bowl
         [(0, 0%nat)] 0 (initial_locals [inr true] ∅)) = Val tt.
Proof.
  assert (H1 : task_successes
                 (counters (snd (run_episode (scripted 1 1)
                                   (config "libero_spatial" 0 1) bowl
                                   [(0, 0%nat)] 0%nat
                                   (initial_locals [inr true] ∅))))
               <> task_successes
                    (counters (initial_locals (F := float)
                                 (InitState := Z * nat) (Obs := unit)
                                 (Img := Z)
                                 ([inr true] : list (PyExn + bool)) ∅))).
  { vm_compute. discriminate. }
  exact (conj H1
           (proj1 (success_needs_done_in_acting_step
                     (scripted 1 1) (config "libero_spatial" 0 1) bowl
                     [(0, 0%nat)] 0%nat (initial_locals [inr true] ∅) H1))).
Defined.

Lemma episode_steps_witness :
  max_steps_table "libero_spatial" = Some 220 /\
  fst (run_episode (scripted 1 1) (config "libero_spatial" 2 1) bowl
         [(0, 0%nat)] 0 (initial_locals [inr false; inr false; inr true] ∅))
  = Val tt /\
  0 <= t (snd (run_episode (scripted 1 1) (config "libero_spatial" 2 1) bowl
                 [(0, 0%nat)] 0
                 (initial_locals [inr false; inr false; inr true] ∅)))
    <= Z.max 0 (220 + 2).
Proof.
  assert (H1 : max_steps_table
                 (task_suite_name (config "libero_spatial" 2 1))
               = Some 220) by reflexivity.
  assert (H2 : fst (run_episode (scripted 1 1) (config "libero_spatial" 2 1)
                      bowl [(0, 0%nat)] 0%nat
                      (initial_locals [inr false; inr false; inr true] ∅))
               = Val tt) by (vm_compute; reflexivity).
  exact (conj H1 (conj H2
           (proj2 (episode_adds_its_steps
                     (scripted 1 1) (config "libero_spatial" 2 1) bowl
                     [(0, 0%nat)] 0%nat
                     (initial_locals [inr false; inr false; inr true] ∅)
                     220 H1 H2)))).
Defined.

Lemma video_frames_witness :
  max_steps_table "libero_spatial" = Some 220 /\
  0 <= 2 /\
  fst (run_episode (scripted 1 1) (config "libero_spatial" 2 1) bowl
         [(0, 0%nat)] 0 (initial_locals [inr false; inr false; inr true] ∅))
  = Val tt /\
  (List.length
     (replay_images
        (snd (run_episode (scripted 1 1) (config "libero_spatial" 2%Z 1%Z)
                bowl [(0%Z, 0%nat)] 0%nat
                (initial_locals [inr false; inr false; inr true] ∅))))
   <= Z.to_nat 220)%nat.
Proof.
  assert (H1 : max_steps_table
                 (task_suite_name (config "libero_spatial" 2 1))
               = Some 220) by reflexivity.
  assert (H2 : 0 <= num_steps_wait (config "libero_spatial" 2 1))
    by (cbn; lia).
  assert (H3 : fst (run_episode (scripted 1 1) (config "libero_spatial" 2 1)
                      bowl [(0, 0%nat)] 0%nat
                      (initial_locals [inr false; inr false; inr true] ∅))
               = Val tt) by (vm_compute; reflexivity).
  exact (conj H1 (conj H2 (conj H3
           (video_has_at_most_max_steps_frames
              (scripted 1 1) (config "libero_spatial" 2 1) bowl
              [(0, 0%nat)] 0%nat
              (initial_locals [inr false; inr false; inr true] ∅)
              220 H1 H2 H3)))).
Defined.


Lemma completed_run_witness :
  benchmark_dict (scripted 2 1) "libero_spatial" = Some two_tasks /\
  fst (eval_libero (scripted 2 1) (config "libero_spatial" 0 1)
         (initial_locals [inr true; inr true] ∅)) = Val tt /\
  total_episodes
    (counters (snd (eval_libero (scripted 2 1) (config "libero_spatial" 0 1)
                      (initial_locals [inr true; inr true] ∅))))
  = 2.
Proof.
  assert (H1 : benchmark_dict (scripted 2 1)
                 (task_suite_name (config "libero_spatial" 0 1))
               = Some two_tasks) by reflexivity.
  assert (H2 : fst (eval_libero (scripted 2 1) (config "libero_spatial" 0 1)
                      (initial_locals [inr true; inr true] ∅)) = Val tt)
    by (vm_compute; reflexivity).
  exact (conj H1 (conj H2
           (completed_run_ran_all_trials
              (scripted 2 1) (config "libero_spatial" 0 1)
              [inr true; inr true] ∅ two_tasks H1 H2))).
Defined.

End EvalMore.
